(** * CSV/XLSX to OFX converter: a shallow embedding of [tool.py]

    The development follows the source file top to bottom: Python text and
    number formatting, the [datetime] values, the pandas frame operations the
    converter calls, then [normalize_amount], [parse_date], [generate_fitid],
    [render_ofx], [parse_dataframe] and [main], and finally the properties of
    these functions and of the rendered statement. *)

From Stdlib Require Import ZArith Ascii String DecimalString Floats.SpecFloat.
From Stdlib Require Import Sorting.Sorted.
From Stdlib Require DecimalPos DecimalZ.
From stdpp Require Import gmap strings list fin_maps sorting.

Local Open Scope string_scope.
Local Open Scope Z_scope.

#[local] Arguments String.append !s1 s2 : simpl nomatch.

(** ** Python text

    A [str] is a sequence of code points; the model keeps the code points
    below 256, which is Rocq's [ascii]. *)
Module Text.

(** [str.isspace] on one code point of that range. *)
Definition isspace (c : ascii) : bool :=
  let n := N_of_ascii c in
  ((9 <=? n) && (n <=? 13) || (28 <=? n) && (n <=? 32)
   || (n =? 133) || (n =? 160))%N.

Fixpoint lstrip (s : string) : string :=
  match s with
  | String c s' => if isspace c then lstrip s' else s
  | EmptyString => EmptyString
  end.

Definition rstrip (s : string) : string := String.rev (lstrip (String.rev s)).

(** [s.strip()] *)
Definition strip (s : string) : string := rstrip (lstrip s).

(** [s.replace(" ", "")] *)
Fixpoint remove_spaces (s : string) : string :=
  match s with
  | String c s' =>
      if Ascii.eqb c " " then remove_spaces s' else String c (remove_spaces s')
  | EmptyString => EmptyString
  end.

(** [s[:n]] *)
Definition slice_to (n : nat) (s : string) : string := substring 0 n s.

(** Truth value of a [str]: non-empty. *)
Definition truthy (s : string) : bool :=
  match s with EmptyString => false | _ => true end.

(** [sep.join(lines)] *)
Fixpoint join (sep : string) (lines : list string) : string :=
  match lines with
  | [] => ""
  | [l] => l
  | l :: ls => l +:+ sep +:+ join sep ls
  end.

(** The line feed, and the lines of a text as a consumer that reads it line
    by line sees them ([text.split("\n")]). *)
Definition newline : ascii := "010".

Fixpoint split_lines (s : string) : list string :=
  match s with
  | EmptyString => [""]
  | String c s' =>
      if Ascii.eqb c newline then "" :: split_lines s'
      else match split_lines s' with
           | l :: ls => String c l :: ls
           | [] => [String c ""]
           end
  end.

Fixpoint forallb_string (p : ascii → bool) (s : string) : bool :=
  match s with
  | String c s' => p c && forallb_string p s'
  | EmptyString => true
  end.

Fixpoint existsb_string (p : ascii → bool) (s : string) : bool :=
  match s with
  | String c s' => p c || existsb_string p s'
  | EmptyString => false
  end.

Definition isdigit (c : ascii) : bool :=
  let n := N_of_ascii c in ((48 <=? n) && (n <=? 57))%N.

(** [str(int)] *)
Definition str_int (z : Z) : string := NilZero.string_of_int (Z.to_int z).

Definition digit_char (d : Z) : ascii := ascii_of_N (48 + Z.to_N d).

(** The [w] low decimal digits of [z]. *)
Fixpoint low_digits (w : nat) (z : Z) : string :=
  match w with
  | O => ""
  | S w' => low_digits w' (z / 10) +:+ String (digit_char (z mod 10)) ""
  end.

(** Decimal digits of a natural number, left-padded with zeros to width [w]
    ([%02d], [%04d]); a number that needs more digits gets them. *)
Definition digits (w : nat) (z : Z) : string :=
  let high := z / 10 ^ Z.of_nat w in
  (if 0 <? high then NilZero.string_of_uint (N.to_uint (Z.to_N high)) else "")
  +:+ low_digits w z.

(** [-?[0-9]+\.[0-9][0-9]]: a number printed with two fractional digits. *)
Fixpoint two_decimals_unsigned (s : string) : bool :=
  match s with
  | String c s' =>
      isdigit c &&
      (two_decimals_unsigned s' ||
       match s' with
       | String "." (String d1 (String d2 "")) => isdigit d1 && isdigit d2
       | _ => false
       end)
  | EmptyString => false
  end.

Definition two_decimals (s : string) : bool :=
  match s with
  | String "-" s' => two_decimals_unsigned s'
  | _ => two_decimals_unsigned s
  end.

Definition no_space (s : string) : bool :=
  forallb_string (λ c, negb (Ascii.eqb c " ")) s.

Definition one_line (s : string) : bool :=
  forallb_string (λ c, negb (Ascii.eqb c newline)) s.

(** [s.lower()] on one code point: the capital letters of ASCII and of the
    Latin-1 range have their small letter 32 places up. *)
Definition lower_char (c : ascii) : ascii :=
  let n := N_of_ascii c in
  if ((65 <=? n) && (n <=? 90)
      || (192 <=? n) && (n <=? 222) && negb (n =? 215))%N
  then ascii_of_N (n + 32) else c.

Fixpoint lower (s : string) : string :=
  match s with
  | String c s' => String (lower_char c) (lower s')
  | EmptyString => EmptyString
  end.

(** [s.endswith(suffix)] *)
Definition endswith (s suffix : string) : bool :=
  let n := String.length s in
  let k := String.length suffix in
  (k <=? n)%nat && String.eqb (substring (n - k) k s) suffix.

(** The text before the last [sep] of [s], when [s] holds one. *)
Fixpoint before_last (sep : ascii) (s : string) : option string :=
  match s with
  | String c s' =>
      match before_last sep s' with
      | Some h => Some (String c h)
      | None => if Ascii.eqb c sep then Some "" else None
      end
  | EmptyString => None
  end.

(** [s.rsplit(sep, 1)[0]] for a separator of one character. *)
Definition rsplit1_head (sep : ascii) (s : string) : string :=
  default s (before_last sep s).

End Text.

(** ** [datetime] values

    [datetime.now()] and the pandas [Timestamp]s of the [__date] column are
    records of calendar fields, compared field by field. *)
Record datetime := mkdt {
  year : Z; month : Z; day : Z;
  hour : Z; minute : Z; second : Z; microsecond : Z; nanosecond : Z
}.

Definition dt_date (t : datetime) : list Z := [year t; month t; day t].

Definition dt_fields (t : datetime) : list Z :=
  dt_date t ++ [hour t; minute t; second t; microsecond t; nanosecond t].

Fixpoint lex_compare (a b : list Z) : comparison :=
  match a, b with
  | [], [] => Eq
  | [], _ :: _ => Lt
  | _ :: _, [] => Gt
  | x :: a', y :: b' =>
      match x ?= y with
      | Eq => lex_compare a' b'
      | c => c
      end
  end.

Definition lex_leb (a b : list Z) : bool :=
  match lex_compare a b with Gt => false | _ => true end.

(** [a <= b] on datetimes. *)
Definition dt_leb (a b : datetime) : bool := lex_leb (dt_fields a) (dt_fields b).

(** Order of the calendar days alone, which is what [%Y%m%d] prints. *)
Definition date_leb (a b : datetime) : bool := lex_leb (dt_date a) (dt_date b).

(** A datetime the library can hold and whose year prints on four digits. *)
Definition dt_valid (t : datetime) : Prop :=
  1000 <= year t <= 9999 ∧ 1 <= month t <= 12 ∧ 1 <= day t <= 31 ∧
  0 <= hour t <= 23 ∧ 0 <= minute t <= 59 ∧ 0 <= second t <= 59 ∧
  0 <= microsecond t <= 999999 ∧ 0 <= nanosecond t <= 999.

(** [%Y]: the year in decimal, which the C library does not pad; a year
    from 1000 on has its four digits. *)
Definition year_text (y : Z) : string :=
  if y <? 1000 then Text.digits 1 y else Text.digits 4 y.

(** [f"{t:%Y%m%d}"] *)
Definition strftime_Ymd (t : datetime) : string :=
  year_text (year t) +:+ Text.digits 2 (month t) +:+ Text.digits 2 (day t).

(** [f"{t:%Y%m%d%H%M%S}"] *)
Definition strftime_YmdHMS (t : datetime) : string :=
  strftime_Ymd t +:+ Text.digits 2 (hour t) +:+ Text.digits 2 (minute t)
  +:+ Text.digits 2 (second t).

(** ** Python [float]: IEEE binary64, as [spec_float] at precision 53 *)
Abbreviation float := spec_float.

Module Float.

Definition prec : Z := 53.
Definition emax : Z := 1024.

(** [float(z)] for a Python int: the nearest binary64. *)
Definition of_int (z : Z) : float := binary_normalize prec emax z 0 false.

Definition minus_one : float := S754_finite true 4503599627370496 (-52).

(** [x * -1] *)
Definition neg (x : float) : float := SFmul prec emax x minus_one.

(** [x >= 0] *)
Definition ge0 (x : float) : bool := SFleb (S754_zero false) x.

Definition isnan (x : float) : bool :=
  match x with S754_nan => true | _ => false end.

Definition isfinite (x : float) : bool :=
  match x with S754_nan | S754_infinity _ => false | _ => true end.

(** Nearest integer to [m * 2^e], ties to even. *)
Definition round_half_even (m e : Z) : Z :=
  if 0 <=? e then m * 2 ^ e
  else
    let d := 2 ^ (- e) in
    let q := m / d in
    let r := m mod d in
    match 2 * r ?= d with
    | Lt => q
    | Gt => q + 1
    | Eq => if Z.even q then q else q + 1
    end.

Definition sign_text (s : bool) : string := if s then "-" else "".

(** [f"{x:.2f}"]: the value rounded to hundredths, ties to even on the exact
    binary value, printed with the integer part, a point and two digits. *)
Definition format_2f (x : float) : string :=
  match x with
  | S754_nan => "nan"
  | S754_infinity s => sign_text s +:+ "inf"
  | S754_zero s => sign_text s +:+ "0.00"
  | S754_finite s m e =>
      let n := round_half_even (Z.pos m * 100) e in
      sign_text s +:+ Text.digits 1 (n / 100) +:+ "." +:+ Text.digits 2 (n mod 100)
  end.

End Float.

(** ** [generate_fitid] *)
Definition generate_fitid (row_index : Z) (when : datetime) (amount : float)
    (memo : string) : string :=
  let digest :=
    strftime_Ymd when +:+ "-" +:+ Float.format_2f amount +:+ "-"
    +:+ Text.str_int row_index in
  let digest :=
    if Text.truthy memo
    then digest +:+ "-" +:+ Text.slice_to 20 (Text.strip memo)
    else digest in
  Text.remove_spaces digest.


(** ** Exceptions and the wall clock

    A call either returns or raises; [datetime.now()] reads a clock that
    moves between two readings, so the clock is threaded as state through
    the code that reads it. *)
Inductive exn :=
  | KeyError (key : string)
  | TypeError
  | ValueError
  | OverflowError.

Inductive result (A : Type) :=
  | Ok (a : A)
  | Raise (e : exn).
Arguments Ok {A} a.
Arguments Raise {A} e.

#[global] Instance result_ret : MRet result := λ A a, Ok a.
#[global] Instance result_bind : MBind result := λ A B f m,
  match m with
  | Ok a => f a
  | Raise e => Raise e
  end.

Record Clock := mkClock { reading : nat → datetime; ticks : nat }.

(** Computations that read the clock. *)
Definition M (A : Type) : Type := Clock → result (A * Clock).

#[global] Instance M_ret : MRet M := λ A a clk, Ok (a, clk).
#[global] Instance M_bind : MBind M := λ A B f m clk,
  match m clk with
  | Ok (a, clk') => f a clk'
  | Raise e => Raise e
  end.

(** A computation that leaves the clock alone. *)
Definition lift {A} (r : result A) : M A := λ clk,
  match r with
  | Ok a => Ok (a, clk)
  | Raise e => Raise e
  end.

(** What the caller gets back from a computation started on [clk]. *)
Definition run {A} (m : M A) (clk : Clock) : result A :=
  match m clk with Ok (a, _) => Ok a | Raise e => Raise e end.

(** [datetime.now()] *)
Definition now : M datetime := λ clk,
  Ok (reading clk (ticks clk), mkClock (reading clk) (S (ticks clk))).

(** ** Cells, series and frames *)
Inductive cell :=
  | CStr (s : string)
  | CInt (z : Z)
  | CFloat (f : float)
  | CTime (t : datetime)
  | CNaT.

(** The missing-value marker of an empty cell. *)
Definition NaN : cell := CFloat S754_nan.

(** [pd.isna] on one cell. *)
Definition isna (c : cell) : bool :=
  match c with
  | CFloat f => Float.isnan f
  | CNaT => true
  | _ => false
  end.

(** A numeric column holds integers or floats. *)
Inductive num :=
  | NInt (z : Z)
  | NFloat (f : float).


Definition num_cell (v : num) : cell :=
  match v with NInt z => CInt z | NFloat f => CFloat f end.

Definition time_cell (v : option datetime) : cell :=
  match v with Some t => CTime t | None => CNaT end.

Definition wrap64 (z : Z) : Z := (z + 2 ^ 63) mod 2 ^ 64 - 2 ^ 63.

(** [v * -1] on an element of an int64 or float64 column. *)
Definition num_neg (v : num) : num :=
  match v with
  | NInt z => NInt (wrap64 (z * -1))
  | NFloat f => NFloat (Float.neg f)
  end.

(** An integer that int64 does not hold: its column is a uint64 column. *)
Definition out_of_int64 (v : num) : bool :=
  match v with
  | NInt z => negb ((- 2 ^ 63 <=? z) && (z <? 2 ^ 63))
  | NFloat _ => false
  end.

(** [values * -1] on a numeric column: element by element on int64 and
    float64; on a uint64 column the integer [-1] is out of bounds and the
    product raises. *)
Definition times_minus_one (values : list num) : result (list num) :=
  if existsb out_of_int64 values then Raise OverflowError
  else Ok (num_neg <$> values).

Record DataFrame := mkDataFrame {
  index : list Z;
  columns : gmap string (list cell)
}.

Definition nrows (df : DataFrame) : nat := length (index df).

(** Value of a series at a position; a position the series lacks reads as
    missing, as index alignment does. *)
Definition cell_at (s : list cell) (i : nat) : cell := default NaN (s !! i).

(** [df.copy()] *)
Definition copy (df : DataFrame) : DataFrame := df.

(** [df[col]] *)
Definition getitem (df : DataFrame) (col : string) : result (list cell) :=
  match columns df !! col with
  | Some s => Ok s
  | None => Raise (KeyError col)
  end.

(** [df[col] = series] *)
Definition setitem (df : DataFrame) (col : string) (s : list cell) : DataFrame :=
  mkDataFrame (index df) (<[col := s]> (columns df)).

(** [df.take(indexer)]: the rows at the given positions, in that order. *)
Definition take_rows (ix : list nat) (df : DataFrame) : DataFrame :=
  mkDataFrame (omap (λ i, index df !! i) ix)
              ((λ s, cell_at s <$> ix) <$> columns df).

(** [df.empty] *)
Definition empty (df : DataFrame) : bool :=
  bool_decide (index df = []) || bool_decide (columns df = ∅).

(** [df.dropna(subset=...)] *)
Definition dropna (df : DataFrame) (subset : list string) : result DataFrame :=
  ss ← mapM (getitem df) subset;
  let keep :=
    filter (λ i, forallb (λ s, negb (isna (cell_at s i))) ss = true)
           (seq 0 (nrows df)) in
  mret (take_rows keep df).

(** Sort key of a cell of a datetime column; [NaT] sorts last. *)
Definition sort_key (c : cell) : option datetime :=
  match c with CTime t => Some t | _ => None end.

Definition key_leb (a b : option datetime) : bool :=
  match a, b with
  | Some x, Some y => dt_leb x y
  | _, None => true
  | None, Some _ => false
  end.

Definition dt_min (a b : datetime) : datetime := if dt_leb a b then a else b.
Definition dt_max (a b : datetime) : datetime := if dt_leb a b then b else a.

Definition fold1 (f : datetime → datetime → datetime) (l : list datetime)
    : option datetime :=
  match l with
  | [] => None
  | x :: l' => Some (foldl f x l')
  end.

(** [series.min()] and [series.max()] of a datetime column, skipping [NaT]. *)
Definition series_min (s : list cell) : result datetime :=
  match fold1 dt_min (omap sort_key s) with
  | Some t => Ok t
  | None => Raise ValueError
  end.

Definition series_max (s : list cell) : result datetime :=
  match fold1 dt_max (omap sort_key s) with
  | Some t => Ok t
  | None => Raise ValueError
  end.

(** A row as [iterrows] yields it: the label and the cells by column. *)
Definition row_at (df : DataFrame) (i : nat) : gmap string cell :=
  (λ s, cell_at s i) <$> columns df.

Definition iterrows (df : DataFrame) : list (Z * gmap string cell) :=
  imap (λ i label, (label, row_at df i)) (index df).

(** [row[col]] *)
Definition row_get (row : gmap string cell) (col : string) : result cell :=
  match row !! col with
  | Some c => Ok c
  | None => Raise (KeyError col)
  end.

(** [float(v)] on a cell of the [__amount] column, which holds numbers. *)
Definition float_of_cell (c : cell) : result float :=
  match c with
  | CInt z => Ok (Float.of_int z)
  | CFloat f => Ok f
  | CStr _ => Raise ValueError
  | CTime _ | CNaT => Raise TypeError
  end.

Definition datetime_of_cell (c : cell) : result datetime :=
  match c with
  | CTime t => Ok t
  | _ => Raise TypeError
  end.

Record OfxMeta := mkOfxMeta {
  bank_id : string;
  account_id : string;
  account_type : string;
  currency : string;
  org : string;
  fid : string
}.

(** [str(t)] for a [Timestamp]. *)
Definition str_datetime (t : datetime) : string :=
  let base :=
    Text.digits 4 (year t) +:+ "-" +:+ Text.digits 2 (month t) +:+ "-"
    +:+ Text.digits 2 (day t) +:+ " " +:+ Text.digits 2 (hour t) +:+ ":"
    +:+ Text.digits 2 (minute t) +:+ ":" +:+ Text.digits 2 (second t) in
  if negb (nanosecond t =? 0)
  then base +:+ "." +:+ Text.digits 6 (microsecond t) +:+ Text.digits 3 (nanosecond t)
  else if negb (microsecond t =? 0)
  then base +:+ "." +:+ Text.digits 6 (microsecond t)
  else base.

(** An optional column name is used when it is given and non-empty
    ([if memo_col]). *)
Definition mapped (col : option string) : option string :=
  match col with
  | Some c => if Text.truthy c then Some c else None
  | None => None
  end.

(** ** The converter

    The pandas entry points that parse a whole column and the sort behind
    [sort_values] are parameters of the development, together with the
    digits [str] prints for a finite float.  [to_datetime] is called with
    [errors="coerce"], which turns a cell it cannot read into [NaT]; it
    still raises on a format it cannot use, so it returns a [result].
    [to_numeric] with [errors="coerce"] returns for every column. *)
Section Converter.

Variable to_datetime :
  option string → list cell → result (list (option datetime)).
Variable to_numeric : list cell → list num.
Variable argsort : list (option datetime) → list nat.
Variable float_repr : float → string.

(** [str(v)] for the value of a cell. *)
Definition str_cell (c : cell) : string :=
  match c with
  | CStr s => s
  | CInt z => Text.str_int z
  | CFloat S754_nan => "nan"
  | CFloat (S754_infinity s) => Float.sign_text s +:+ "inf"
  | CFloat f => float_repr f
  | CTime t => str_datetime t
  | CNaT => "NaT"
  end.

Definition normalize_amount (series : list cell) (invert : bool)
    : result (list num) :=
  let values := to_numeric series in
  if invert then times_minus_one values else mret values.

Definition parse_date (series : list cell) (date_format : string)
    : result (list (option datetime)) :=
  if Text.truthy (Text.strip date_format)
  then to_datetime (Some date_format) series
  else to_datetime None series.

(** [df.sort_values(by)], with the default sort kind. *)
Definition sort_values (df : DataFrame) (by_ : string) : result DataFrame :=
  s ← getitem df by_;
  mret (take_rows (argsort (sort_key <$> s)) df).

(** The eight lines appended for one transaction. *)
Definition block_lines (trn_type posted trnamt fitid name memo : string)
    : list string :=
  [ "          <STMTTRN>";
    "            <TRNTYPE>" +:+ trn_type;
    "            <DTPOSTED>" +:+ posted;
    "            <TRNAMT>" +:+ trnamt;
    "            <FITID>" +:+ fitid;
    "            <NAME>" +:+ name;
    "            <MEMO>" +:+ memo;
    "          </STMTTRN>" ].

(** The body of the [for idx, row in df.iterrows()] loop. *)
Definition stmttrn (name_col memo_col : option string)
    (it : Z * gmap string cell) : result (list string) :=
  let '(idx, row) := it in
  memo ← match mapped memo_col with
          | Some c => v ← row_get row c; mret (Text.strip (str_cell v))
          | None => mret ""
          end;
  name ← match mapped name_col with
          | Some c => v ← row_get row c; mret (Text.strip (str_cell v))
          | None => mret memo
          end;
  when ← row_get row "__date" ≫= datetime_of_cell;
  amount ← row_get row "__amount" ≫= float_of_cell;
  let fitid := generate_fitid idx when amount memo in
  let trn_type := if Float.ge0 amount then "CREDIT" else "DEBIT" in
  mret (block_lines trn_type (strftime_Ymd when) (Float.format_2f amount) fitid
          (if Text.truthy name then name else "Transaction") memo).

Definition head_lines (meta : OfxMeta) (dtserver start_date end_date : datetime)
    : list string :=
  [ "OFXHEADER:100";
    "DATA:OFXSGML";
    "VERSION:102";
    "SECURITY:NONE";
    "ENCODING:USASCII";
    "CHARSET:1252";
    "COMPRESSION:NONE";
    "OLDFILEUID:NONE";
    "NEWFILEUID:NONE";
    "";
    "<OFX>";
    "  <SIGNONMSGSRSV1>";
    "    <SONRS>";
    "      <STATUS>";
    "        <CODE>0";
    "        <SEVERITY>INFO";
    "      </STATUS>";
    "      <DTSERVER>" +:+ strftime_YmdHMS dtserver;
    "      <LANGUAGE>ENG";
    "      <FI>";
    "        <ORG>" +:+ org meta;
    "        <FID>" +:+ fid meta;
    "      </FI>";
    "    </SONRS>";
    "  </SIGNONMSGSRSV1>";
    "  <BANKMSGSRSV1>";
    "    <STMTTRNRS>";
    "      <TRNUID>1";
    "      <STATUS>";
    "        <CODE>0";
    "        <SEVERITY>INFO";
    "      </STATUS>";
    "      <STMTRS>";
    "        <CURDEF>" +:+ currency meta;
    "        <BANKACCTFROM>";
    "          <BANKID>" +:+ bank_id meta;
    "          <ACCTID>" +:+ account_id meta;
    "          <ACCTTYPE>" +:+ account_type meta;
    "        </BANKACCTFROM>";
    "        <BANKTRANLIST>";
    "          <DTSTART>" +:+ strftime_Ymd start_date;
    "          <DTEND>" +:+ strftime_Ymd end_date ].

Definition tail_lines (end_date : datetime) : list string :=
  [ "        </BANKTRANLIST>";
    "        <LEDGERBAL>";
    "          <BALAMT>0.00";
    "          <DTASOF>" +:+ strftime_Ymd end_date;
    "        </LEDGERBAL>";
    "      </STMTRS>";
    "    </STMTTRNRS>";
    "  </BANKMSGSRSV1>";
    "</OFX>" ].

(** The frame the loop of [render_ofx] iterates: the copy with the two
    scratch columns, without the rows that failed to parse, sorted. *)
Definition prepare (df : DataFrame) (date_col amount_col : string)
    (invert_amount : bool) (date_format : string) : result DataFrame :=
  let df := copy df in
  s ← getitem df date_col;
  dates ← parse_date s date_format;
  let df := setitem df "__date" (time_cell <$> dates) in
  s ← getitem df amount_col;
  amounts ← normalize_amount s invert_amount;
  let df := setitem df "__amount" (num_cell <$> amounts) in
  df ← dropna df ["__date"; "__amount"];
  sort_values df "__date".

(** The list [lines] of [render_ofx] when it reaches its [return]. *)
Definition render_lines (df : DataFrame) (meta : OfxMeta)
    (date_col amount_col : string) (name_col memo_col : option string)
    (invert_amount : bool) (date_format : string) : M (list string) :=
  df ← lift (prepare df date_col amount_col invert_amount date_format);
  start_date ← (if negb (empty df)
                then lift (getitem df "__date" ≫= series_min) else now);
  end_date ← (if negb (empty df)
              then lift (getitem df "__date" ≫= series_max) else now);
  dtserver ← now;
  let lines := head_lines meta dtserver start_date end_date in
  blocks ← lift (mapM (stmttrn name_col memo_col) (iterrows df));
  mret (lines ++ concat blocks ++ tail_lines end_date)%list.

Definition render_ofx (df : DataFrame) (meta : OfxMeta)
    (date_col amount_col : string) (name_col memo_col : option string)
    (invert_amount : bool) (date_format : string) : M string :=
  lines ← render_lines df meta date_col amount_col name_col memo_col
            invert_amount date_format;
  mret (Text.join (String Text.newline "") lines).

End Converter.

(** ** The upload and the page

    [parse_dataframe] picks the reader by the name of the uploaded file; the
    two readers are parameters.  [main] is the script of the page: what the
    visitor uploaded and entered is its input, the download it offers is its
    result. *)
Record UploadedFile := mkUploadedFile {
  upload_name : string;
  upload_bytes : string
}.

(** The values of the widgets below the preview.  The four column boxes
    return one of the options they offer. *)
Record Widgets := mkWidgets {
  w_date_col : string;
  w_amount_col : string;
  w_name_col : string;
  w_memo_col : string;
  w_date_format : string;
  w_invert_amount : bool;
  w_meta : OfxMeta;
  w_generate : bool
}.

(** The arguments of [st.download_button]. *)
Record Download := mkDownload {
  download_data : string;
  download_file_name : string;
  download_mime : string
}.

(** [list(df.columns)], up to the order of the columns. *)
Definition column_names (df : DataFrame) : list string :=
  (map_to_list (columns df)).*1.

(** [None if col == "(none)" else col] *)
Definition optional_column (choice : string) : option string :=
  if String.eqb choice "(none)" then None else Some choice.

Section Page.

Variable to_datetime :
  option string → list cell → result (list (option datetime)).
Variable to_numeric : list cell → list num.
Variable argsort : list (option datetime) → list nat.
Variable float_repr : float → string.
Variable read_csv : UploadedFile → result DataFrame.
Variable read_excel : UploadedFile → result DataFrame.

Definition parse_dataframe (uploaded_file : UploadedFile) : result DataFrame :=
  if Text.endswith (Text.lower (upload_name uploaded_file)) ".csv"
  then read_csv uploaded_file
  else read_excel uploaded_file.

(** The options of the two required and of the two optional column boxes. *)
Definition required_options (df : DataFrame) : list string := column_names df.
Definition optional_options (df : DataFrame) : list string :=
  "(none)" :: column_names df.

Definition main (uploaded : option UploadedFile) (w : Widgets)
    : M (option Download) :=
  match uploaded with
  | None => mret None
  | Some file =>
      df ← lift (parse_dataframe file);
      if w_generate w
      then
        ofx_text ← render_ofx to_datetime to_numeric argsort float_repr df
                     (w_meta w) (w_date_col w) (w_amount_col w)
                     (optional_column (w_name_col w))
                     (optional_column (w_memo_col w))
                     (w_invert_amount w) (w_date_format w);
        let filename_root := Text.rsplit1_head "." (upload_name file) in
        mret (Some (mkDownload ofx_text (filename_root +:+ ".ofx")
                      "application/x-ofx"))
      else mret None
  end.

End Page.

(** ** Reference instances of the parameters

    Executable stand-ins for the library calls, used to run the converter on
    concrete tables.  [to_datetime] covers columns of [Timestamp]s, missing
    cells and texts of the shapes [YYYY-MM-DD] and [MM/DD/YYYY], with the
    formats [%Y-%m-%d] and [%m/%d/%Y] or with no format, and the formats that
    hold a directive [strptime] does not know.  [to_numeric] covers numeric
    columns, datetime columns and columns of integer literals and of decimal
    literals of at most fifteen digits, written without an exponent.
    [float_repr] covers the floats that [str] prints without an exponent,
    those between 0.0001 and 10^16 in magnitude. *)
Module Ref.

Definition insert_by (before : nat → nat → bool) (i : nat) : list nat → list nat :=
  fix go (l : list nat) : list nat :=
    match l with
    | [] => [i]
    | j :: l' => if before i j then i :: l else j :: go l'
    end.

Definition key_at (ks : list (option datetime)) (i : nat) : option datetime :=
  default None (ks !! i).

(** A stable sort: equal keys keep their order. *)
Definition argsort_stable (ks : list (option datetime)) : list nat :=
  foldr (insert_by (λ i j, key_leb (key_at ks i) (key_at ks j))) []
        (seq 0 (length ks)).

Definition digit_val (c : ascii) : option Z :=
  if Text.isdigit c then Some (Z.of_N (N_of_ascii c) - 48) else None.

Fixpoint number_from (acc : Z) (s : string) : option Z :=
  match s with
  | EmptyString => Some acc
  | String c s' => d ← digit_val c; number_from (10 * acc + d) s'
  end.

(** A non-empty run of decimal digits. *)
Definition number (s : string) : option Z :=
  if Text.truthy s then number_from 0 s else None.

Definition is_leap (y : Z) : bool :=
  (y mod 4 =? 0) && (negb (y mod 100 =? 0) || (y mod 400 =? 0)).

Definition days_in_month (y m : Z) : Z :=
  if m =? 2 then (if is_leap y then 29 else 28)
  else if (m =? 4) || (m =? 6) || (m =? 9) || (m =? 11) then 30 else 31.

Definition parse_iso_date (s : string) : option datetime :=
  let s := Text.strip s in
  if negb (String.length s =? 10)%nat then None else
  if negb (String.eqb (substring 4 1 s) "-" && String.eqb (substring 7 1 s) "-")
  then None else
  y ← number (substring 0 4 s);
  m ← number (substring 5 2 s);
  d ← number (substring 8 2 s);
  if (1678 <=? y) && (y <=? 2261) && (1 <=? m) && (m <=? 12) && (1 <=? d)
     && (d <=? days_in_month y m)
  then Some (mkdt y m d 0 0 0 0 0) else None.

Definition parse_mdy_date (s : string) : option datetime :=
  let s := Text.strip s in
  if negb (String.length s =? 10)%nat then None else
  if negb (String.eqb (substring 2 1 s) "/" && String.eqb (substring 5 1 s) "/")
  then None else
  m ← number (substring 0 2 s);
  d ← number (substring 3 2 s);
  y ← number (substring 6 4 s);
  if (1678 <=? y) && (y <=? 2261) && (1 <=? m) && (m <=? 12) && (1 <=? d)
     && (d <=? days_in_month y m)
  then Some (mkdt y m d 0 0 0 0 0) else None.

(** The two shapes of text, and the format each is read with. *)
Inductive shape := Iso | MonthFirst.

Definition parse_shape (sh : shape) (s : string) : option datetime :=
  match sh with
  | Iso => parse_iso_date s
  | MonthFirst => parse_mdy_date s
  end.

(** The shape guessed from one text. *)
Definition guess_shape (s : string) : option shape :=
  match parse_iso_date s, parse_mdy_date s with
  | Some _, _ => Some Iso
  | None, Some _ => Some MonthFirst
  | None, None => None
  end.

(** The first cell that is not missing. *)
Definition first_non_null (series : list cell) : option cell :=
  find (λ c, negb (isna c)) series.

(** The letters that make a directive after [%]. *)
Definition directive (c : ascii) : bool :=
  Text.existsb_string (Ascii.eqb c) "aAbBcdfHIjmMpSUwWxXyYzZGuV%".

(** A format with a [%] that no directive follows. *)
Fixpoint bad_format (f : string) : bool :=
  match f with
  | String "%" (String c f') => negb (directive c) || bad_format f'
  | String "%" EmptyString => true
  | String _ f' => bad_format f'
  | EmptyString => false
  end.

Definition is_text (c : cell) : bool :=
  match c with CStr _ => true | _ => false end.

(** Every text of the column read by [read]; a [Timestamp] stays. *)
Definition read_column (read : string → option datetime) (series : list cell)
    : list (option datetime) :=
  (λ c, match c with
        | CTime t => Some t
        | CStr s => read s
        | _ => None
        end) <$> series.

(** With a format, every text is read with it.  With none, the format is
    guessed from the first cell that is not missing and every text is read
    with that one; when nothing can be guessed each text is read on its
    own. *)
Definition to_datetime (format : option string) (series : list cell)
    : result (list (option datetime)) :=
  match format with
  | Some f =>
      if bad_format f && existsb is_text series then Raise ValueError
      else if String.eqb f "%Y-%m-%d" then Ok (read_column parse_iso_date series)
      else if String.eqb f "%m/%d/%Y" then Ok (read_column parse_mdy_date series)
      else Ok (read_column (λ _, None) series)
  | None =>
      match first_non_null series with
      | Some (CStr s) =>
          match guess_shape s with
          | Some sh => Ok (read_column (parse_shape sh) series)
          | None =>
              Ok (read_column
                    (λ s, match parse_iso_date s with
                          | Some t => Some t
                          | None => parse_mdy_date s
                          end) series)
          end
      | _ =>
          Ok (read_column
                (λ s, match parse_iso_date s with
                      | Some t => Some t
                      | None => parse_mdy_date s
                      end) series)
      end
  end.

(** Days from 1970-01-01 to a civil date. *)
Definition days_from_civil (y m d : Z) : Z :=
  let y := if m <=? 2 then y - 1 else y in
  let era := y / 400 in
  let yoe := y - era * 400 in
  let doy := (153 * (if 2 <? m then m - 3 else m + 9) + 2) / 5 + d - 1 in
  let doe := yoe * 365 + yoe / 4 - yoe / 100 + doy in
  era * 146097 + doe - 719468.

(** The int64 view of a [Timestamp]: nanoseconds since the epoch. *)
Definition epoch_ns (t : datetime) : Z :=
  (((days_from_civil (year t) (month t) (day t) * 24 + hour t) * 60 + minute t)
   * 60 + second t) * 1000000000 + microsecond t * 1000 + nanosecond t.

Definition iNaT : Z := - 2 ^ 63.

(** A decimal literal: the float it denotes and, when it has no fractional
    part, the integer. *)
Definition parse_decimal (s : string) : option (float * option Z) :=
  let s := Text.strip s in
  let '(neg, body) :=
    match s with
    | String "-" r => (true, r)
    | String "+" r => (false, r)
    | _ => (false, s)
    end in
  let signed (f : float) := if neg then SFopp f else f in
  if String.eqb body "inf" then Some (signed (S754_infinity false), None) else
  match String.index 0%nat "." body with
  | None =>
      n ← number body;
      Some (signed (Float.of_int n), Some (if neg then - n else n))
  | Some p =>
      let ip := substring 0 p body in
      let fp := substring (S p) (String.length body - S p) body in
      if negb (Text.truthy ip || Text.truthy fp) then None else
      i ← number_from 0 ip;
      f ← number_from 0 fp;
      let k := Z.of_nat (String.length fp) in
      Some (signed (SFdiv Float.prec Float.emax
                      (Float.of_int (i * 10 ^ k + f)) (Float.of_int (10 ^ k))),
            None)
  end.

Definition is_numeric (c : cell) : bool :=
  match c with CInt _ | CFloat _ => true | _ => false end.

Definition is_datetime (c : cell) : bool :=
  match c with CTime _ | CNaT => true | _ => false end.

Definition to_numeric (series : list cell) : list num :=
  if forallb is_numeric series then
    (λ c, match c with CInt z => NInt z | CFloat f => NFloat f
          | _ => NFloat S754_nan end) <$> series
  else if forallb is_datetime series then
    (λ c, match c with CTime t => NInt (epoch_ns t) | _ => NInt iNaT end) <$> series
  else
    let parsed :=
      (λ c, match c with
            | CStr s => parse_decimal s
            | CInt z => Some (Float.of_int z, Some z)
            | CFloat f => Some (f, None)
            | _ => None
            end) <$> series in
    let floats := (λ p, NFloat (from_option fst S754_nan p)) <$> parsed in
    match mapM (λ p, p ≫= snd) parsed with
    | Some ints =>
        if forallb (λ z, (- 2 ^ 63 <=? z) && (z <? 2 ^ 63)) ints
           || forallb (λ z, (0 <=? z) && (z <? 2 ^ 64)) ints
        then NInt <$> ints else floats
    | None => floats
    end.

(** Digits of a finite float after rounding to [k] decimals. *)
Definition format_fixed (k : nat) (x : float) : string :=
  match x with
  | S754_finite s m e =>
      let p := 10 ^ Z.of_nat k in
      let n := Float.round_half_even (Z.pos m * p) e in
      Float.sign_text s +:+ Text.digits 1 (n / p) +:+ "."
      +:+ (if (k =? 0)%nat then "0" else Text.digits k (n mod p))
  | S754_zero s => Float.sign_text s +:+ "0.0"
  | _ => Float.format_2f x
  end.

(** [str] of a finite float: the fewest decimals that read back as the same
    float. *)
Definition float_repr (x : float) : string :=
  let reads_back (k : nat) :=
    match parse_decimal (format_fixed k x) with
    | Some (y, _) => match SFcompare x y with Some Eq => true | _ => false end
    | None => false
    end in
  format_fixed (default 17%nat (find reads_back (seq 0 17))) x.

Definition range_index (n : nat) : list Z := Z.of_nat <$> seq 0 n.

(** The frame [parse_dataframe] hands over: a default integer index over the
    rows of the file. *)
Definition frame (n : nat) (cols : list (string * list cell)) : DataFrame :=
  mkDataFrame (range_index n) (list_to_map cols).

End Ref.

(** ** Tables and clocks of the examples *)
Module Examples.

Definition meta0 : OfxMeta :=
  mkOfxMeta "0000" "000000000" "CHECKING" "USD" "UNIMATRIX" "0000".

Definition render_lines0 :=
  render_lines Ref.to_datetime Ref.to_numeric Ref.argsort_stable Ref.float_repr.

Definition render_ofx0 :=
  render_ofx Ref.to_datetime Ref.to_numeric Ref.argsort_stable Ref.float_repr.

(** A clock that reads the [n]-th second after [t] at its [n]-th reading. *)
Definition clock_from (t : datetime) : Clock :=
  mkClock (λ n, mkdt (year t) (month t) (day t) (hour t) (minute t)
                  (second t + Z.of_nat n) 0 0) 0.

Definition noon : datetime := mkdt 2024 2 1 12 0 0 0 0.
Definition jan5 : datetime := mkdt 2024 1 5 0 0 0 0 0.

(** A clock that has been read five times and shows the same seconds as
    [clock_from noon] from now on. *)
Definition clock_late : Clock :=
  mkClock (λ n, mkdt 2024 2 1 12 0 (Z.of_nat n - 5) 0 0) 5.

(** A clock that passes midnight between its first two readings. *)
Definition clock_midnight : Clock :=
  mkClock (λ n, match n with
                | O => mkdt 2024 1 31 23 59 59 999999 0
                | _ => mkdt 2024 2 1 0 0 0 (Z.of_nat n) 0
                end) 0.

(** 12.5 and 1.0 as binary64 values. *)
Definition f12_5 : float := S754_finite false 7036874417766400 (-49).
Definition f1 : float := Float.of_int 1.

(** The two rows of the worked scenario. *)
Definition df_two : DataFrame :=
  Ref.frame 2 [("date", [CStr "2024-01-05"; CStr "2024-01-03"]);
               ("amt", [CStr "100"; CStr "-50.5"])].

(** A row whose amount does not parse, followed by one that parses; and the
    same file without the first row. *)
Definition df_with_bad : DataFrame :=
  Ref.frame 2 [("date", [CStr "2024-01-03"; CStr "2024-01-05"]);
               ("amt", [CStr "N/A"; CStr "100"])].



(** An amount column that int64 cannot hold: a uint64 column. *)
Definition df_uint64 : DataFrame :=
  Ref.frame 1 [("date", [CStr "2024-01-05"]); ("amt", [CInt (2 ^ 63)])].

(** An amount column that reads as infinity, 12.5 and minus zero. *)
Definition df_amounts : DataFrame :=
  Ref.frame 3 [("date", [CStr "2024-01-05"; CStr "2024-01-06"; CStr "2024-01-07"]);
               ("amt", [CStr "inf"; CStr "12.5"; CStr "-0"])].

(** A column of integer texts, minus zero among them. *)
Definition df_int_zero : DataFrame :=
  Ref.frame 2 [("date", [CStr "2024-01-05"; CStr "2024-01-06"]);
               ("amt", [CStr "7"; CStr "-0"])].

(** A single date column, and no amount column at all. *)
Definition df_date_only : DataFrame :=
  Ref.frame 1 [("d", [CStr "2024-01-05"])].

(** A memo and a payee column with an empty cell each. *)
Definition df_missing_text : DataFrame :=
  Ref.frame 2 [("date", [CStr "2024-01-05"; CStr "2024-01-06"]);
               ("amt", [CInt 1; CInt 2]);
               ("memo", [NaN; CStr " rent "]);
               ("payee", [CStr "ACME"; NaN])].

(** A memo with a tab inside. *)
Definition memo_tab : string := "a" +:+ String "009" "b".

(** A memo of two lines, the second one reading as the line that opens a
    transaction; and a table with that memo in its only row. *)
Definition memo_feed : string :=
  "x" +:+ String Text.newline "          <STMTTRN>".

Definition df_memo_feed : DataFrame :=
  Ref.frame 1 [("date", [CStr "2024-01-05"]); ("amt", [CStr "1"]);
               ("memo", [CStr memo_feed])].

(** Three rows, the middle one with an amount that does not parse. *)
Definition df_three : DataFrame :=
  Ref.frame 3 [("date", [CStr "2024-01-05"; CStr "2024-01-04";
                         CStr "2024-01-03"]);
               ("amt", [CStr "7"; CStr "N/A"; CStr "100"])].


End Examples.

(** ** Vocabulary of the statements *)

(** The index label and the row at a position of a frame. *)
Definition label_at (df : DataFrame) (i : nat) : Z := default 0 (index df !! i).

Definition item_at (df : DataFrame) (i : nat) : Z * gmap string cell :=
  (label_at df i, row_at df i).

(** The elements of [l] at the positions [ix], in the order of [ix]. *)
Definition at_positions {A} (l : list A) (ix : list nat) : list A :=
  omap (λ i, l !! i) ix.

Definition key_le (a b : option datetime) : Prop := key_leb a b = true.
Definition dt_le (a b : datetime) : Prop := dt_leb a b = true.

(** What the documentation of [sort_values] promises of its default sort
    kind: the rows come back reordered, keys ascending.  Nothing is promised
    about rows with equal keys. *)
Definition sorts (argsort : list (option datetime) → list nat) : Prop :=
  ∀ ks, argsort ks ≡ₚ seq 0 (length ks) ∧
        Sorted key_le (at_positions ks (argsort ks)).


(** The order of keys with the position breaking ties: sorted for it means
    sorted and stable. *)
Definition key_then_position (ks : list (option datetime)) (i j : nat) : Prop :=
  key_le (Ref.key_at ks i) (Ref.key_at ks j) ∧
  (key_le (Ref.key_at ks j) (Ref.key_at ks i) → (i < j)%nat).

(** Row [i] parsed: its date is a [Timestamp] and its amount a number. *)
Definition parsed_ok (dates : list (option datetime)) (amounts : list num)
    (i : nat) : bool :=
  match dates !! i, amounts !! i with
  | Some (Some _), Some (NInt _) => true
  | Some (Some _), Some (NFloat f) => negb (Float.isnan f)
  | _, _ => false
  end.

Definition survivors (n : nat) (dates : list (option datetime))
    (amounts : list num) : list nat :=
  filter (λ i, parsed_ok dates amounts i = true) (seq 0 n).

Fixpoint strip_prefix (p s : string) : option string :=
  match p, s with
  | EmptyString, _ => Some s
  | String a p', String b s' => if Ascii.eqb a b then strip_prefix p' s' else None
  | String _ _, EmptyString => None
  end.

(** The values of the lines of a transaction block that carry [tag], in
    document order. *)
Definition field (tag : string) (lines : list string) : list string :=
  omap (strip_prefix ("            " +:+ tag)) lines.

(** The value of a line of the statement header that carries [tag]. *)
Definition header_field (tag : string) (lines : list string) : list string :=
  omap (strip_prefix ("          " +:+ tag)) lines.

(** Number of lines that open a transaction block. *)
Definition count_blocks (lines : list string) : nat :=
  length (header_field "<STMTTRN>" lines).

(** The date and the amount the loop reads for row [i]. *)
Definition when_at (dates : list (option datetime)) (i : nat) : option datetime :=
  mjoin (dates !! i).

Definition float_of_num (v : num) : float :=
  match v with NInt z => Float.of_int z | NFloat f => f end.

Definition amount_at (amounts : list num) (i : nat) : option float :=
  float_of_num <$> amounts !! i.

(** The text the loop derives from the cell of an optional column: [None]
    when the column is not mapped. *)
Definition cell_text (float_repr : float → string) (row : gmap string cell)
    (col : option string) : option (result string) :=
  (λ c, v ← row_get row c; mret (Text.strip (str_cell float_repr v)))
  <$> mapped col.

(** The clock after [n] more readings, and the [n]-th reading ahead. *)
Definition tick (n : nat) (clk : Clock) : Clock :=
  mkClock (reading clk) (n + ticks clk).

Definition nth_reading (clk : Clock) (n : nat) : datetime :=
  reading clk (n + ticks clk).

(** [lines] is a statement document around the transaction [blocks]. *)
Definition document (meta : OfxMeta) (blocks : list (list string))
    (lines : list string) : Prop :=
  ∃ dtserver start_date end_date,
    lines = (head_lines meta dtserver start_date end_date ++ concat blocks
             ++ tail_lines end_date)%list.

(** The column mapping names columns of the table, and the amount column is
    not the scratch column of the dates. *)
Definition mapping_ok (df : DataFrame) (date_col amount_col : string)
    (name_col memo_col : option string) : Prop :=
  is_Some (columns df !! date_col) ∧ is_Some (columns df !! amount_col) ∧
  amount_col ≠ "__date" ∧
  (∀ c, mapped name_col = Some c → is_Some (columns df !! c)) ∧
  (∀ c, mapped memo_col = Some c → is_Some (columns df !! c)).

(** The series behind a column of the table ([[]] for a column it lacks). *)
Definition series (df : DataFrame) (col : string) : list cell :=
  default [] (columns df !! col).

(** The frame without the row at position [j]; the other rows keep their
    index labels. *)
Definition drop_row (j : nat) (df : DataFrame) : DataFrame :=
  mkDataFrame (delete j (index df)) (delete j <$> columns df).

(** Position, before the removal of row [j], of the row now at position [k]. *)
Definition skip (j k : nat) : nat := if (k <? j)%nat then k else S k.

(** The frame after the two scratch columns are set. *)
Definition with_scratch (df : DataFrame) (dates : list (option datetime))
    (amounts : list num) : DataFrame :=
  setitem (setitem df "__date" (time_cell <$> dates)) "__amount"
          (num_cell <$> amounts).

(** A float that is not NaN and carries the sign [s]. *)
Definition signed (s : bool) (x : float) : Prop :=
  match x with
  | S754_zero s' | S754_infinity s' | S754_finite s' _ _ => s' = s
  | S754_nan => False
  end.


(** A column of int64 or float64 values: no integer beyond int64. *)
Definition no_uint64 (values : list num) : Prop :=
  existsb out_of_int64 values = false.



(** Texts of whitespace only, and texts that [strip] leaves as they are. *)
Definition blank (s : string) : bool := Text.forallb_string Text.isspace s.
Definition trimmed (s : string) : Prop := Text.strip s = s.

(** Texts without a dash and without a dot. *)
Definition dashless (s : string) : bool :=
  Text.forallb_string (λ c, negb (Ascii.eqb c "-")) s.
Definition dotless (s : string) : bool :=
  Text.forallb_string (λ c, negb (Ascii.eqb c ".")) s.

(** A number as the identifier shows it: an optional minus sign and a body
    without any. *)
Definition signed_token (s : string) : Prop :=
  ∃ sign body, s = Float.sign_text sign +:+ body ∧ dashless body = true
               ∧ body ≠ "".

(** What may follow a number of the identifier: nothing, or a dash and
    more. *)
Definition dash_led (s : string) : Prop :=
  match s with String c _ => c = "-"%char | EmptyString => True end.

(** The eight lines of some transaction. *)
Definition is_block (b : list string) : Prop :=
  ∃ ty p a f n m, b = block_lines ty p a f n m.

(** A row with a memo and a payee cell of spaces only. *)
Definition df_blank_payee : DataFrame :=
  Ref.frame 1 [("date", [CStr "2024-01-05"]); ("amt", [CInt 1]);
               ("memo", [CStr "rent"]); ("payee", [CStr "  "])].

(** The page over the worked scenario: whatever is uploaded reads as its two
    rows, and the visitor keeps the default of every box. *)
Definition page0 :=
  main Ref.to_datetime Ref.to_numeric Ref.argsort_stable Ref.float_repr
    (λ _, Ok Examples.df_two) (λ _, Raise ValueError).

Definition widgets0 : Widgets :=
  mkWidgets "date" "amt" "(none)" "(none)" "" false Examples.meta0 true.

(** * Properties *)

(** ** Text *)
Module TextFacts.
Import Text.

Lemma app_assoc (a b c : string) : (a +:+ b) +:+ c = a +:+ (b +:+ c).
Proof. induction a as [|x a IH]; simpl; [done | by rewrite IH]. Qed.

Lemma app_nil_r (a : string) : a +:+ "" = a.
Proof. induction a as [|x a IH]; simpl; [done | by rewrite IH]. Qed.

Lemma length_app (a b : string) :
  String.length (a +:+ b) = (String.length a + String.length b)%nat.
Proof. induction a as [|x a IH]; simpl; [done | by rewrite IH]. Qed.

Lemma forallb_string_app p (a b : string) :
  forallb_string p (a +:+ b) = forallb_string p a && forallb_string p b.
Proof.
  induction a as [|x a IH]; simpl; [done |].
  by rewrite IH, andb_assoc.
Qed.

Lemma existsb_string_app p (a b : string) :
  existsb_string p (a +:+ b) = existsb_string p a || existsb_string p b.
Proof.
  induction a as [|x a IH]; simpl; [done |].
  by rewrite IH, orb_assoc.
Qed.

Lemma forallb_string_impl (p q : ascii → bool) s :
  (∀ c, p c = true → q c = true) →
  forallb_string p s = true → forallb_string q s = true.
Proof.
  intros Hpq. induction s as [|c s IH]; simpl; [done |].
  rewrite !andb_true_iff. intros [? ?]. auto.
Qed.

Lemma remove_spaces_app (a b : string) :
  remove_spaces (a +:+ b) = remove_spaces a +:+ remove_spaces b.
Proof.
  induction a as [|x a IH]; simpl; [done |].
  destruct (Ascii.eqb x " "); simpl; by rewrite IH.
Qed.

Lemma remove_spaces_id s : no_space s = true → remove_spaces s = s.
Proof.
  unfold no_space. induction s as [|c s IH]; simpl; [done |].
  rewrite andb_true_iff, negb_true_iff. intros [-> ?]. by rewrite IH.
Qed.

Lemma remove_spaces_no_space s : no_space (remove_spaces s) = true.
Proof.
  unfold no_space. induction s as [|c s IH]; simpl; [done |].
  destruct (Ascii.eqb c " ") eqn:E; simpl; [done |]. by rewrite E, IH.
Qed.

Lemma isdigit_not_space c : isdigit c = true → negb (Ascii.eqb c " ") = true.
Proof.
  destruct c as [[] [] [] [] [] [] [] []]; vm_compute; congruence.
Qed.

Lemma digits_no_space s : forallb_string isdigit s = true → no_space s = true.
Proof. apply forallb_string_impl, isdigit_not_space. Qed.

Lemma isdigit_digit_char d : 0 <= d < 10 → isdigit (digit_char d) = true.
Proof.
  intros Hd.
  assert (d = 0 ∨ d = 1 ∨ d = 2 ∨ d = 3 ∨ d = 4 ∨ d = 5 ∨ d = 6 ∨ d = 7
          ∨ d = 8 ∨ d = 9) as Hc by lia.
  repeat (destruct Hc as [-> | Hc]; [done |]). by subst.
Qed.

Lemma low_digits_isdigit w z : forallb_string isdigit (low_digits w z) = true.
Proof.
  revert z. induction w as [|w IH]; intros z; simpl; [done |].
  rewrite forallb_string_app, IH. simpl.
  rewrite isdigit_digit_char; [done |]. apply Z.mod_pos_bound. lia.
Qed.

Lemma length_low_digits w z : String.length (low_digits w z) = w.
Proof.
  revert z. induction w as [|w IH]; intros z; simpl; [done |].
  rewrite length_app, IH. simpl. lia.
Qed.

Lemma string_of_uint_isdigit u :
  forallb_string isdigit (NilEmpty.string_of_uint u) = true.
Proof. induction u; simpl; done. Qed.

Lemma nilzero_string_of_uint_isdigit u :
  forallb_string isdigit (NilZero.string_of_uint u) = true.
Proof. destruct u; try done; apply (string_of_uint_isdigit (_ u)). Qed.

Lemma digits_isdigit w z : forallb_string isdigit (digits w z) = true.
Proof.
  unfold digits. rewrite forallb_string_app, low_digits_isdigit, andb_true_r.
  destruct (0 <? _); [apply nilzero_string_of_uint_isdigit | done].
Qed.

Lemma digits_small w z :
  0 <= z < 10 ^ Z.of_nat w → digits w z = low_digits w z.
Proof.
  intros Hz. unfold digits. rewrite Z.div_small by done. done.
Qed.

Lemma length_digits_small w z :
  0 <= z < 10 ^ Z.of_nat w → String.length (digits w z) = w.
Proof. intros Hz. rewrite digits_small by done. apply length_low_digits. Qed.

Lemma digits_nonempty w z : (0 < w)%nat → digits w z ≠ "".
Proof.
  intros Hw Hd. apply (f_equal String.length) in Hd.
  unfold digits in Hd. rewrite length_app, length_low_digits in Hd.
  simpl in Hd. lia.
Qed.

Lemma str_int_no_space z : no_space (str_int z) = true.
Proof.
  unfold str_int, NilZero.string_of_int.
  destruct (Z.to_int z) as [u | u].
  - apply digits_no_space, nilzero_string_of_uint_isdigit.
  - unfold no_space. simpl. apply digits_no_space, nilzero_string_of_uint_isdigit.
Qed.

Lemma two_decimals_unsigned_cons c s :
  two_decimals_unsigned (String c s) =
  isdigit c &&
  (two_decimals_unsigned s ||
   match s with
   | String "." (String d1 (String d2 "")) => isdigit d1 && isdigit d2
   | _ => false
   end).
Proof. done. Qed.

Lemma two_decimals_unsigned_intro ip d1 d2 :
  ip ≠ "" → forallb_string isdigit ip = true →
  isdigit d1 = true → isdigit d2 = true →
  two_decimals_unsigned (ip +:+ "." +:+ String d1 (String d2 "")) = true.
Proof.
  intros Hne Hip H1 H2. induction ip as [|c ip IH]; [done |].
  simpl in Hip. apply andb_true_iff in Hip as [Hc Hip].
  change (String c ip +:+ ?r) with (String c (ip +:+ r)).
  rewrite two_decimals_unsigned_cons, Hc, andb_true_l.
  destruct ip as [|c' ip].
  - simpl. by rewrite H1, H2.
  - rewrite IH; done.
Qed.

Lemma split_lines_one_line l : one_line l = true → split_lines l = [l].
Proof.
  unfold one_line. induction l as [|c l IH]; simpl; [done |].
  rewrite andb_true_iff, negb_true_iff. intros [-> Hl]. by rewrite IH.
Qed.

Lemma split_lines_app l rest :
  one_line l = true →
  split_lines (l +:+ String newline rest) = l :: split_lines rest.
Proof.
  unfold one_line. induction l as [|c l IH]; simpl; [done |].
  rewrite andb_true_iff, negb_true_iff. intros [-> Hl]. by rewrite IH.
Qed.

(** Reading a joined text line by line gives the lines back, as long as no
    line holds a line feed. *)
Lemma split_lines_join lines :
  lines ≠ [] → Forall (λ l, one_line l = true) lines →
  split_lines (join (String newline "") lines) = lines.
Proof.
  intros Hne Hall. induction Hall as [|l lines Hl Hall IH]; [done |].
  destruct lines as [|l' lines].
  - by apply split_lines_one_line.
  - change (join (String newline "") (l :: l' :: lines))
      with (l +:+ String newline (join (String newline "") (l' :: lines))).
    rewrite split_lines_app by done. by rewrite IH.
Qed.

End TextFacts.

(** ** Number and date formatting *)
Module FormatFacts.
Import Text TextFacts.

Lemma low_digits_2 z :
  low_digits 2 z =
  String (digit_char ((z / 10) mod 10)) (String (digit_char (z mod 10)) "").
Proof. done. Qed.

Lemma two_decimals_digit c r :
  isdigit c = true → two_decimals (String c r) = two_decimals_unsigned (String c r).
Proof.
  destruct c as [[] [] [] [] [] [] [] []]; try done; vm_compute; congruence.
Qed.

Lemma two_decimals_signed s ip d1 d2 :
  ip ≠ "" → forallb_string isdigit ip = true →
  isdigit d1 = true → isdigit d2 = true →
  two_decimals
    (Float.sign_text s +:+ ip +:+ "." +:+ String d1 (String d2 "")) = true.
Proof.
  intros Hne Hip H1 H2. destruct s; simpl.
  - by apply two_decimals_unsigned_intro.
  - destruct ip as [|c ip]; [done |].
    change (String c ip +:+ ?r) with (String c (ip +:+ r)).
    rewrite two_decimals_digit.
    + by apply (two_decimals_unsigned_intro (String c ip)).
    + simpl in Hip. by apply andb_true_iff in Hip as [? _].
Qed.

(** A finite amount prints with exactly two fractional digits. *)
Lemma format_2f_two_decimals x :
  Float.isfinite x = true → two_decimals (Float.format_2f x) = true.
Proof.
  destruct x as [s | s | | s m e]; try done; intros _.
  - by destruct s.
  - unfold Float.format_2f.
    set (n := Float.round_half_even _ _).
    rewrite (digits_small 2) by (apply Z.mod_pos_bound; lia).
    rewrite low_digits_2.
    apply two_decimals_signed.
    + apply digits_nonempty. lia.
    + apply digits_isdigit.
    + apply isdigit_digit_char, Z.mod_pos_bound. lia.
    + apply isdigit_digit_char, Z.mod_pos_bound. lia.
Qed.

Lemma no_space_app a b : no_space (a +:+ b) = no_space a && no_space b.
Proof. apply forallb_string_app. Qed.

Lemma format_2f_no_space x : no_space (Float.format_2f x) = true.
Proof.
  destruct x as [s | s | | s m e]; try (by destruct s); try done.
  unfold Float.format_2f. rewrite !no_space_app.
  rewrite !(digits_no_space (digits _ _)) by apply digits_isdigit.
  by destruct s.
Qed.

Lemma year_text_isdigit y : forallb_string isdigit (year_text y) = true.
Proof. unfold year_text. destruct (y <? 1000); apply digits_isdigit. Qed.

Lemma strftime_Ymd_isdigit t : forallb_string isdigit (strftime_Ymd t) = true.
Proof.
  unfold strftime_Ymd.
  by rewrite !forallb_string_app, year_text_isdigit, !digits_isdigit.
Qed.

Lemma length_strftime_Ymd t : dt_valid t → String.length (strftime_Ymd t) = 8%nat.
Proof.
  intros (Hy & Hm & Hd & _). unfold strftime_Ymd, year_text.
  rewrite (proj2 (Z.ltb_ge _ _)) by lia.
  rewrite !length_app, !length_digits_small; [done | simpl; lia ..].
Qed.

(** The identifier, segment by segment: only the memo segment can lose
    characters to the final [replace]. *)
Lemma generate_fitid_segments idx when amount memo :
  generate_fitid idx when amount memo =
  strftime_Ymd when +:+ "-" +:+ Float.format_2f amount +:+ "-" +:+ str_int idx
  +:+ (if truthy memo then "-" +:+ remove_spaces (slice_to 20 (strip memo))
       else "").
Proof.
  unfold generate_fitid.
  set (digest := strftime_Ymd when +:+ "-" +:+ Float.format_2f amount +:+ "-"
                 +:+ str_int idx).
  assert (remove_spaces digest = digest) as Hhead.
  { apply remove_spaces_id. unfold digest. rewrite !no_space_app.
    rewrite (digits_no_space _ (strftime_Ymd_isdigit when)).
    by rewrite format_2f_no_space, str_int_no_space. }
  transitivity
    (digest +:+ (if truthy memo
                 then "-" +:+ remove_spaces (slice_to 20 (strip memo)) else "")).
  - destruct (truthy memo).
    + by rewrite remove_spaces_app, Hhead.
    + by rewrite Hhead, app_nil_r.
  - unfold digest. by rewrite !app_assoc.
Qed.

End FormatFacts.

(** ** Floats: signs *)
Module FloatFacts.

Lemma shr_1_nonneg mrs : 0 <= shr_m mrs → 0 <= shr_m (shr_1 mrs).
Proof. destruct mrs as [[|[p|p|]|p] r s]; simpl; lia. Qed.

Lemma shr_nonneg mrs e n : 0 <= shr_m mrs → 0 <= shr_m (shr mrs e n).1.
Proof.
  intros H. destruct n as [|p|p]; simpl; try done.
  revert mrs H. induction p as [p IH|p IH|]; intros mrs H; simpl.
  - by apply IH, IH, shr_1_nonneg.
  - by apply IH, IH.
  - by apply shr_1_nonneg.
Qed.

Lemma shr_fexp_nonneg prec emax m e l :
  0 <= m → 0 <= shr_m (shr_fexp prec emax m e l).1.
Proof. intros H. apply shr_nonneg. by destruct l as [|[]]. Qed.

Lemma round_nearest_even_nonneg m l : 0 <= m → 0 <= round_nearest_even m l.
Proof.
  intros H. destruct l as [|[]]; simpl; try lia.
  change (IntDef.Z.even m) with (Z.even m). destruct (Z.even m); lia.
Qed.

(** Rounding a non-negative significand gives a float of the sign asked
    for, never NaN. *)
Lemma binary_round_aux_signed prec emax sx mx ex lx :
  0 <= mx → signed sx (binary_round_aux prec emax sx mx ex lx).
Proof.
  intros H. unfold binary_round_aux.
  pose proof (shr_fexp_nonneg prec emax mx ex lx H) as H1.
  destruct (shr_fexp prec emax mx ex lx) as [mrs' e']. simpl in H1.
  pose proof (shr_fexp_nonneg prec emax _ e' loc_Exact
                (round_nearest_even_nonneg _ (loc_of_shr_record mrs') H1)) as H2.
  destruct (shr_fexp prec emax _ e' loc_Exact) as [mrs'' e'']. simpl in H2.
  destruct (shr_m mrs'') as [|m|m]; simpl; [done | | lia].
  by destruct (e'' <=? emax - prec).
Qed.

Lemma binary_round_signed prec emax sx mx ex :
  signed sx (binary_round prec emax sx mx ex).
Proof.
  unfold binary_round. destruct (shl_align _ _ _) as [mz ez].
  by apply binary_round_aux_signed.
Qed.

(** [float(z)] is a number, negative only for a negative [z]. *)
Lemma of_int_signed z : signed (z <? 0) (Float.of_int z).
Proof.
  unfold Float.of_int, binary_normalize.
  destruct z as [|p|p]; [done | |]; apply binary_round_signed.
Qed.

Lemma of_int_not_nan z : Float.isnan (Float.of_int z) = false.
Proof. pose proof (of_int_signed z) as H. by destruct (Float.of_int z). Qed.

(** [x * -1] is NaN only for NaN. *)
Lemma isnan_neg x : Float.isnan (Float.neg x) = Float.isnan x.
Proof.
  destruct x as [s|s| |s m e]; try done.
  unfold Float.neg, Float.minus_one, SFmul.
  pose proof (binary_round_aux_signed Float.prec Float.emax (xorb s true)
                (Z.pos (m * 4503599627370496)) (e + -52) loc_Exact
                ltac:(lia)) as H.
  by destruct (binary_round_aux _ _ _ _ _ _).
Qed.

(** An amount that is a number and not [>= 0] prints with a minus sign. *)
Lemma format_2f_negative x :
  Float.isnan x = false → Float.ge0 x = false →
  ∃ rest, Float.format_2f x = String "-" rest.
Proof.
  destruct x as [s|[]| |[] m e]; try done; intros _ _; by eexists.
Qed.

End FloatFacts.

(** ** The order on datetimes *)
Module OrderFacts.

Lemma lex_compare_refl a : lex_compare a a = Eq.
Proof. induction a as [|x a IH]; simpl; [done |]. by rewrite Z.compare_refl. Qed.

Lemma lex_compare_antisym a b : lex_compare b a = CompOpp (lex_compare a b).
Proof.
  revert b. induction a as [|x a IH]; intros [|y b]; simpl; try done.
  rewrite (Z.compare_antisym x y). destruct (x ?= y); simpl; auto.
Qed.

Lemma lex_compare_eq a b : lex_compare a b = Eq → a = b.
Proof.
  revert b. induction a as [|x a IH]; intros [|y b]; simpl; try done.
  destruct (Z.compare_spec x y); try done. intros. f_equal; auto.
Qed.

Lemma lex_compare_lt_trans a b c :
  lex_compare a b = Lt → lex_compare b c = Lt → lex_compare a c = Lt.
Proof.
  revert b c. induction a as [|x a IH]; intros [|y b] [|z c]; simpl; try done.
  destruct (Z.compare_spec x y), (Z.compare_spec y z); try done; subst.
  - rewrite Z.compare_refl. apply IH.
  - intros _ _. by apply Z.compare_lt_iff in H0 as ->.
  - intros _ _. by apply Z.compare_lt_iff in H as ->.
  - intros _ _. assert (x < z) as Hxz by lia. by apply Z.compare_lt_iff in Hxz as ->.
Qed.

Lemma lex_leb_refl a : lex_leb a a = true.
Proof. unfold lex_leb. by rewrite lex_compare_refl. Qed.

Lemma lex_leb_total a b : lex_leb a b = true ∨ lex_leb b a = true.
Proof.
  unfold lex_leb. rewrite (lex_compare_antisym a b).
  destruct (lex_compare a b); simpl; auto.
Qed.

Lemma lex_leb_trans a b c :
  lex_leb a b = true → lex_leb b c = true → lex_leb a c = true.
Proof.
  unfold lex_leb.
  destruct (lex_compare a b) eqn:Hab; [| | done];
    destruct (lex_compare b c) eqn:Hbc; try done; intros _ _.
  - apply lex_compare_eq in Hab as ->. by rewrite Hbc.
  - apply lex_compare_eq in Hab as ->. by rewrite Hbc.
  - apply lex_compare_eq in Hbc as <-. by rewrite Hab.
  - by rewrite (lex_compare_lt_trans _ _ _ Hab Hbc).
Qed.

Lemma lex_leb_antisym a b : lex_leb a b = true → lex_leb b a = true → a = b.
Proof.
  unfold lex_leb. rewrite (lex_compare_antisym a b).
  destruct (lex_compare a b) eqn:Hab; simpl; try done.
  intros. by apply lex_compare_eq.
Qed.

(** Comparing two equally long prefixes first. *)
Lemma lex_leb_prefix a a' b b' :
  length a = length a' →
  lex_leb (a ++ b) (a' ++ b') = true → lex_leb a a' = true.
Proof.
  unfold lex_leb. revert a'.
  induction a as [|x a IH]; intros [|y a'] Hlen; simpl in *; try done.
  destruct (x ?= y); try done. apply IH. lia.
Qed.

Lemma dt_leb_refl t : dt_leb t t = true.
Proof. apply lex_leb_refl. Qed.

Lemma dt_leb_total a b : dt_leb a b = true ∨ dt_leb b a = true.
Proof. apply lex_leb_total. Qed.

Lemma dt_leb_trans a b c : dt_leb a b = true → dt_leb b c = true → dt_leb a c = true.
Proof. apply lex_leb_trans. Qed.

Lemma dt_fields_inj a b : dt_fields a = dt_fields b → a = b.
Proof. destruct a, b. unfold dt_fields, dt_date. simpl. congruence. Qed.

Lemma dt_leb_antisym a b : dt_leb a b = true → dt_leb b a = true → a = b.
Proof. intros ? ?. by apply dt_fields_inj, lex_leb_antisym. Qed.

(** A later datetime falls on the same or a later calendar day. *)
Lemma dt_leb_date_leb a b : dt_leb a b = true → date_leb a b = true.
Proof. unfold dt_leb, date_leb, dt_fields. by apply lex_leb_prefix. Qed.

Lemma key_le_refl k : key_le k k.
Proof. unfold key_le. destruct k; [apply dt_leb_refl | done]. Qed.

Lemma key_le_total a b : key_le a b ∨ key_le b a.
Proof. unfold key_le. destruct a, b; simpl; auto. apply dt_leb_total. Qed.

Lemma key_le_trans a b c : key_le a b → key_le b c → key_le a c.
Proof.
  unfold key_le. destruct a, b, c; simpl; try done. apply dt_leb_trans.
Qed.

#[global] Instance key_le_transitive : Transitive key_le.
Proof. intros a b c. apply key_le_trans. Qed.

#[global] Instance dt_le_transitive : Transitive dt_le.
Proof. intros a b c. apply dt_leb_trans. Qed.

Lemma dt_min_le_l a b : dt_le (dt_min a b) a.
Proof.
  unfold dt_le, dt_min. destruct (dt_leb a b) eqn:E; [apply dt_leb_refl |].
  destruct (dt_leb_total a b); congruence.
Qed.

Lemma dt_min_le_r a b : dt_le (dt_min a b) b.
Proof. unfold dt_le, dt_min. destruct (dt_leb a b) eqn:E; [done | apply dt_leb_refl]. Qed.

Lemma dt_max_ge_l a b : dt_le a (dt_max a b).
Proof. unfold dt_le, dt_max. destruct (dt_leb a b) eqn:E; [done | apply dt_leb_refl]. Qed.

Lemma dt_max_ge_r a b : dt_le b (dt_max a b).
Proof.
  unfold dt_le, dt_max. destruct (dt_leb a b) eqn:E; [apply dt_leb_refl |].
  destruct (dt_leb_total a b); congruence.
Qed.

Lemma foldl_min_spec l x :
  (foldl dt_min x l ∈ x :: l) ∧ Forall (dt_le (foldl dt_min x l)) (x :: l).
Proof.
  revert x. induction l as [|y l IH]; intros x; simpl.
  - split; [by left | repeat constructor; apply dt_leb_refl].
  - destruct (IH (dt_min x y)) as [Hin Hall]. split.
    + apply elem_of_cons in Hin as [-> | Hin]; [| by do 2 right].
      unfold dt_min. destruct (dt_leb x y); [by left | by right; left].
    + apply Forall_cons in Hall as [Hm Hall].
      repeat constructor; [| | done].
      * etrans; [exact Hm | apply dt_min_le_l].
      * etrans; [exact Hm | apply dt_min_le_r].
Qed.

Lemma foldl_max_spec l x :
  (foldl dt_max x l ∈ x :: l) ∧ Forall (λ t, dt_le t (foldl dt_max x l)) (x :: l).
Proof.
  revert x. induction l as [|y l IH]; intros x; simpl.
  - split; [by left | repeat constructor; apply dt_leb_refl].
  - destruct (IH (dt_max x y)) as [Hin Hall]. split.
    + apply elem_of_cons in Hin as [-> | Hin]; [| by do 2 right].
      unfold dt_max. destruct (dt_leb x y); [by right; left | by left].
    + apply Forall_cons in Hall as [Hm Hall].
      repeat constructor; [| | done].
      * etrans; [apply dt_max_ge_l | exact Hm].
      * etrans; [apply dt_max_ge_r | exact Hm].
Qed.

End OrderFacts.

(** ** Frames *)
Module FrameFacts.

Lemma at_positions_seq {A} (l : list A) : at_positions l (seq 0 (length l)) = l.
Proof.
  unfold at_positions. induction l as [|x l IH] using rev_ind; [done |].
  rewrite length_app, Nat.add_1_r, seq_S, omap_app. simpl.
  rewrite lookup_app_r, Nat.sub_diag by done. simpl. f_equal.
  rewrite <- IH at 2. apply list_omap_ext, Forall_Forall2_diag, Forall_forall.
  intros i Hi%elem_of_seq. by rewrite lookup_app_l by lia.
Qed.

Lemma at_positions_perm {A} (l : list A) ix :
  ix ≡ₚ seq 0 (length l) → at_positions l ix ≡ₚ l.
Proof.
  intros Hp. rewrite <- (at_positions_seq l) at 2.
  unfold at_positions. by rewrite Hp.
Qed.

Lemma at_positions_fmap {A B} (f : A → B) (l : list A) ix :
  at_positions (f <$> l) ix = f <$> at_positions l ix.
Proof.
  unfold at_positions. induction ix as [|i ix IH]; csimpl; [done |].
  rewrite list_lookup_fmap. destruct (l !! i); csimpl; by rewrite IH.
Qed.

Lemma at_positions_valid {A} (l : list A) (d : A) ix :
  Forall (λ i, i < length l)%nat ix →
  at_positions l ix = (λ i, default d (l !! i)) <$> ix.
Proof.
  unfold at_positions. induction 1 as [|i ix Hi _ IH]; csimpl; [done |].
  destruct (lookup_lt_is_Some_2 l i Hi) as [x ->]. csimpl. by rewrite IH.
Qed.

Lemma length_at_positions {A} (l : list A) ix :
  Forall (λ i, i < length l)%nat ix → length (at_positions l ix) = length ix.
Proof.
  unfold at_positions. induction 1 as [|i ix Hi _ IH]; csimpl; [done |].
  destruct (lookup_lt_is_Some_2 l i Hi) as [x ->]. csimpl. by rewrite IH.
Qed.

Lemma perm_seq_valid ix n : ix ≡ₚ seq 0 n → Forall (λ i, i < n)%nat ix.
Proof.
  intros Hp. apply Forall_forall. intros i Hi.
  rewrite Hp in Hi. apply elem_of_seq in Hi. lia.
Qed.

Lemma cell_at_fmap (s : list cell) ix j i :
  ix !! j = Some i → cell_at (cell_at s <$> ix) j = cell_at s i.
Proof. intros Hj. unfold cell_at at 1. by rewrite list_lookup_fmap, Hj. Qed.

Lemma nrows_take_rows ix df :
  Forall (λ i, i < nrows df)%nat ix → nrows (take_rows ix df) = length ix.
Proof. intros Hix. by apply (length_at_positions (index df)). Qed.

Lemma lookup_at_positions {A} (l : list A) keep j :
  Forall (λ i, i < length l)%nat keep →
  at_positions l keep !! j = keep !! j ≫= (λ k, l !! k).
Proof.
  unfold at_positions. intros Hkeep. revert j.
  induction Hkeep as [|k keep Hk _ IH]; intros j; csimpl; [done |].
  destruct (lookup_lt_is_Some_2 l k Hk) as [x Hx]. rewrite Hx. csimpl.
  destruct j as [|j]; csimpl; [done | apply IH].
Qed.

Lemma at_positions_compose {A} (l : list A) keep ix :
  Forall (λ i, i < length l)%nat keep →
  at_positions (at_positions l keep) ix = at_positions l (at_positions keep ix).
Proof.
  intros Hkeep. unfold at_positions at 1 3.
  induction ix as [|j ix IH]; csimpl; [done |].
  rewrite lookup_at_positions by done.
  destruct (keep !! j) as [k|]; csimpl; [| done].
  destruct (l !! k); csimpl; [by f_equal | done].
Qed.

(** [take] twice is [take] of the composed positions. *)
Lemma take_rows_take_rows keep ix df :
  Forall (λ i, i < nrows df)%nat keep →
  Forall (λ j, j < length keep)%nat ix →
  take_rows ix (take_rows keep df) = take_rows (at_positions keep ix) df.
Proof.
  intros Hkeep Hix. unfold take_rows. simpl. f_equal.
  - by apply (at_positions_compose (index df)).
  - rewrite <- map_fmap_compose. apply map_fmap_ext. intros c s _. simpl.
    rewrite (at_positions_valid keep 0%nat) by done.
    rewrite <- list_fmap_compose. apply list_fmap_ext. intros j k Hj. simpl.
    destruct (lookup_lt_is_Some_2 keep k) as [i Hi].
    { by eapply Forall_lookup_1 in Hix. }
    rewrite Hi. simpl. by apply cell_at_fmap.
Qed.

(** The rows [iterrows] yields after a [take]. *)
Lemma iterrows_take_rows ix df :
  Forall (λ i, i < nrows df)%nat ix →
  iterrows (take_rows ix df) = item_at df <$> ix.
Proof.
  intros Hix. unfold iterrows.
  change (index (take_rows ix df)) with (at_positions (index df) ix).
  rewrite (at_positions_valid _ 0) by done.
  apply list_eq. intros j.
  rewrite list_lookup_imap, !list_lookup_fmap.
  destruct (ix !! j) as [i|] eqn:Hj; simpl; [| done].
  unfold item_at, label_at. do 2 f_equal.
  unfold row_at, take_rows. simpl.
  rewrite <- map_fmap_compose. apply map_fmap_ext. intros c s _. simpl.
  by apply cell_at_fmap.
Qed.

Lemma row_at_lookup df i c :
  row_at df i !! c = (λ s, cell_at s i) <$> columns df !! c.
Proof. unfold row_at. by rewrite lookup_fmap. Qed.

Lemma columns_take_rows_lookup ix df c :
  columns (take_rows ix df) !! c = (λ s, cell_at s <$> ix) <$> columns df !! c.
Proof. unfold take_rows. simpl. by rewrite lookup_fmap. Qed.

End FrameFacts.

(** ** The pipeline of [render_ofx] *)
Section Pipeline.

Variable to_datetime :
  option string → list cell → result (list (option datetime)).
Variable to_numeric : list cell → list num.
Variable argsort : list (option datetime) → list nat.
Variable float_repr : float → string.

Import FrameFacts OrderFacts.

Lemma cell_at_dates dates i :
  cell_at (time_cell <$> dates) i = from_option CTime CNaT (when_at dates i)
  ∨ (dates !! i = None ∧ cell_at (time_cell <$> dates) i = NaN).
Proof.
  unfold cell_at, when_at. rewrite list_lookup_fmap.
  destruct (dates !! i) as [[t|]|]; simpl; auto.
Qed.

Lemma sort_key_dates dates i :
  sort_key (cell_at (time_cell <$> dates) i) = when_at dates i.
Proof.
  unfold cell_at, when_at. rewrite list_lookup_fmap.
  by destruct (dates !! i) as [[t|]|].
Qed.

Lemma dropna_mask dates amounts i :
  forallb (λ s, negb (isna (cell_at s i)))
          [time_cell <$> dates; num_cell <$> amounts]
  = parsed_ok dates amounts i.
Proof.
  unfold parsed_ok, cell_at. simpl. rewrite !list_lookup_fmap.
  destruct (dates !! i) as [[t|]|], (amounts !! i) as [[z|f]|]; simpl; try done.
  by rewrite andb_true_r.
Qed.

Lemma parsed_ok_inv dates amounts i :
  parsed_ok dates amounts i = true →
  ∃ t v, dates !! i = Some (Some t) ∧ amounts !! i = Some v
         ∧ isna (num_cell v) = false.
Proof.
  unfold parsed_ok.
  destruct (dates !! i) as [[t|]|], (amounts !! i) as [[z|f]|]; try done.
  - intros _. by exists t, (NInt z).
  - intros Hf%negb_true_iff. by exists t, (NFloat f).
Qed.

Lemma with_scratch_date df dates amounts :
  columns (with_scratch df dates amounts) !! "__date" = Some (time_cell <$> dates).
Proof.
  unfold with_scratch, setitem. simpl.
  rewrite lookup_insert_ne by done. by rewrite lookup_insert_eq.
Qed.

Lemma with_scratch_amount df dates amounts :
  columns (with_scratch df dates amounts) !! "__amount"
  = Some (num_cell <$> amounts).
Proof. unfold with_scratch, setitem. simpl. by rewrite lookup_insert_eq. Qed.

Lemma with_scratch_other df dates amounts c :
  c ≠ "__date" → c ≠ "__amount" →
  columns (with_scratch df dates amounts) !! c = columns df !! c.
Proof.
  intros ? ?. unfold with_scratch, setitem. simpl.
  by rewrite !lookup_insert_ne.
Qed.

Lemma survivors_valid n dates amounts :
  Forall (λ i, i < n)%nat (survivors n dates amounts).
Proof.
  apply Forall_forall. intros i Hi.
  apply list_elem_of_filter in Hi as [_ Hi%elem_of_seq]. lia.
Qed.

(** [prepare], step by step: both lookups, then the rows that parsed, then
    the positions the sort returns. *)
Lemma prepare_eq df date_col amount_col inv fmt sd sa dates amounts :
  columns df !! date_col = Some sd →
  parse_date to_datetime sd fmt = Ok dates →
  columns (setitem df "__date" (time_cell <$> dates)) !! amount_col = Some sa →
  normalize_amount to_numeric sa inv = Ok amounts →
  let keep := survivors (nrows df) dates amounts in
  prepare to_datetime to_numeric argsort df date_col amount_col inv fmt
  = Ok (take_rows (argsort (when_at dates <$> keep))
          (take_rows keep (with_scratch df dates amounts))).
Proof.
  intros Hd Hdates Ha Hamounts keep.
  unfold prepare, copy, getitem. rewrite Hd. cbn [mbind result_bind].
  rewrite Hdates. cbn [mbind result_bind].
  rewrite Ha. cbn [mbind result_bind]. rewrite Hamounts. cbn [mbind result_bind].
  change (setitem (setitem df "__date" (time_cell <$> dates)) "__amount"
            (num_cell <$> amounts)) with (with_scratch df dates amounts).
  unfold dropna, getitem. cbn [mapM mbind mret result_bind result_ret].
  rewrite with_scratch_date, with_scratch_amount.
  cbn [mapM mbind mret result_bind result_ret].
  assert (filter
            (λ i, forallb (λ s, negb (isna (cell_at s i)))
                    [time_cell <$> dates; num_cell <$> amounts] = true)
            (seq 0 (nrows (with_scratch df dates amounts))) = keep) as ->.
  { unfold keep, survivors.
    change (nrows (with_scratch df dates amounts)) with (nrows df).
    apply list_filter_iff. intros i. by rewrite dropna_mask. }
  unfold sort_values, getitem.
  rewrite columns_take_rows_lookup, with_scratch_date.
  cbn [fmap option_fmap option_map mbind mret result_bind result_ret].
  do 3 f_equal. rewrite <- list_fmap_compose.
  apply list_fmap_ext. intros j i _. simpl. apply sort_key_dates.
Qed.


Lemma lift_bind {A B} (r : result A) (f : A → M B) clk :
  (lift r ≫= f) clk = match r with Ok a => f a clk | Raise e => Raise e end.
Proof. unfold mbind, M_bind, lift. by destruct r. Qed.

Lemma now_bind {B} (f : datetime → M B) clk :
  (now ≫= f) clk = f (nth_reading clk 0) (tick 1 clk).
Proof. done. Qed.

(** The text [render_ofx] returns is its list [lines], joined. *)
Lemma render_ofx_lines df meta date_col amount_col name_col memo_col inv fmt
    clk lines clk' :
  render_lines to_datetime to_numeric argsort float_repr df meta date_col
    amount_col name_col memo_col inv fmt clk = Ok (lines, clk') →
  render_ofx to_datetime to_numeric argsort float_repr df meta date_col
    amount_col name_col memo_col inv fmt clk
  = Ok (Text.join (String Text.newline "") lines, clk').
Proof. intros H. unfold render_ofx, mbind, M_bind. by rewrite H. Qed.

Lemma omap_sort_key_dates dates (order : list nat) :
  omap sort_key (cell_at (time_cell <$> dates) <$> order)
  = omap (when_at dates) order.
Proof.
  induction order as [|k order IH]; csimpl; [done |].
  by rewrite sort_key_dates, IH.
Qed.

Lemma when_at_survivor n dates amounts k :
  k ∈ survivors n dates amounts → is_Some (when_at dates k).
Proof.
  intros [Hk _]%list_elem_of_filter.
  apply parsed_ok_inv in Hk as (t & v & Hd & _). unfold when_at. by rewrite Hd.
Qed.

Lemma empty_take_rows order df c s :
  Forall (λ i, i < nrows df)%nat order →
  columns df !! c = Some s →
  empty (take_rows order df) = bool_decide (order = []).
Proof.
  intros Hv Hc. unfold empty.
  assert (columns (take_rows order df) ≠ ∅) as Hne.
  { intros He. pose proof (columns_take_rows_lookup order df c) as Hl.
    rewrite He, Hc, lookup_empty in Hl. done. }
  rewrite (bool_decide_eq_false_2 _ Hne), orb_false_r.
  apply bool_decide_ext.
  change (index (take_rows order df)) with (at_positions (index df) order).
  split.
  - intros He. apply (f_equal length) in He.
    rewrite length_at_positions in He by done. by destruct order.
  - by intros ->.
Qed.

(** The document as a function of the rows that survive: the positions
    [order] the sort leaves them in decide the blocks, their dates decide
    the statement range, and the clock gives the rest. *)
Lemma render_lines_eq (Hsort : sorts argsort) df meta date_col amount_col
    name_col memo_col inv fmt sd sa dates amounts clk :
  columns df !! date_col = Some sd →
  parse_date to_datetime sd fmt = Ok dates →
  columns (setitem df "__date" (time_cell <$> dates)) !! amount_col = Some sa →
  normalize_amount to_numeric sa inv = Ok amounts →
  let keep := survivors (nrows df) dates amounts in
  ∃ order,
    order = at_positions keep (argsort (when_at dates <$> keep)) ∧
    order ≡ₚ keep ∧
    Sorted key_le (when_at dates <$> order) ∧
    render_lines to_datetime to_numeric argsort float_repr df meta date_col
      amount_col name_col memo_col inv fmt clk
    = match mapM (stmttrn float_repr name_col memo_col)
              (item_at (with_scratch df dates amounts) <$> order) with
      | Raise e => Raise e
      | Ok blocks =>
          match omap (when_at dates) order with
          | [] =>
              Ok ((head_lines meta (nth_reading clk 2) (nth_reading clk 0)
                     (nth_reading clk 1)
                   ++ concat blocks ++ tail_lines (nth_reading clk 1))%list,
                  tick 3 clk)
          | t :: ts =>
              Ok ((head_lines meta (nth_reading clk 0) (foldl dt_min t ts)
                     (foldl dt_max t ts)
                   ++ concat blocks ++ tail_lines (foldl dt_max t ts))%list,
                  tick 1 clk)
          end
      end.
Proof.
  intros Hd Hdates Ha Hamounts keep.
  set (df2 := with_scratch df dates amounts).
  set (ix := argsort (when_at dates <$> keep)).
  destruct (Hsort (when_at dates <$> keep)) as [Hperm Hsorted].
  rewrite length_fmap in Hperm. fold ix in Hperm, Hsorted.
  pose proof (perm_seq_valid _ _ Hperm) as Hix.
  pose proof (survivors_valid (nrows df) dates amounts) as Hkeep. fold keep in Hkeep.
  exists (at_positions keep ix).
  set (order := at_positions keep ix).
  assert (order ≡ₚ keep) as Horder by by apply at_positions_perm.
  assert (Forall (λ i, i < nrows df2)%nat order) as Hvalid.
  { change (nrows df2) with (nrows df). by rewrite Horder. }
  split; [done |]. split; [done |]. split.
  { unfold order. by rewrite <- at_positions_fmap. }
  unfold render_lines.
  rewrite (prepare_eq _ _ _ _ _ _ _ _ _ Hd Hdates Ha Hamounts).
  fold keep df2 ix.
  rewrite take_rows_take_rows by done. fold order.
  set (F := take_rows order df2).
  assert (empty F = bool_decide (order = [])) as HE.
  { apply (empty_take_rows _ _ _ _ Hvalid (with_scratch_date df dates amounts)). }
  assert (iterrows F = item_at df2 <$> order) as HI
    by by apply iterrows_take_rows.
  assert (columns F !! "__date" = Some (cell_at (time_cell <$> dates) <$> order))
    as HF.
  { unfold F. rewrite columns_take_rows_lookup. unfold df2.
    by rewrite with_scratch_date. }
  assert (getitem F "__date" ≫= series_min
          = match omap (when_at dates) order with
            | [] => Raise ValueError
            | t :: ts => Ok (foldl dt_min t ts)
            end) as Hmin.
  { unfold getitem. rewrite HF. cbn [mbind result_bind].
    unfold series_min. rewrite omap_sort_key_dates.
    by destruct (omap _ order). }
  assert (getitem F "__date" ≫= series_max
          = match omap (when_at dates) order with
            | [] => Raise ValueError
            | t :: ts => Ok (foldl dt_max t ts)
            end) as Hmax.
  { unfold getitem. rewrite HF. cbn [mbind result_bind].
    unfold series_max. rewrite omap_sort_key_dates.
    by destruct (omap _ order). }
  rewrite lift_bind. rewrite HE, HI, Hmin, Hmax.
  destruct order as [|k order'] eqn:Eo.
  - rewrite bool_decide_eq_true_2 by done. cbn [negb].
    rewrite !now_bind, lift_bind. by cbn [fmap list_fmap mapM mret result_ret omap list_omap].
  - rewrite bool_decide_eq_false_2 by done. cbn [negb].
    destruct (when_at_survivor (nrows df) dates amounts k) as [t Ht].
    { fold keep. rewrite <- Horder. set_solver. }
    cbn [omap list_omap]. rewrite Ht.
    rewrite !lift_bind, now_bind, lift_bind.
    by destruct (mapM _ _).
Qed.

End Pipeline.

(** ** The loop body and the lines it appends *)
Section Blocks.

Variable float_repr : float → string.

Import FrameFacts.

Lemma mapM_result_inv {A B} (f : A → result B) l bs :
  mapM f l = Ok bs → Forall2 (λ x b, f x = Ok b) l bs.
Proof.
  revert bs. induction l as [|x l IH]; intros bs; csimpl.
  - intros [= <-]. constructor.
  - destruct (f x) as [b|e] eqn:Hx; csimpl; [| done].
    destruct (mapM f l) as [bs'|e]; csimpl; [| done].
    intros [= <-]. constructor; [done | by apply IH].
Qed.

Lemma mapM_result_ok {A B} (f : A → result B) l :
  Forall (λ x, ∃ b, f x = Ok b) l → ∃ bs, mapM f l = Ok bs.
Proof.
  induction 1 as [|x l [b Hb] _ [bs IH]]; cbn [mapM].
  - by exists [].
  - rewrite Hb. cbn [mbind result_bind]. rewrite IH. by exists (b :: bs).
Qed.

(** What a successful pass through the loop body read and appended. *)
Lemma stmttrn_inv name_col memo_col idx row b :
  stmttrn float_repr name_col memo_col (idx, row) = Ok b →
  ∃ memo name when amount c,
    from_option id (Ok "") (cell_text float_repr row memo_col) = Ok memo ∧
    from_option id (Ok memo) (cell_text float_repr row name_col) = Ok name ∧
    row !! "__date" = Some (CTime when) ∧
    row !! "__amount" = Some c ∧ float_of_cell c = Ok amount ∧
    b = block_lines (if Float.ge0 amount then "CREDIT" else "DEBIT")
          (strftime_Ymd when) (Float.format_2f amount)
          (generate_fitid idx when amount memo)
          (if Text.truthy name then name else "Transaction") memo.
Proof.
  unfold stmttrn, cell_text, row_get. intros H.
  destruct (mapped memo_col) as [cm|]; destruct (mapped name_col) as [cn|];
    cbn [fmap option_fmap option_map from_option id];
    repeat match type of H with
      | context [row !! ?c] =>
          let E := fresh "E" in
          destruct (row !! c) as [?|] eqn:E;
          cbn [mbind mret result_bind result_ret] in H;
          cbn [mbind mret result_bind result_ret]; [| done]
      | context [datetime_of_cell ?c] =>
          destruct c; try done;
          cbn [datetime_of_cell mbind mret result_bind result_ret] in H
      | context [float_of_cell ?c] =>
          let E := fresh "F" in
          destruct (float_of_cell c) eqn:E; [| done];
          cbn [mbind mret result_bind result_ret] in H
      end;
    injection H as <-; by repeat eexists.
Qed.

(** The loop body succeeds on a row that parsed when the mapped optional
    columns exist. *)
Lemma stmttrn_ok name_col memo_col idx row when v :
  row !! "__date" = Some (CTime when) →
  row !! "__amount" = Some (num_cell v) →
  (∀ c, mapped memo_col = Some c → is_Some (row !! c)) →
  (∀ c, mapped name_col = Some c → is_Some (row !! c)) →
  ∃ b, stmttrn float_repr name_col memo_col (idx, row) = Ok b.
Proof.
  intros Hd Ha Hmemo Hname. unfold stmttrn, row_get. rewrite Hd, Ha.
  destruct (mapped memo_col) as [c|].
  - destruct (Hmemo c eq_refl) as [x ->]. cbn [mbind mret result_bind result_ret].
    destruct (mapped name_col) as [c'|].
    + destruct (Hname c' eq_refl) as [x' ->].
      cbn [mbind mret result_bind result_ret datetime_of_cell].
      destruct v; by eexists.
    + cbn [mbind mret result_bind result_ret datetime_of_cell].
      destruct v; by eexists.
  - cbn [mbind mret result_bind result_ret].
    destruct (mapped name_col) as [c'|].
    + destruct (Hname c' eq_refl) as [x' ->].
      cbn [mbind mret result_bind result_ret datetime_of_cell].
      destruct v; by eexists.
    + cbn [mbind mret result_bind result_ret datetime_of_cell].
      destruct v; by eexists.
Qed.

(** Reading the document back: the header and the footer carry no
    transaction field, and a block carries each once. *)
Lemma field_app tag (l1 l2 : list string) :
  field tag (l1 ++ l2) = (field tag l1 ++ field tag l2)%list.
Proof. apply omap_app. Qed.

Lemma header_field_app tag (l1 l2 : list string) :
  header_field tag (l1 ++ l2) = (header_field tag l1 ++ header_field tag l2)%list.
Proof. apply omap_app. Qed.

Lemma field_concat tag (bs : list (list string)) :
  field tag (concat bs) = concat (field tag <$> bs).
Proof.
  induction bs as [|b bs IH]; csimpl; [done |]. by rewrite field_app, IH.
Qed.

Lemma header_field_concat tag (bs : list (list string)) :
  header_field tag (concat bs) = concat (header_field tag <$> bs).
Proof.
  induction bs as [|b bs IH]; csimpl; [done |].
  by rewrite header_field_app, IH.
Qed.

Lemma head_lines_no_field meta dtserver start_date end_date tag :
  tag ∈ ["<TRNTYPE>"; "<DTPOSTED>"; "<TRNAMT>"; "<FITID>"; "<NAME>"; "<MEMO>"] →
  field tag (head_lines meta dtserver start_date end_date) = [].
Proof. intros H. by repeat (apply elem_of_cons in H as [-> | H]; [done |]); inv H. Qed.

Lemma tail_lines_no_field end_date tag :
  tag ∈ ["<TRNTYPE>"; "<DTPOSTED>"; "<TRNAMT>"; "<FITID>"; "<NAME>"; "<MEMO>"] →
  field tag (tail_lines end_date) = [].
Proof. intros H. by repeat (apply elem_of_cons in H as [-> | H]; [done |]); inv H. Qed.

(** The fields of a document are those of its blocks, in order. *)
Lemma field_document meta blocks lines tag :
  tag ∈ ["<TRNTYPE>"; "<DTPOSTED>"; "<TRNAMT>"; "<FITID>"; "<NAME>"; "<MEMO>"] →
  document meta blocks lines →
  field tag lines = concat (field tag <$> blocks).
Proof.
  intros Htag (dtserver & start_date & end_date & ->).
  rewrite !field_app, field_concat.
  rewrite head_lines_no_field, tail_lines_no_field by done.
  by rewrite app_nil_r.
Qed.

Lemma block_lines_fields trn_type posted trnamt fitid name memo :
  let b := block_lines trn_type posted trnamt fitid name memo in
  field "<TRNTYPE>" b = [trn_type] ∧ field "<DTPOSTED>" b = [posted] ∧
  field "<TRNAMT>" b = [trnamt] ∧ field "<FITID>" b = [fitid] ∧
  field "<NAME>" b = [name] ∧ field "<MEMO>" b = [memo] ∧
  count_blocks b = 1%nat ∧
  header_field "<DTSTART>" b = [] ∧ header_field "<DTEND>" b = [].
Proof. done. Qed.

(** The statement range and the number of blocks, read off a document. *)
Lemma header_document meta dtserver start_date end_date blocks :
  Forall (λ b, ∃ ty p a f n m, b = block_lines ty p a f n m) blocks →
  let lines := (head_lines meta dtserver start_date end_date ++ concat blocks
                ++ tail_lines end_date)%list in
  header_field "<DTSTART>" lines = [strftime_Ymd start_date] ∧
  header_field "<DTEND>" lines = [strftime_Ymd end_date] ∧
  count_blocks lines = length blocks.
Proof.
  intros Hblocks lines. unfold lines, count_blocks.
  rewrite !header_field_app, !header_field_concat.
  assert (concat (header_field "<DTSTART>" <$> blocks) = []
          ∧ concat (header_field "<DTEND>" <$> blocks) = []
          ∧ length (concat (header_field "<STMTTRN>" <$> blocks)) = length blocks)
    as (-> & -> & Hn).
  { induction Hblocks as [|b bs (ty & p & a & f & n & m & ->) _ (IH1 & IH2 & IH3)];
      [done |].
    csimpl. rewrite IH1, IH2, IH3. done. }
  repeat split; try done.
  rewrite !length_app, Hn. simpl. lia.
Qed.

End Blocks.

(** ** The reference instances meet the contract of the sort *)
Module RefFacts.
Import Ref FrameFacts OrderFacts.

Section Insertion.

Variable R : relation nat.
Variable before : nat → nat → bool.
Hypothesis before_true : ∀ i j, before i j = true → R i j.
Hypothesis before_false : ∀ i j, before i j = false → R j i.

Lemma insert_by_perm i l : insert_by before i l ≡ₚ i :: l.
Proof.
  induction l as [|j l IH]; simpl; [done |].
  destruct (before i j); [done |]. rewrite IH. apply Permutation_swap.
Qed.

Lemma insert_by_hd j i l :
  R j i → HdRel R j l → HdRel R j (insert_by before i l).
Proof.
  intros Hji Hl. destruct l as [|k l]; simpl; [by constructor |].
  destruct (before i k); constructor; [done |].
  by apply HdRel_inv in Hl.
Qed.

Lemma insert_by_sorted i l : Sorted R l → Sorted R (insert_by before i l).
Proof.
  induction 1 as [|j l Hl IH Hj]; simpl; [by repeat constructor |].
  destruct (before i j) eqn:E.
  - repeat constructor; auto.
  - constructor; [done |]. apply insert_by_hd; auto.
Qed.

Lemma insertion_sort_perm l : foldr (insert_by before) [] l ≡ₚ l.
Proof.
  induction l as [|i l IH]; simpl; [done |]. by rewrite insert_by_perm, IH.
Qed.

Lemma insertion_sort_sorted l : Sorted R (foldr (insert_by before) [] l).
Proof.
  induction l as [|i l IH]; simpl; [constructor | by apply insert_by_sorted].
Qed.

End Insertion.

Lemma at_positions_key_at ks ix :
  Forall (λ i, i < length ks)%nat ix → at_positions ks ix = key_at ks <$> ix.
Proof. apply (at_positions_valid ks None). Qed.

Lemma argsort_stable_sorts : sorts argsort_stable.
Proof.
  intros ks. unfold argsort_stable.
  set (before := λ i j, key_leb (key_at ks i) (key_at ks j)).
  assert (foldr (insert_by before) [] (seq 0 (length ks)) ≡ₚ seq 0 (length ks))
    as Hperm by apply insertion_sort_perm.
  split; [done |].
  rewrite at_positions_key_at by by apply perm_seq_valid.
  apply Sorted_fmap with (R1 := λ i j, key_le (key_at ks i) (key_at ks j));
    [done |].
  apply (insertion_sort_sorted _ before).
  - done.
  - intros i j Hf. unfold before in Hf.
    destruct (key_le_total (key_at ks i) (key_at ks j)) as [H | H]; [| done].
    unfold key_le in H. congruence.
Qed.

#[local] Instance key_then_position_trans ks : Transitive (key_then_position ks).
Proof.
  intros i j l [Hij Hi] [Hjl Hj]. split; [by etrans |].
  intros Hli.
  assert (i < j)%nat by (apply Hi; by etrans).
  assert (j < l)%nat by (apply Hj; by etrans).
  lia.
Qed.





End RefFacts.



Section Statement.

Variable to_datetime :
  option string → list cell → result (list (option datetime)).
Variable to_numeric : list cell → list num.
Variable argsort : list (option datetime) → list nat.
Variable float_repr : float → string.
Hypothesis argsort_sorts : sorts argsort.

Variable df : DataFrame.
Variable meta : OfxMeta.
Variables date_col amount_col : string.
Variables name_col memo_col : option string.
Variable invert_amount : bool.
Variable date_format : string.
Hypothesis mapping : mapping_ok df date_col amount_col name_col memo_col.

Import FrameFacts OrderFacts.

(** The two library calls return: the parsed columns. *)
Variable dates : list (option datetime).
Variable amounts : list num.
Hypothesis dates_parsed :
  parse_date to_datetime (series df date_col) date_format = Ok dates.
Hypothesis amounts_parsed :
  normalize_amount to_numeric (series df amount_col) invert_amount = Ok amounts.

(** The rows that survive, and the frame the loop reads. *)
Let keep := survivors (nrows df) dates amounts.
Let df2 := with_scratch df dates amounts.

Lemma survivor_date k :
  k ∈ keep → ∃ t, when_at dates k = Some t ∧ row_at df2 k !! "__date" = Some (CTime t).
Proof.
  intros [Hk _]%list_elem_of_filter.
  apply parsed_ok_inv in Hk as (t & v & Hd & _).
  exists t. unfold when_at. rewrite Hd. split; [done |].
  rewrite row_at_lookup. unfold df2. rewrite with_scratch_date. simpl.
  unfold cell_at. by rewrite list_lookup_fmap, Hd.
Qed.

Lemma survivor_amount k :
  k ∈ keep →
  ∃ v, amounts !! k = Some v ∧ isna (num_cell v) = false ∧
       row_at df2 k !! "__amount" = Some (num_cell v).
Proof.
  intros [Hk _]%list_elem_of_filter.
  apply parsed_ok_inv in Hk as (t & v & _ & Ha & Hv).
  exists v. split; [done |]. split; [done |].
  rewrite row_at_lookup. unfold df2. rewrite with_scratch_amount. simpl.
  unfold cell_at. by rewrite list_lookup_fmap, Ha.
Qed.

Lemma df2_column_present c k :
  is_Some (columns df !! c) → is_Some (row_at df2 k !! c).
Proof.
  intros Hc. rewrite row_at_lookup. apply fmap_is_Some.
  unfold df2, with_scratch, setitem. cbn [columns].
  destruct (decide (c = "__amount")) as [-> | Ha].
  { by rewrite lookup_insert_eq. }
  rewrite lookup_insert_ne by done.
  destruct (decide (c = "__date")) as [-> | Hd].
  { by rewrite lookup_insert_eq. }
  by rewrite lookup_insert_ne.
Qed.

(** What the block of a surviving row holds. *)
Lemma stmttrn_survivor k b :
  k ∈ keep →
  stmttrn float_repr name_col memo_col (item_at df2 k) = Ok b →
  ∃ t v memo name,
    when_at dates k = Some t ∧ amounts !! k = Some v ∧
    isna (num_cell v) = false ∧
    from_option id (Ok "") (cell_text float_repr (row_at df2 k) memo_col)
      = Ok memo ∧
    from_option id (Ok memo) (cell_text float_repr (row_at df2 k) name_col)
      = Ok name ∧
    b = block_lines
          (if Float.ge0 (float_of_num v) then "CREDIT" else "DEBIT")
          (strftime_Ymd t) (Float.format_2f (float_of_num v))
          (generate_fitid (label_at df k) t (float_of_num v) memo)
          (if Text.truthy name then name else "Transaction") memo.
Proof.
  intros Hk Hb.
  destruct (survivor_date k Hk) as (t & Ht & Hrd).
  destruct (survivor_amount k Hk) as (v & Hv & Hna & Hra).
  apply stmttrn_inv in Hb as (memo & name & when & amount & c & Hm & Hn & Hd
                               & Ha & Hf & ->).
  rewrite Hrd in Hd. injection Hd as <-.
  rewrite Hra in Ha. injection Ha as <-.
  assert (amount = float_of_num v) as ->.
  { destruct v; by injection Hf as <-. }
  by exists t, v, memo, name.
Qed.

(** The conversion succeeds, and the document holds one block for each
    surviving row, in an order that is ascending by date. *)
Lemma render_lines_ok clk :
  ∃ order blocks,
    order ≡ₚ keep ∧
    Sorted key_le (when_at dates <$> order) ∧
    Forall2 (λ k b, stmttrn float_repr name_col memo_col (item_at df2 k) = Ok b)
      order blocks ∧
    render_lines to_datetime to_numeric argsort float_repr df meta date_col
      amount_col name_col memo_col invert_amount date_format clk
    = match omap (when_at dates) order with
      | [] =>
          Ok ((head_lines meta (nth_reading clk 2) (nth_reading clk 0)
                 (nth_reading clk 1)
               ++ concat blocks ++ tail_lines (nth_reading clk 1))%list,
              tick 3 clk)
      | t :: ts =>
          Ok ((head_lines meta (nth_reading clk 0) (foldl dt_min t ts)
                 (foldl dt_max t ts)
               ++ concat blocks ++ tail_lines (foldl dt_max t ts))%list,
              tick 1 clk)
      end.
Proof.
  destruct mapping as ([sd Hd] & [sa Ha] & Hne & Hname & Hmemo).
  assert (columns (setitem df "__date" (time_cell <$> dates))
            !! amount_col = Some sa) as Ha'.
  { unfold setitem. cbn [columns]. by rewrite lookup_insert_ne. }
  assert (parse_date to_datetime sd date_format = Ok dates) as Hdates.
  { rewrite <- dates_parsed. unfold series. by rewrite Hd. }
  assert (normalize_amount to_numeric sa invert_amount = Ok amounts)
    as Hamounts.
  { rewrite <- amounts_parsed. unfold series. by rewrite Ha. }
  destruct (render_lines_eq to_datetime to_numeric argsort float_repr
              argsort_sorts df meta date_col amount_col name_col memo_col
              invert_amount date_format sd sa dates amounts clk Hd Hdates Ha'
              Hamounts)
    as (order & _ & Hperm & Hsorted & Heq).
  cbv zeta in Hperm, Hsorted, Heq.
  fold keep in Hperm. fold df2 in Heq.
  assert (Forall (λ it, ∃ b, stmttrn float_repr name_col memo_col it = Ok b)
            (item_at df2 <$> order)) as Hall.
  { apply Forall_fmap, Forall_forall. intros k Hk. rewrite Hperm in Hk.
    destruct (survivor_date k Hk) as (t & _ & Hrd).
    destruct (survivor_amount k Hk) as (v & _ & _ & Hra).
    apply (stmttrn_ok _ _ _ _ _ t v Hrd Hra).
    - intros c Hc. apply df2_column_present; auto.
    - intros c Hc. apply df2_column_present; auto. }
  destruct (mapM_result_ok _ _ Hall) as [blocks Hblocks].
  exists order, blocks. split; [done |]. split; [done |]. split.
  - apply mapM_result_inv in Hblocks. by apply Forall2_fmap_l in Hblocks.
  - by rewrite Heq, Hblocks.
Qed.

Lemma keep_spec k :
  k ∈ keep ↔ (k < nrows df)%nat ∧ parsed_ok dates amounts k = true.
Proof.
  unfold keep, survivors. rewrite list_elem_of_filter, elem_of_seq.
  split; intros [? ?]; split; auto; lia.
Qed.

Lemma keep_NoDup : NoDup keep.
Proof. apply NoDup_filter, NoDup_seq. Qed.

(** The same, with the clock readings put away. *)
Lemma render_lines_rows clk :
  ∃ order blocks lines clk',
    order ≡ₚ keep ∧
    Sorted key_le (when_at dates <$> order) ∧
    Forall2 (λ k b, stmttrn float_repr name_col memo_col (item_at df2 k) = Ok b)
      order blocks ∧
    render_lines to_datetime to_numeric argsort float_repr df meta date_col
      amount_col name_col memo_col invert_amount date_format clk
    = Ok (lines, clk') ∧
    document meta blocks lines.
Proof.
  destruct (render_lines_ok clk) as (order & blocks & Hperm & Hsorted & Hrows & Heq).
  exists order, blocks.
  destruct (omap (when_at dates) order) as [|t ts];
    eexists _, _; (repeat split; [done | done | done | exact Heq |]);
    by eexists _, _, _.
Qed.

(** Every block is a block of the shape the loop appends, for its row. *)
Lemma rows_blocks (P : nat → list string → Prop) order blocks :
  order ≡ₚ keep →
  Forall2 (λ k b, stmttrn float_repr name_col memo_col (item_at df2 k) = Ok b)
    order blocks →
  (∀ k b, k ∈ keep →
          stmttrn float_repr name_col memo_col (item_at df2 k) = Ok b → P k b) →
  Forall2 P order blocks.
Proof.
  intros Hperm Hrows HP.
  assert (Forall (λ k, k ∈ keep) order) as Hin.
  { apply Forall_forall. intros k Hk. by rewrite <- Hperm. }
  clear Hperm. revert Hin.
  induction Hrows as [|k b order blocks Hb _ IH]; intros Hin; [constructor |].
  apply Forall_cons in Hin as [Hk Hin].
  constructor; [by apply HP | by apply IH].
Qed.

Lemma fmap_Some_omap {A B} (f : A → option B) (l : list A) :
  Forall (λ x, is_Some (f x)) l → f <$> l = Some <$> omap f l.
Proof.
  induction 1 as [|x l [y Hy] _ IH]; csimpl; [done |].
  rewrite Hy. csimpl. by rewrite IH.
Qed.

Lemma Sorted_Some (times : list datetime) :
  Sorted key_le (Some <$> times) → Sorted dt_le times.
Proof.
  induction times as [|t times IH]; csimpl; [constructor |].
  intros [Hs Hh]%Sorted_inv. constructor; [auto |].
  destruct times; csimpl in *; constructor. by apply HdRel_inv in Hh.
Qed.

(** The dates of the blocks, in document order. *)
Lemma posted_dates order blocks :
  order ≡ₚ keep →
  Forall2 (λ k b, stmttrn float_repr name_col memo_col (item_at df2 k) = Ok b)
    order blocks →
  concat (field "<DTPOSTED>" <$> blocks)
  = strftime_Ymd <$> omap (when_at dates) order.
Proof.
  intros Hperm Hrows.
  assert (Forall2 (λ k b, ∃ t, when_at dates k = Some t
                            ∧ field "<DTPOSTED>" b = [strftime_Ymd t])
            order blocks) as H.
  { apply (rows_blocks _ _ _ Hperm Hrows). intros k b Hk Hb.
    apply (stmttrn_survivor k b Hk) in Hb
      as (t & v & memo & name & Ht & _ & _ & _ & _ & ->).
    by exists t. }
  clear Hperm Hrows.
  induction H as [|k b order blocks (t & Ht & Hb) _ IH]; csimpl; [done |].
  by rewrite Ht, Hb, IH.
Qed.

(** The document, its blocks and their dates in document order. *)
Lemma render_lines_dates clk :
  ∃ order blocks lines clk',
    order ≡ₚ keep ∧
    Forall2 (λ k b, stmttrn float_repr name_col memo_col (item_at df2 k) = Ok b)
      order blocks ∧
    render_lines to_datetime to_numeric argsort float_repr df meta date_col
      amount_col name_col memo_col invert_amount date_format clk
    = Ok (lines, clk') ∧
    document meta blocks lines ∧
    field "<DTPOSTED>" lines = strftime_Ymd <$> omap (when_at dates) order ∧
    Sorted dt_le (omap (when_at dates) order).
Proof.
  destruct (render_lines_rows clk)
    as (order & blocks & lines & clk' & Hperm & Hsorted & Hrows & Heq & Hdoc).
  exists order, blocks, lines, clk'.
  split; [done |]. split; [done |]. split; [done |]. split; [done |]. split.
  { rewrite (field_document meta blocks) by (done || set_solver).
    by apply posted_dates. }
  apply Sorted_Some. rewrite <- fmap_Some_omap; [done |].
  apply Forall_forall. intros k Hk. rewrite Hperm in Hk.
  destruct (survivor_date k Hk) as (t & -> & _). by eexists.
Qed.

(** X21: the order [sort_values] leaves the rows in is the order of the
    document: when the two library calls return and the library's sort
    returns the rows in ascending order of their key, the [DTPOSTED] values
    of the document are the dates of the surviving rows, each once, in
    ascending order.  The order of two rows with the same date is the one
    that sort returns. *)
Theorem stmttrn_blocks_sorted clk :
  ∃ lines clk' times,
    render_lines to_datetime to_numeric argsort float_repr df meta date_col
      amount_col name_col memo_col invert_amount date_format clk
    = Ok (lines, clk') ∧
    field "<DTPOSTED>" lines = strftime_Ymd <$> times ∧
    times ≡ₚ omap (when_at dates) keep ∧
    Sorted dt_le times ∧
    Sorted (λ a b, date_leb a b = true) times.
Proof.
  destruct (render_lines_dates clk)
    as (order & blocks & lines & clk' & Hperm & _ & Heq & _ & Hposted & Hs).
  exists lines, clk', (omap (when_at dates) order).
  split; [done |]. split; [done |]. split; [by rewrite Hperm |].
  split; [done |].
  rewrite <- (list_fmap_id (omap _ order)).
  apply Sorted_fmap with (R1 := dt_le); [| done].
  intros a b. apply dt_leb_date_leb.
Qed.


(** C4, as amended: when the two library calls return, the conversion
    returns a document, and the lines it is joined from hold exactly one
    [<STMTTRN>] block for each row whose date and amount both parsed, and
    none for the other rows.  A reader of the text counts the same as long as
    no line holds a line feed. *)
Theorem one_block_per_parsed_row clk :
  ∃ lines clk' order blocks,
    render_lines to_datetime to_numeric argsort float_repr df meta date_col
      amount_col name_col memo_col invert_amount date_format clk
    = Ok (lines, clk') ∧
    render_ofx to_datetime to_numeric argsort float_repr df meta date_col
      amount_col name_col memo_col invert_amount date_format clk
    = Ok (Text.join (String Text.newline "") lines, clk') ∧
    document meta blocks lines ∧
    Forall2 (λ k b, stmttrn float_repr name_col memo_col (item_at df2 k) = Ok b)
      order blocks ∧
    NoDup order ∧
    (∀ k, k ∈ order ↔ (k < nrows df)%nat ∧ parsed_ok dates amounts k = true) ∧
    count_blocks lines = length keep ∧
    (Forall (λ l, Text.one_line l = true) lines →
     count_blocks (Text.split_lines (Text.join (String Text.newline "") lines))
     = length keep).
Proof.
  destruct (render_lines_rows clk)
    as (order & blocks & lines & clk' & Hperm & _ & Hrows & Heq & Hdoc).
  exists lines, clk', order, blocks.
  split; [done |]. split; [by apply render_ofx_lines |].
  split; [done |]. split; [done |].
  split; [rewrite Hperm; apply keep_NoDup |].
  split; [intros k; rewrite Hperm; apply keep_spec |].
  assert (count_blocks lines = length keep) as Hcount.
  { destruct Hdoc as (dtserver & start_date & end_date & ->).
    destruct (header_document meta dtserver start_date end_date blocks)
      as (_ & _ & ->).
    - eapply Forall2_Forall_r;
        [apply (rows_blocks (λ _ b, ∃ ty p a f n m, b = block_lines ty p a f n m)
                  _ _ Hperm Hrows) |].
      + intros k b Hk Hb.
        apply (stmttrn_survivor k b Hk) in Hb
          as (t & v & memo & name & _ & _ & _ & _ & _ & ->).
        by eexists _, _, _, _, _, _.
      + by apply Forall_true.
    - by rewrite <- (Forall2_length _ _ _ Hrows), Hperm. }
  split; [done |]. intros Hone.
  rewrite TextFacts.split_lines_join; [done | | done].
  destruct Hdoc as (dtserver & start_date & end_date & ->). done.
Qed.

(** C6, as amended: with at least one surviving row, [DTSTART] is the least
    and [DTEND] the greatest normalized date, so [DTSTART <= DTEND]; with
    none, each is the date the clock shows when it is computed, [DTSTART] at
    one reading and [DTEND] at the next, and the two are equal when both
    readings fall on the same day. *)
Theorem statement_range clk :
  ∃ lines clk',
    render_lines to_datetime to_numeric argsort float_repr df meta date_col
      amount_col name_col memo_col invert_amount date_format clk
    = Ok (lines, clk') ∧
    match omap (when_at dates) keep with
    | [] =>
        header_field "<DTSTART>" lines = [strftime_Ymd (nth_reading clk 0)] ∧
        header_field "<DTEND>" lines = [strftime_Ymd (nth_reading clk 1)] ∧
        (dt_date (nth_reading clk 0) = dt_date (nth_reading clk 1) →
         header_field "<DTSTART>" lines = header_field "<DTEND>" lines)
    | t :: ts =>
        ∃ tmin tmax,
          header_field "<DTSTART>" lines = [strftime_Ymd tmin] ∧
          header_field "<DTEND>" lines = [strftime_Ymd tmax] ∧
          tmin ∈ t :: ts ∧ Forall (dt_le tmin) (t :: ts) ∧
          tmax ∈ t :: ts ∧ Forall (λ x, dt_le x tmax) (t :: ts) ∧
          date_leb tmin tmax = true
    end.
Proof.
  destruct (render_lines_ok clk) as (order & blocks & Hperm & _ & Hrows & Heq).
  assert (Forall (λ b, ∃ ty p a f n m, b = block_lines ty p a f n m) blocks)
    as Hshape.
  { eapply Forall2_Forall_r;
      [apply (rows_blocks (λ _ b, ∃ ty p a f n m, b = block_lines ty p a f n m)
                _ _ Hperm Hrows) | by apply Forall_true].
    intros k b Hk Hb.
    apply (stmttrn_survivor k b Hk) in Hb
      as (t & v & memo & name & _ & _ & _ & _ & _ & ->).
    by eexists _, _, _, _, _, _. }
  assert (omap (when_at dates) order ≡ₚ omap (when_at dates) keep) as Htimes
    by by rewrite Hperm.
  destruct (omap (when_at dates) order) as [|t ts] eqn:Eo.
  - apply Permutation_nil_l in Htimes. rewrite <- Htimes.
    eexists _, _. split; [exact Heq |].
    destruct (header_document meta (nth_reading clk 2) (nth_reading clk 0)
                (nth_reading clk 1) blocks Hshape) as (-> & -> & _).
    repeat split. intros Hday. unfold strftime_Ymd, dt_date in *.
    by injection Hday as -> -> ->.
  - eexists _, _. split; [exact Heq |].
    destruct (header_document meta (nth_reading clk 0) (foldl dt_min t ts)
                (foldl dt_max t ts) blocks Hshape) as (Hs & He & _).
    destruct (foldl_min_spec ts t) as [Hmin_in Hmin].
    destruct (foldl_max_spec ts t) as [Hmax_in Hmax].
    destruct (omap (when_at dates) keep) as [|t' ts'] eqn:Ek.
    { by apply Permutation_nil_r in Htimes. }
    exists (foldl dt_min t ts), (foldl dt_max t ts).
    split; [done |]. split; [done |].
    split; [by rewrite <- Htimes |]. split; [by rewrite <- Htimes |].
    split; [by rewrite <- Htimes |]. split; [by rewrite <- Htimes |].
    apply dt_leb_date_leb.
    by apply (proj1 (Forall_forall _ _) Hmin).
Qed.

Lemma row_at_with_scratch k c :
  c ≠ "__date" → c ≠ "__amount" → row_at df2 k !! c = row_at df k !! c.
Proof.
  intros Hd Ha. rewrite !row_at_lookup. unfold df2.
  by rewrite with_scratch_other.
Qed.

(** C7, as amended: the [TRNAMT] of every transaction is its amount printed
    by [format_2f], which has exactly two fractional digits whenever the
    amount is finite (an infinite amount prints as [inf] or [-inf]); 12.5
    prints as [12.50]; a zero amount is a [CREDIT], printed [0.00] when it is
    the integer 0 or the float +0.0 and [-0.00] when it is the float -0.0. *)
Theorem trnamt_two_decimals clk :
  ∃ lines clk' order blocks,
    render_lines to_datetime to_numeric argsort float_repr df meta date_col
      amount_col name_col memo_col invert_amount date_format clk
    = Ok (lines, clk') ∧
    document meta blocks lines ∧
    order ≡ₚ keep ∧
    Forall2 (λ k b, ∃ a,
               amount_at amounts k = Some a ∧
               field "<TRNAMT>" b = [Float.format_2f a] ∧
               field "<TRNTYPE>" b = [if Float.ge0 a then "CREDIT" else "DEBIT"] ∧
               (Float.isfinite a = true →
                Text.two_decimals (Float.format_2f a) = true))
      order blocks ∧
    Float.format_2f Examples.f12_5 = "12.50" ∧
    (Float.format_2f (Float.of_int 0) = "0.00" ∧ Float.ge0 (Float.of_int 0) = true) ∧
    (Float.format_2f (S754_zero false) = "0.00" ∧ Float.ge0 (S754_zero false) = true) ∧
    (Float.format_2f (S754_zero true) = "-0.00" ∧ Float.ge0 (S754_zero true) = true) ∧
    (Float.format_2f (S754_infinity false) = "inf"
     ∧ Float.format_2f (S754_infinity true) = "-inf").
Proof.
  destruct (render_lines_rows clk)
    as (order & blocks & lines & clk' & Hperm & _ & Hrows & Heq & Hdoc).
  exists lines, clk', order, blocks.
  split; [done |]. split; [done |]. split; [done |].
  split; [| by vm_compute].
  apply (rows_blocks _ _ _ Hperm Hrows). intros k b Hk Hb.
  apply (stmttrn_survivor k b Hk) in Hb
    as (t & v & memo & name & _ & Hv & _ & _ & _ & ->).
  exists (float_of_num v). unfold amount_at. rewrite Hv.
  repeat split. apply FormatFacts.format_2f_two_decimals.
Qed.

(** C8: with no name column mapped the name is the memo, and a non-empty memo
    is what [NAME] shows; when the name and the memo are both empty, [NAME]
    shows the text [Transaction]. *)
Theorem name_defaults_to_memo clk :
  ∃ lines clk' order blocks,
    render_lines to_datetime to_numeric argsort float_repr df meta date_col
      amount_col name_col memo_col invert_amount date_format clk
    = Ok (lines, clk') ∧
    document meta blocks lines ∧
    order ≡ₚ keep ∧
    Forall2 (λ k b, ∃ memo name,
               from_option id (Ok "")
                 (cell_text float_repr (row_at df2 k) memo_col) = Ok memo ∧
               from_option id (Ok memo)
                 (cell_text float_repr (row_at df2 k) name_col) = Ok name ∧
               field "<MEMO>" b = [memo] ∧
               (mapped name_col = None → name = memo) ∧
               (mapped name_col = None → memo ≠ "" → field "<NAME>" b = [memo]) ∧
               (name = "" → memo = "" → field "<NAME>" b = ["Transaction"]) ∧
               (name ≠ "" → field "<NAME>" b = [name]))
      order blocks.
Proof.
  destruct (render_lines_rows clk)
    as (order & blocks & lines & clk' & Hperm & _ & Hrows & Heq & Hdoc).
  exists lines, clk', order, blocks.
  split; [done |]. split; [done |]. split; [done |].
  apply (rows_blocks _ _ _ Hperm Hrows). intros k b Hk Hb.
  apply (stmttrn_survivor k b Hk) in Hb
    as (t & v & memo & name & _ & _ & _ & Hm & Hn & ->).
  exists memo, name. split; [done |]. split; [done |]. split; [done |].
  assert (mapped name_col = None → name = memo) as Hdef.
  { intros E. unfold cell_text in Hn. rewrite E in Hn. by injection Hn. }
  split; [done |]. split.
  { intros E Hne. rewrite (Hdef E). by destruct memo. }
  split.
  - by intros -> _.
  - intros Hne. by destruct name.
Qed.

(** C10: a missing cell in a mapped memo or name column is turned into text
    before anything looks at it, so [MEMO], the memo segment of [FITID] and
    [NAME] show [nan], and neither the memo nor the [Transaction] fallback
    applies. *)
Theorem missing_cell_renders_nan clk :
  ∃ lines clk' order blocks,
    render_lines to_datetime to_numeric argsort float_repr df meta date_col
      amount_col name_col memo_col invert_amount date_format clk
    = Ok (lines, clk') ∧
    document meta blocks lines ∧
    order ≡ₚ keep ∧
    Forall2 (λ k b,
               (∀ c, mapped memo_col = Some c →
                     row_at df2 k !! c = Some NaN →
                     field "<MEMO>" b = ["nan"] ∧
                     (∃ t a,
                        field "<FITID>" b
                        = [strftime_Ymd t +:+ "-" +:+ Float.format_2f a +:+ "-"
                           +:+ Text.str_int (label_at df k) +:+ "-nan"]) ∧
                     (mapped name_col = None → field "<NAME>" b = ["nan"])) ∧
               (∀ c, mapped name_col = Some c →
                     row_at df2 k !! c = Some NaN →
                     field "<NAME>" b = ["nan"]))
      order blocks.
Proof.
  destruct (render_lines_rows clk)
    as (order & blocks & lines & clk' & Hperm & _ & Hrows & Heq & Hdoc).
  exists lines, clk', order, blocks.
  split; [done |]. split; [done |]. split; [done |].
  apply (rows_blocks _ _ _ Hperm Hrows). intros k b Hk Hb.
  apply (stmttrn_survivor k b Hk) in Hb
    as (t & v & memo & name & _ & _ & _ & Hm & Hn & ->).
  unfold cell_text, row_get in Hm, Hn. split.
  - intros c Hc Hcell. rewrite Hc in Hm.
    cbn [fmap option_fmap option_map from_option id] in Hm.
    rewrite Hcell in Hm. injection Hm as <-. split; [done |]. split.
    + exists t, (float_of_num v). cbn [field omap list_omap block_lines].
      by rewrite FormatFacts.generate_fitid_segments.
    + intros E. rewrite E in Hn. by injection Hn as <-.
  - intros c Hc Hcell. rewrite Hc in Hn.
    cbn [fmap option_fmap option_map from_option id] in Hn.
    rewrite Hcell in Hn. by injection Hn as <-.
Qed.

End Statement.

(** * Statements of the specification *)

Import Examples.

(** ** Identifiers *)

(** C3, counterexample: a tab inside the memo survives into the identifier,
    which therefore still holds a whitespace character; and an infinite
    amount prints with no decimal digit. *)
Lemma generate_fitid_keeps_tab :
  generate_fitid 0 jan5 f1 memo_tab = "20240105-1.00-0-" +:+ memo_tab
  ∧ Text.existsb_string Text.isspace (generate_fitid 0 jan5 f1 memo_tab) = true
  ∧ generate_fitid 0 jan5 (S754_infinity false) "" = "20240105-inf-0".
Proof. by vm_compute. Qed.

(** C3, as amended: for a valid date and a finite amount the identifier is
    the date as eight digits, the amount with two fractional digits and the
    source index, joined by ["-"], then, for a non-empty memo, ["-"] and the
    first twenty characters of the trimmed memo; the final [replace] removes
    the space characters (U+0020) and no other whitespace. *)
Theorem generate_fitid_format idx when amount memo :
  dt_valid when → Float.isfinite amount = true →
  generate_fitid idx when amount memo
  = strftime_Ymd when +:+ "-" +:+ Float.format_2f amount +:+ "-"
    +:+ Text.str_int idx
    +:+ (if Text.truthy memo
         then "-" +:+ Text.remove_spaces (Text.slice_to 20 (Text.strip memo))
         else "")
  ∧ String.length (strftime_Ymd when) = 8%nat
  ∧ Text.forallb_string Text.isdigit (strftime_Ymd when) = true
  ∧ Text.two_decimals (Float.format_2f amount) = true
  ∧ Text.no_space (generate_fitid idx when amount memo) = true.
Proof.
  intros Hwhen Hfin. repeat split.
  - apply FormatFacts.generate_fitid_segments.
  - by apply FormatFacts.length_strftime_Ymd.
  - apply FormatFacts.strftime_Ymd_isdigit.
  - by apply FormatFacts.format_2f_two_decimals.
  - apply TextFacts.remove_spaces_no_space.
Qed.

(** C3 at a memo that is trimmed, cut at twenty characters and rid of its
    spaces. *)
Lemma generate_fitid_format_witness :
  dt_valid jan5 ∧ Float.isfinite f12_5 = true ∧
  generate_fitid 3 jan5 f12_5 "  hello world, this is a long memo "
  = "20240105-12.50-3-helloworld,thisis".
Proof.
  assert (dt_valid jan5) as Hv by (unfold dt_valid, jan5; simpl; lia).
  assert (Float.isfinite f12_5 = true) as Hf by reflexivity.
  split; [exact Hv |]. split; [exact Hf |].
  destruct (generate_fitid_format 3 jan5 f12_5
              "  hello world, this is a long memo " Hv Hf) as [-> _].
  reflexivity.
Defined.

(** ** Missing columns *)
Section MissingColumns.

Variable to_datetime :
  option string → list cell → result (list (option datetime)).
Variable to_numeric : list cell → list num.
Variable argsort : list (option datetime) → list nat.
Variable float_repr : float → string.

(** X7: a date column the table lacks raises [KeyError] at the first lookup,
    before any line exists. *)
Lemma render_ofx_missing_date_col df meta date_col amount_col name_col memo_col
    inv fmt clk :
  columns df !! date_col = None →
  render_ofx to_datetime to_numeric argsort float_repr df meta date_col
    amount_col name_col memo_col inv fmt clk = Raise (KeyError date_col).
Proof.
  intros Hd. unfold render_ofx, render_lines, prepare, copy, getitem.
  by rewrite Hd.
Qed.

(** X8: the amount column is looked up after the dates are parsed.  When
    the table lacks it, and it does not bear the name of the scratch column
    that the converter has just added, the conversion raises what
    [to_datetime] raises, and [KeyError] for the amount column when
    [to_datetime] returns. *)
Lemma render_ofx_missing_amount_col df meta date_col amount_col name_col
    memo_col inv fmt sd clk :
  columns df !! date_col = Some sd →
  columns df !! amount_col = None → amount_col ≠ "__date" →
  render_ofx to_datetime to_numeric argsort float_repr df meta date_col
    amount_col name_col memo_col inv fmt clk
  = match parse_date to_datetime sd fmt with
    | Ok _ => Raise (KeyError amount_col)
    | Raise e => Raise e
    end.
Proof.
  intros Hd Ha Hne.
  unfold render_ofx, render_lines, prepare, copy, getitem. rewrite Hd.
  cbn [mbind result_bind]. unfold mbind at 1 2, M_bind. unfold lift.
  destruct (parse_date to_datetime sd fmt) as [dates|e];
    cbn [mbind result_bind]; [| done].
  unfold setitem. cbn [columns].
  rewrite lookup_insert_ne by done. by rewrite Ha.
Qed.

End MissingColumns.

(** C9, the failing call: the table has a date column ["d"] and no column
    ["__date"]; mapped to ["__date"], the amount lookup finds the scratch
    column added one line earlier, no [KeyError] is raised, and a document
    comes back whose amount is the date in nanoseconds. *)
Theorem render_ofx_amount_col_scratch :
  columns df_date_only !! "__date" = None ∧
  ∃ lines,
    run (render_lines0 df_date_only meta0 "d" "__date" None None false "")
        (clock_from noon) = Ok lines ∧
    run (render_ofx0 df_date_only meta0 "d" "__date" None None false "")
        (clock_from noon) = Ok (Text.join (String Text.newline "") lines) ∧
    field "<TRNAMT>" lines = ["1704412800000000000.00"].
Proof. split; [done |]. eexists. by vm_compute. Qed.

(** ** The clock *)
Section ClockReadings.

Variable to_datetime :
  option string → list cell → result (list (option datetime)).
Variable to_numeric : list cell → list num.
Variable argsort : list (option datetime) → list nat.
Variable float_repr : float → string.

(** C2, as amended: the document is a function of the input and of the
    readings of the clock.  Two calls on the same input that see the same
    three next readings return the same text or raise the same exception;
    the time of the call shows in [DTSERVER] (and, when no row survives, in
    [DTSTART], [DTEND] and [DTASOF]). *)
Theorem render_ofx_same_readings df meta date_col amount_col name_col memo_col
    invert_amount date_format clk1 clk2 :
  (∀ n, (n < 3)%nat → nth_reading clk1 n = nth_reading clk2 n) →
  run (render_ofx to_datetime to_numeric argsort float_repr df meta date_col
         amount_col name_col memo_col invert_amount date_format) clk1
  = run (render_ofx to_datetime to_numeric argsort float_repr df meta date_col
           amount_col name_col memo_col invert_amount date_format) clk2.
Proof.
  intros Hread.
  pose proof (Hread 0%nat ltac:(lia)) as H0.
  pose proof (Hread 1%nat ltac:(lia)) as H1.
  pose proof (Hread 2%nat ltac:(lia)) as H2.
  unfold nth_reading in H0, H1, H2. cbn [Nat.add] in H0, H1, H2.
  unfold run, render_ofx, render_lines.
  unfold mbind, M_bind, lift, now, mret, M_ret.
  destruct (prepare _ _ _ _ _ _ _ _) as [F|e]; [| done].
  destruct (negb (empty F)).
  - destruct (result_bind _ _ _ (getitem F "__date")) as [start_date|e]; [| done].
    destruct (result_bind _ _ _ (getitem F "__date")) as [end_date|e]; [| done].
    cbn [reading ticks]. rewrite H0.
    by destruct (mapM _ _).
  - cbn [reading ticks]. rewrite H0, H1, H2.
    by destruct (mapM _ _).
Qed.

End ClockReadings.

(** C2, counterexample: the same table and mapping, converted at noon and one
    second later, give two different texts. *)
Lemma render_ofx_depends_on_clock :
  run (render_ofx0 df_two meta0 "date" "amt" None None false "")
      (clock_from noon)
  ≠ run (render_ofx0 df_two meta0 "date" "amt" None None false "")
        (clock_from (mkdt 2024 2 1 12 0 1 0 0)).
Proof. vm_compute. intros H. by inv H. Qed.

(** C2 at two clocks that differ in the number of readings taken so far and
    agree on the readings to come. *)
Lemma render_ofx_same_readings_witness :
  (∀ n, (n < 3)%nat → nth_reading (clock_from noon) n = nth_reading clock_late n) ∧
  run (render_ofx0 df_two meta0 "date" "amt" None None false "")
      (clock_from noon)
  = run (render_ofx0 df_two meta0 "date" "amt" None None false "") clock_late.
Proof.
  assert (∀ n, (n < 3)%nat →
               nth_reading (clock_from noon) n = nth_reading clock_late n) as H.
  { intros n _. unfold nth_reading, clock_from, clock_late, noon. simpl.
    f_equal. lia. }
  split; [exact H |].
  exact (render_ofx_same_readings Ref.to_datetime Ref.to_numeric
           Ref.argsort_stable Ref.float_repr df_two meta0 "date" "amt" None None
           false "" _ _ H).
Defined.

(** ** Removing a row that does not parse *)
Section RowRemoval.

Variable to_datetime :
  option string → list cell → result (list (option datetime)).
Variable to_numeric : list cell → list num.
Variable argsort : list (option datetime) → list nat.
Variable float_repr : float → string.
Hypothesis argsort_sorts : sorts argsort.

Import FrameFacts OrderFacts.

Lemma lookup_delete_skip {A} (l : list A) j k : delete j l !! k = l !! skip j k.
Proof.
  unfold skip. destruct (Nat.ltb_spec k j).
  - by apply list_lookup_delete_lt.
  - by apply list_lookup_delete_ge.
Qed.

#[local] Instance skip_inj j : Inj (=) (=) (skip j).
Proof.
  intros a b. unfold skip.
  destruct (Nat.ltb_spec a j), (Nat.ltb_spec b j); lia.
Qed.

Lemma cell_at_delete s j k : cell_at (delete j s) k = cell_at s (skip j k).
Proof. unfold cell_at. by rewrite lookup_delete_skip. Qed.


Lemma item_at_drop_row df dates amounts j k :
  item_at (with_scratch (drop_row j df) (delete j dates) (delete j amounts)) k
  = item_at (with_scratch df dates amounts) (skip j k).
Proof.
  unfold item_at, label_at, row_at. f_equal.
  - cbn [with_scratch setitem drop_row index]. by rewrite lookup_delete_skip.
  - apply map_eq. intros c. rewrite !lookup_fmap.
    unfold with_scratch, setitem, drop_row. cbn [columns].
    destruct (decide (c = "__amount")) as [-> | Ha].
    { rewrite !lookup_insert_eq. cbn. f_equal.
      unfold cell_at. by rewrite !list_lookup_fmap, lookup_delete_skip. }
    rewrite !(lookup_insert_ne _ "__amount") by done.
    destruct (decide (c = "__date")) as [-> | Hd].
    { rewrite !lookup_insert_eq. cbn. f_equal.
      unfold cell_at. by rewrite !list_lookup_fmap, lookup_delete_skip. }
    rewrite !(lookup_insert_ne _ "__date") by done.
    rewrite lookup_fmap. destruct (columns df !! c) as [s|]; cbn; [| done].
    f_equal. apply cell_at_delete.
Qed.








#[local] Instance dt_le_antisym : AntiSymm (=) dt_le.
Proof. intros a b. apply dt_leb_antisym. Qed.










End RowRemoval.

(** * The statements on concrete tables *)

Ltac mapping_ok_tac :=
  repeat split;
  first [ done
        | by (eexists; vm_compute; reflexivity)
        | by (intros ? [=])
        | by (intros ? [= <-]; eexists; vm_compute; reflexivity) ].

(** Reads the lines off the equation [H] of a concrete run and closes a
    goal about them by evaluation. *)
Ltac by_run H :=
  let Hc := fresh in
  pose proof H as Hc; vm_compute in Hc; injection Hc as <- <-; reflexivity.

(** C4, counterexample.  A memo of two lines, the second reading as the
    line that opens a transaction: the table has one row, it parses, and the
    text of the document holds three lines that open a transaction.  A date
    format with a directive [to_datetime] does not know: the conversion
    raises [ValueError] and drops nothing.  An amount column beyond int64
    with the sign inverted: the conversion raises [OverflowError]. *)
Lemma stmttrn_count_in_text :
  (∃ text clk' dates amounts,
     parse_date Ref.to_datetime (series df_memo_feed "date") "" = Ok dates ∧
     normalize_amount Ref.to_numeric (series df_memo_feed "amt") false
     = Ok amounts ∧
     survivors (nrows df_memo_feed) dates amounts = [0%nat] ∧
     render_ofx0 df_memo_feed meta0 "date" "amt" None (Some "memo") false ""
       (clock_from noon) = Ok (text, clk') ∧
     count_blocks (Text.split_lines text) = 3%nat) ∧
  render_ofx0 df_with_bad meta0 "date" "amt" None None false "%Q"
    (clock_from noon) = Raise ValueError ∧
  render_ofx0 df_uint64 meta0 "date" "amt" None None true ""
    (clock_from noon) = Raise OverflowError.
Proof.
  split; [| by vm_compute]. eexists _, _, _, _.
  split; [by vm_compute |]. split; [by vm_compute |]. by vm_compute.
Qed.

(** C4 on a table with one row that does not parse and one that does. *)
Lemma one_block_per_parsed_row_witness :
  sorts Ref.argsort_stable ∧
  mapping_ok df_with_bad "date" "amt" None None ∧
  ∃ lines clk',
    render_lines0 df_with_bad meta0 "date" "amt" None None false ""
      (clock_from noon) = Ok (lines, clk') ∧
    count_blocks lines = 1%nat ∧
    field "<FITID>" lines = ["20240105-100.00-1"].
Proof.
  assert (mapping_ok df_with_bad "date" "amt" None None) as Hmap
    by mapping_ok_tac.
  split; [apply RefFacts.argsort_stable_sorts |]. split; [exact Hmap |].
  destruct (one_block_per_parsed_row Ref.to_datetime Ref.to_numeric
              Ref.argsort_stable Ref.float_repr RefFacts.argsort_stable_sorts
              df_with_bad meta0 "date" "amt" None None false "" Hmap _ _ eq_refl eq_refl
              (clock_from noon))
    as (lines & clk' & order & blocks & Heq & _ & _ & _ & _ & _ & Hcount & _).
  exists lines, clk'. split; [exact Heq |].
  split; [rewrite Hcount; reflexivity | by_run Heq].
Defined.



(** C6 on the two rows of the worked scenario. *)
Lemma statement_range_witness :
  sorts Ref.argsort_stable ∧
  mapping_ok df_two "date" "amt" None None ∧
  ∃ lines clk',
    render_lines0 df_two meta0 "date" "amt" None None false "" (clock_from noon)
    = Ok (lines, clk') ∧
    ∃ tmin tmax,
      header_field "<DTSTART>" lines = [strftime_Ymd tmin] ∧
      header_field "<DTEND>" lines = [strftime_Ymd tmax] ∧
      date_leb tmin tmax = true ∧
      header_field "<DTSTART>" lines = ["20240103"] ∧
      header_field "<DTEND>" lines = ["20240105"].
Proof.
  assert (mapping_ok df_two "date" "amt" None None) as Hmap by mapping_ok_tac.
  split; [apply RefFacts.argsort_stable_sorts |]. split; [exact Hmap |].
  destruct (statement_range Ref.to_datetime Ref.to_numeric Ref.argsort_stable
              Ref.float_repr RefFacts.argsort_stable_sorts df_two meta0 "date"
              "amt" None None false "" Hmap _ _ eq_refl eq_refl (clock_from noon))
    as (lines & clk' & Heq & Hrange).
  exists lines, clk'. split; [exact Heq |].
  vm_compute (omap _ _) in Hrange.
  destruct Hrange as (tmin & tmax & Hs & He & _ & _ & _ & _ & Hle).
  exists tmin, tmax. split; [exact Hs |]. split; [exact He |].
  split; [exact Hle |]. split; by_run Heq.
Defined.

(** C6, counterexample: the two ends of the degenerate range are two
    readings of the clock; on an empty table, a clock that passes midnight
    between them gives a statement that starts on one day and ends on the
    next. *)
Lemma statement_range_over_midnight :
  ∃ lines,
    run (render_lines0 (Ref.frame 0 [("date", []); ("amt", [])]) meta0 "date"
           "amt" None None false "") clock_midnight = Ok lines ∧
    header_field "<DTSTART>" lines = ["20240131"] ∧
    header_field "<DTEND>" lines = ["20240201"].
Proof. eexists. by vm_compute. Qed.

(** C7, counterexample: an amount that reads as infinity survives the
    filter and prints as [inf], with no fractional digit at all; a minus zero
    in a float column prints as [-0.00]. *)
Lemma trnamt_inf :
  ∃ lines,
    run (render_lines0 df_amounts meta0 "date" "amt" None None false "")
        (clock_from noon) = Ok lines ∧
    field "<TRNAMT>" lines = ["inf"; "12.50"; "-0.00"] ∧
    field "<TRNTYPE>" lines = ["CREDIT"; "CREDIT"; "CREDIT"] ∧
    Text.two_decimals "inf" = false.
Proof. eexists. by vm_compute. Qed.

(** C7 on a column of integer texts: 7 and minus zero print as [7.00] and
    [0.00]. *)
Lemma trnamt_two_decimals_witness :
  sorts Ref.argsort_stable ∧
  mapping_ok df_int_zero "date" "amt" None None ∧
  ∃ lines clk' order blocks,
    render_lines0 df_int_zero meta0 "date" "amt" None None false ""
      (clock_from noon) = Ok (lines, clk') ∧
    document meta0 blocks lines ∧
    Forall2 (λ (k : nat) b, ∃ a,
               field "<TRNAMT>" b = [Float.format_2f a] ∧
               (Float.isfinite a = true →
                Text.two_decimals (Float.format_2f a) = true))
      order blocks ∧
    field "<TRNAMT>" lines = ["7.00"; "0.00"] ∧
    field "<TRNTYPE>" lines = ["CREDIT"; "CREDIT"].
Proof.
  assert (mapping_ok df_int_zero "date" "amt" None None) as Hmap
    by mapping_ok_tac.
  split; [apply RefFacts.argsort_stable_sorts |]. split; [exact Hmap |].
  destruct (trnamt_two_decimals Ref.to_datetime Ref.to_numeric
              Ref.argsort_stable Ref.float_repr RefFacts.argsort_stable_sorts
              df_int_zero meta0 "date" "amt" None None false "" Hmap _ _ eq_refl eq_refl
              (clock_from noon))
    as (lines & clk' & order & blocks & Heq & Hdoc & _ & Hrows & _).
  exists lines, clk', order, blocks.
  split; [exact Heq |]. split; [exact Hdoc |]. split.
  - eapply Forall2_impl; [exact Hrows |].
    intros k b (a & _ & Hamt & _ & Hfin). exists a. split; assumption.
  - split; by_run Heq.
Defined.

(** C8 on a table with a memo column and no name column. *)
Lemma name_defaults_to_memo_witness :
  sorts Ref.argsort_stable ∧
  mapping_ok df_missing_text "date" "amt" None (Some "memo") ∧
  ∃ lines clk' order blocks,
    render_lines0 df_missing_text meta0 "date" "amt" None (Some "memo") false ""
      (clock_from noon) = Ok (lines, clk') ∧
    Forall2 (λ (k : nat) b, ∃ memo,
               field "<MEMO>" b = [memo] ∧
               (memo ≠ "" → field "<NAME>" b = [memo]) ∧
               (memo = "" → field "<NAME>" b = ["Transaction"]))
      order blocks ∧
    field "<MEMO>" lines = ["nan"; "rent"] ∧
    field "<NAME>" lines = ["nan"; "rent"].
Proof.
  assert (mapping_ok df_missing_text "date" "amt" None (Some "memo")) as Hmap
    by mapping_ok_tac.
  split; [apply RefFacts.argsort_stable_sorts |]. split; [exact Hmap |].
  destruct (name_defaults_to_memo Ref.to_datetime Ref.to_numeric
              Ref.argsort_stable Ref.float_repr RefFacts.argsort_stable_sorts
              df_missing_text meta0 "date" "amt" None (Some "memo") false ""
              Hmap _ _ eq_refl eq_refl (clock_from noon))
    as (lines & clk' & order & blocks & Heq & _ & _ & Hrows).
  exists lines, clk', order, blocks. split; [exact Heq |]. split.
  - eapply Forall2_impl; [exact Hrows |].
    intros k b (memo & name & _ & _ & Hm & Hdef & Hnm & Htr & _).
    exists memo. split; [exact Hm |]. split; [exact (Hnm eq_refl) |].
    intros E. apply Htr; [| exact E]. rewrite (Hdef eq_refl). exact E.
  - split; by_run Heq.
Defined.

(** With neither a name nor a memo column, every [NAME] is the fallback. *)
Lemma name_falls_back_to_transaction :
  ∃ lines,
    run (render_lines0 df_two meta0 "date" "amt" None None false "")
        (clock_from noon) = Ok lines ∧
    field "<NAME>" lines = ["Transaction"; "Transaction"] ∧
    field "<MEMO>" lines = [""; ""].
Proof. eexists. by vm_compute. Qed.

(** C10 on a table with a missing memo in one row and a missing payee in
    the other. *)
Lemma missing_cell_renders_nan_witness :
  sorts Ref.argsort_stable ∧
  mapping_ok df_missing_text "date" "amt" (Some "payee") (Some "memo") ∧
  ∃ lines clk',
    render_lines0 df_missing_text meta0 "date" "amt" (Some "payee")
      (Some "memo") false "" (clock_from noon) = Ok (lines, clk') ∧
    field "<MEMO>" lines = ["nan"; "rent"] ∧
    field "<NAME>" lines = ["ACME"; "nan"] ∧
    field "<FITID>" lines = ["20240105-1.00-0-nan"; "20240106-2.00-1-rent"].
Proof.
  assert (mapping_ok df_missing_text "date" "amt" (Some "payee") (Some "memo"))
    as Hmap by mapping_ok_tac.
  split; [apply RefFacts.argsort_stable_sorts |]. split; [exact Hmap |].
  destruct (missing_cell_renders_nan Ref.to_datetime Ref.to_numeric
              Ref.argsort_stable Ref.float_repr RefFacts.argsort_stable_sorts
              df_missing_text meta0 "date" "amt" (Some "payee") (Some "memo")
              false "" Hmap _ _ eq_refl eq_refl (clock_from noon))
    as (lines & clk' & order & blocks & Heq & _).
  exists lines, clk'. split; [exact Heq |].
  repeat split; by_run Heq.
Defined.

(** * Further properties of the converter *)

(** ** Floats: negation *)
Module NegFacts.








End NegFacts.

(** ** Text: stripping, tokens of the identifier, file names *)
Module StripFacts.
Import Text TextFacts.

Lemma string_rev_app_acc s1 s2 : String.rev_app s1 s2 = String.rev s1 +:+ s2.
Proof.
  unfold String.rev. revert s2.
  induction s1 as [|c s1 IH]; intros s2; simpl; [done |].
  rewrite (IH (String c "")), IH, app_assoc. done.
Qed.

Lemma string_rev_cons c s : String.rev (String c s) = String.rev s +:+ String c "".
Proof. unfold String.rev at 1. simpl. apply string_rev_app_acc. Qed.

Lemma string_rev_app a b : String.rev (a +:+ b) = String.rev b +:+ String.rev a.
Proof.
  induction a as [|c a IH]; simpl.
  - by rewrite app_nil_r.
  - by rewrite !string_rev_cons, IH, app_assoc.
Qed.

Lemma string_rev_involutive s : String.rev (String.rev s) = s.
Proof.
  induction s as [|c s IH]; [done |].
  rewrite string_rev_cons, string_rev_app, IH. done.
Qed.

Lemma forallb_string_rev p s :
  forallb_string p (String.rev s) = forallb_string p s.
Proof.
  induction s as [|c s IH]; [done |].
  rewrite string_rev_cons, forallb_string_app, IH. simpl.
  by rewrite andb_true_r, andb_comm.
Qed.

Lemma lstrip_blank s : blank s = true → lstrip s = "".
Proof.
  unfold blank. induction s as [|c s IH]; simpl; [done |].
  intros [Hc Hs]%andb_true_iff. rewrite Hc. auto.
Qed.

Lemma lstrip_not_blank s : blank s = false → lstrip s ≠ "".
Proof.
  unfold blank. induction s as [|c s IH]; simpl; [done |].
  destruct (isspace c); simpl; [auto | done].
Qed.

(** [lstrip] cuts a blank prefix, and what is left does not start with a
    whitespace character. *)
Lemma lstrip_split s : ∃ p, s = p +:+ lstrip s ∧ blank p = true.
Proof.
  induction s as [|c s (p & IH & Hp)]; simpl.
  - by exists "".
  - destruct (isspace c) eqn:Hc.
    + exists (String c p). simpl. rewrite <- IH. split; [done |].
      unfold blank. simpl. by rewrite Hc.
    + by exists "".
Qed.

Lemma lstrip_head s c t : lstrip s = String c t → isspace c = false.
Proof.
  induction s as [|c' s IH]; simpl; [done |].
  destruct (isspace c') eqn:Hc; [auto |]. by intros [= <- <-].
Qed.

Lemma lstrip_fixed c t : isspace c = false → lstrip (String c t) = String c t.
Proof. intros H. simpl. by rewrite H. Qed.

Lemma lstrip_idemp s : lstrip (lstrip s) = lstrip s.
Proof.
  destruct (lstrip s) as [|c t] eqn:E; [done |].
  apply lstrip_fixed. by apply (lstrip_head s c t).
Qed.

Lemma string_rev_nil_inv s : String.rev s = "" → s = "".
Proof. intros H. apply (f_equal String.rev) in H. by rewrite string_rev_involutive in H. Qed.

(** A text of whitespace only strips to the empty text, and no other does. *)
Lemma strip_blank s : blank s = true → strip s = "".
Proof. intros H. unfold strip. by rewrite (lstrip_blank s H). Qed.

Lemma blank_app a b : blank (a +:+ b) = blank a && blank b.
Proof. apply forallb_string_app. Qed.

Lemma strip_not_blank s : blank s = false → strip s ≠ "".
Proof.
  intros H. unfold strip, rstrip. intros E%string_rev_nil_inv.
  destruct (lstrip_split s) as (p & Hs & Hp).
  assert (blank (lstrip s) = false) as Hl.
  { rewrite Hs, blank_app, Hp in H. done. }
  apply (lstrip_not_blank (String.rev (lstrip s))); [| done].
  unfold blank. by rewrite forallb_string_rev.
Qed.

Lemma truthy_strip s : truthy (strip s) = negb (blank s).
Proof.
  destruct (blank s) eqn:H.
  - by rewrite strip_blank.
  - pose proof (strip_not_blank s H). by destruct (strip s).
Qed.

(** Stripping leaves nothing to strip. *)
Lemma strip_trimmed s : trimmed (strip s).
Proof.
  unfold trimmed, strip at 2 3, rstrip.
  set (t := lstrip s). set (u := lstrip (String.rev t)).
  assert (lstrip (String.rev u) = String.rev u) as Hl.
  { destruct (lstrip_split (String.rev t)) as (p & Ht & _). fold u in Ht.
    apply (f_equal String.rev) in Ht.
    rewrite string_rev_involutive, string_rev_app in Ht.
    destruct (String.rev u) as [|c r] eqn:Er; [done |].
    apply lstrip_fixed. apply (lstrip_head s c (r +:+ String.rev p)).
    fold t. by rewrite Ht. }
  unfold strip, rstrip. rewrite Hl, string_rev_involutive.
  unfold u. by rewrite lstrip_idemp.
Qed.

End StripFacts.

Module TokenFacts.
Import Text TextFacts.

Lemma isdigit_dashless s : forallb_string isdigit s = true → dashless s = true.
Proof.
  apply forallb_string_impl. intros c Hc.
  destruct (Ascii.eqb_spec c "-"); [by subst |done].
Qed.

Lemma dashless_app a b : dashless (a +:+ b) = dashless a && dashless b.
Proof. apply forallb_string_app. Qed.

(** A text is cut in one way only into a part without dash and a rest that
    is empty or starts with a dash. *)
Lemma token_split x1 x2 r1 r2 :
  dashless x1 = true → dashless x2 = true → dash_led r1 → dash_led r2 →
  x1 +:+ r1 = x2 +:+ r2 → x1 = x2 ∧ r1 = r2.
Proof.
  revert x2. induction x1 as [|c x1 IH]; intros [|c2 x2]; simpl.
  - done.
  - intros _ [Hc _]%andb_true_iff Hr1 _ ->. simpl in Hr1. by subst.
  - intros [Hc _]%andb_true_iff _ _ Hr2 <-. simpl in Hr2. by subst.
  - intros [_ H1]%andb_true_iff [_ H2]%andb_true_iff Hr1 Hr2 [= <- E].
    destruct (IH x2 H1 H2 Hr1 Hr2 E) as [-> ->]. done.
Qed.

Lemma signed_token_split a1 a2 r1 r2 :
  signed_token a1 → signed_token a2 → dash_led r1 → dash_led r2 →
  a1 +:+ r1 = a2 +:+ r2 → a1 = a2 ∧ r1 = r2.
Proof.
  intros (s1 & b1 & -> & Hb1 & Hn1) (s2 & b2 & -> & Hb2 & Hn2) Hr1 Hr2.
  destruct s1, s2; simpl.
  - intros [= E]. by destruct (token_split b1 b2 r1 r2) as [-> ->].
  - destruct b2 as [|c b2]; [done |]. simpl in Hb2. simpl. intros [= <- _]. done.
  - destruct b1 as [|c b1]; [done |]. simpl in Hb1. simpl. intros [= -> _]. done.
  - intros E. by destruct (token_split b1 b2 r1 r2) as [-> ->].
Qed.

Lemma string_of_uint_nonempty u : NilZero.string_of_uint u ≠ "".
Proof. by destruct u. Qed.

Lemma str_int_signed_token z : signed_token (str_int z).
Proof.
  unfold str_int. destruct (Z.to_int z) as [u|u]; simpl.
  - exists false, (NilZero.string_of_uint u). split; [done |].
    split; [| apply string_of_uint_nonempty].
    apply isdigit_dashless, nilzero_string_of_uint_isdigit.
  - exists true, (NilZero.string_of_uint u). split; [done |].
    split; [| apply string_of_uint_nonempty].
    apply isdigit_dashless, nilzero_string_of_uint_isdigit.
Qed.

Lemma to_int_nonnil z :
  Z.to_int z ≠ Decimal.Pos Decimal.Nil ∧ Z.to_int z ≠ Decimal.Neg Decimal.Nil.
Proof.
  destruct z as [|p|p]; simpl; split; try done; intros [= E];
    by apply (DecimalPos.Unsigned.to_uint_nonnil p).
Qed.

(** [str] prints two different integers differently. *)
Lemma str_int_inj z1 z2 : str_int z1 = str_int z2 → z1 = z2.
Proof.
  unfold str_int. intros E.
  apply (f_equal NilZero.int_of_string) in E.
  destruct (to_int_nonnil z1), (to_int_nonnil z2).
  rewrite !NilZero.isi in E by done. injection E as E.
  apply (f_equal Z.of_int) in E. by rewrite !DecimalZ.of_to in E.
Qed.

Lemma format_2f_signed_token x : signed_token (Float.format_2f x).
Proof.
  destruct x as [s|s| |s m e]; simpl.
  - by exists s, "0.00".
  - by exists s, "inf".
  - by exists false, "nan".
  - eexists s, _. split; [done |]. split.
    + rewrite dashless_app, isdigit_dashless by apply digits_isdigit.
      change (dashless (digits 2 (Float.round_half_even (Z.pos m * 100) e mod 100))
              = true).
      apply isdigit_dashless, digits_isdigit.
    + intros E. apply (f_equal String.length) in E.
      rewrite !length_app in E.
      pose proof (digits_nonempty 1 (Float.round_half_even (Z.pos m * 100) e / 100)
                    ltac:(lia)) as Hd.
      destruct (digits 1 _); [done | simpl in E; lia].
Qed.

Lemma strftime_Ymd_dashless t : dashless (strftime_Ymd t) = true.
Proof. apply isdigit_dashless, FormatFacts.strftime_Ymd_isdigit. Qed.

(** The identifier is read back in one way only. *)
Lemma generate_fitid_parts i1 w1 a1 m1 i2 w2 a2 m2 :
  generate_fitid i1 w1 a1 m1 = generate_fitid i2 w2 a2 m2 →
  strftime_Ymd w1 = strftime_Ymd w2 ∧
  Float.format_2f a1 = Float.format_2f a2 ∧ i1 = i2.
Proof.
  rewrite !FormatFacts.generate_fitid_segments. intros E.
  apply token_split in E as [Hd E];
    [| apply strftime_Ymd_dashless | apply strftime_Ymd_dashless | done | done].
  injection E as E.
  apply signed_token_split in E as [Ha E];
    [| apply format_2f_signed_token | apply format_2f_signed_token | done | done].
  injection E as E.
  apply signed_token_split in E as [Hi _];
    [| apply str_int_signed_token | apply str_int_signed_token
     | by destruct (truthy m1) | by destruct (truthy m2)].
  by apply str_int_inj in Hi.
Qed.

End TokenFacts.

Module SegmentFacts.
Import Text TextFacts.

Lemma length_remove_spaces s :
  (String.length (remove_spaces s) <= String.length s)%nat.
Proof.
  induction s as [|c s IH]; simpl; [done |].
  destruct (Ascii.eqb c " "); simpl; lia.
Qed.

Lemma length_slice_to n s : (String.length (slice_to n s) <= n)%nat.
Proof.
  unfold slice_to. revert s. induction n as [|n IH]; intros [|c s]; simpl;
    try lia. specialize (IH s). lia.
Qed.

End SegmentFacts.

Module NameFacts.
Import Text TextFacts.

Lemma lower_app a b : lower (a +:+ b) = lower a +:+ lower b.
Proof. induction a as [|c a IH]; simpl; [done | by rewrite IH]. Qed.

Lemma length_lower s : String.length (lower s) = String.length s.
Proof. induction s as [|c s IH]; simpl; [done | by rewrite IH]. Qed.

Lemma substring_all s : substring 0 (String.length s) s = s.
Proof. induction s as [|c s IH]; simpl; [done | by rewrite IH]. Qed.

Lemma substring_app_r a b :
  substring (String.length a) (String.length b) (a +:+ b) = b.
Proof. induction a as [|c a IH]; simpl; [apply substring_all | done]. Qed.

(** Whether a name ends with a suffix is decided by its last characters, as
    many as the suffix has. *)
Lemma endswith_app a b suffix :
  String.length b = String.length suffix →
  endswith (a +:+ b) suffix = String.eqb b suffix.
Proof.
  intros Hl. unfold endswith. rewrite length_app, <- Hl.
  rewrite (proj2 (Nat.leb_le _ _)) by lia.
  replace (String.length a + String.length b - String.length b)%nat
    with (String.length a) by lia.
  by rewrite substring_app_r.
Qed.

Lemma before_last_dotless s : dotless s = true → before_last "." s = None.
Proof.
  unfold dotless. induction s as [|c s IH]; simpl; [done |].
  intros [Hc Hs]%andb_true_iff. rewrite (IH Hs).
  by destruct (Ascii.eqb c ".").
Qed.

Lemma before_last_app root ext :
  dotless ext = true → before_last "." (root +:+ String "." ext) = Some root.
Proof.
  intros H. induction root as [|c root IH]; simpl.
  - by rewrite (before_last_dotless ext H).
  - by rewrite IH.
Qed.

(** The root of a file name: the name without its last extension, and the
    whole name when it has no dot. *)
Lemma rsplit1_head_ext root ext :
  dotless ext = true → rsplit1_head "." (root +:+ "." +:+ ext) = root.
Proof.
  intros H. unfold rsplit1_head.
  change ("." +:+ ext) with (String "." ext). by rewrite before_last_app.
Qed.

Lemma rsplit1_head_dotless s : dotless s = true → rsplit1_head "." s = s.
Proof. intros H. unfold rsplit1_head. by rewrite before_last_dotless. Qed.

End NameFacts.

(** ** [parse_date], [normalize_amount] and [generate_fitid] *)
Section Functions.

Variable to_datetime :
  option string → list cell → result (list (option datetime)).
Variable to_numeric : list cell → list num.

(** X4: a date format of whitespace only counts as no format; any other
    format is handed to [to_datetime] as typed, with its surrounding
    whitespace. *)
Theorem parse_date_blank_format series date_format :
  parse_date to_datetime series date_format
  = to_datetime (if blank date_format then None else Some date_format) series.
Proof.
  unfold parse_date. rewrite StripFacts.truthy_strip.
  by destruct (blank date_format).
Qed.

Lemma no_uint64_lookup values i v :
  no_uint64 values → values !! i = Some v → out_of_int64 v = false.
Proof.
  unfold no_uint64. revert i.
  induction values as [|x values IH]; intros [|i]; cbn; try done.
  - intros [H _]%orb_false_iff [= <-]. done.
  - intros [_ H]%orb_false_iff. by apply IH.
Qed.

Lemma normalize_amount_invert values series :
  to_numeric series = values → no_uint64 values →
  normalize_amount to_numeric series true = Ok (num_neg <$> values).
Proof.
  intros <- H. unfold normalize_amount, times_minus_one.
  unfold no_uint64 in H. by rewrite H.
Qed.

(** X2: on an int64 column the inversion returns, and it negates every
    amount but the least 64-bit integer, which it leaves as it is. *)
Theorem normalize_amount_invert_int series i z :
  no_uint64 (to_numeric series) →
  to_numeric series !! i = Some (NInt z) →
  ∃ values,
    normalize_amount to_numeric series true = Ok values ∧
    values !! i = Some (NInt (if z =? - 2 ^ 63 then z else - z)).
Proof.
  intros Hcol Hi. exists (num_neg <$> to_numeric series).
  split; [by apply normalize_amount_invert |].
  pose proof (no_uint64_lookup _ _ _ Hcol Hi) as Hz. cbn in Hz.
  apply negb_false_iff, andb_true_iff in Hz as [Hlo Hhi].
  rewrite list_lookup_fmap, Hi. simpl. do 2 f_equal. unfold wrap64.
  destruct (Z.eqb_spec z (- 2 ^ 63)) as [-> | Hne]; [done |].
  rewrite Z.mod_small by lia. lia.
Qed.


End Functions.

(** X6: the memo adds at most 21 characters to the identifier; a memo of
    whitespace only adds the dash and nothing after it. *)
Theorem generate_fitid_memo_segment idx when amount memo :
  (String.length (generate_fitid idx when amount memo)
   <= String.length (generate_fitid idx when amount "") + 21)%nat ∧
  (memo ≠ "" → blank memo = true →
   generate_fitid idx when amount memo
   = generate_fitid idx when amount "" +:+ "-").
Proof.
  rewrite !FormatFacts.generate_fitid_segments.
  cbn [Text.truthy]. rewrite !TextFacts.app_nil_r.
  set (base := strftime_Ymd when +:+ "-" +:+ Float.format_2f amount +:+ "-"
               +:+ Text.str_int idx).
  replace (strftime_Ymd when +:+ "-" +:+ Float.format_2f amount +:+ "-"
           +:+ Text.str_int idx +:+ (if Text.truthy memo
              then "-" +:+ Text.remove_spaces (Text.slice_to 20 (Text.strip memo))
              else ""))
    with (base +:+ (if Text.truthy memo
              then "-" +:+ Text.remove_spaces (Text.slice_to 20 (Text.strip memo))
              else ""))
    by (unfold base; by rewrite !TextFacts.app_assoc).
  split.
  - rewrite TextFacts.length_app.
    destruct (Text.truthy memo); simpl; [| lia].
    pose proof (SegmentFacts.length_remove_spaces
                  (Text.slice_to 20 (Text.strip memo))).
    pose proof (SegmentFacts.length_slice_to 20 (Text.strip memo)). lia.
  - intros Hne Hb. rewrite (StripFacts.strip_blank memo Hb).
    by destruct memo.
Qed.

(** X5: the identifier determines the index label, the date as printed and
    the amount as printed: two identifiers are equal only if these are. *)
Theorem generate_fitid_injective i1 w1 a1 m1 i2 w2 a2 m2 :
  generate_fitid i1 w1 a1 m1 = generate_fitid i2 w2 a2 m2 →
  i1 = i2 ∧ strftime_Ymd w1 = strftime_Ymd w2 ∧
  Float.format_2f a1 = Float.format_2f a2.
Proof.
  intros (Hd & Ha & Hi)%TokenFacts.generate_fitid_parts. done.
Qed.

(** ** The layout of the document *)
Module RangeFacts.
Import OrderFacts.

Lemma foldl_min_sorted t ts : Forall (dt_le t) ts → foldl dt_min t ts = t.
Proof.
  induction 1 as [|x ts Hx _ IH]; [done |].
  simpl. unfold dt_min at 2. unfold dt_le in Hx. by rewrite Hx.
Qed.

Lemma List_last_cons {A} (x : A) l d : List.last (x :: l) d = List.last l x.
Proof.
  revert x d. induction l as [|y l IH]; intros x d; [done |].
  change (List.last (y :: l) d = List.last (y :: l) x). by rewrite !IH.
Qed.

Lemma foldl_max_sorted t ts : Sorted dt_le (t :: ts) → foldl dt_max t ts = List.last ts t.
Proof.
  revert t. induction ts as [|x ts IH]; intros t Hs; [done |].
  apply Sorted_inv in Hs as [Hs Hh]. apply HdRel_inv in Hh.
  cbn [foldl]. unfold dt_max at 2. unfold dt_le in Hh. rewrite Hh.
  by rewrite (IH x Hs), List_last_cons.
Qed.

Lemma List_last_fmap {A B} (f : A → B) l d : List.last (f <$> l) (f d) = f (List.last l d).
Proof. induction l as [|x [|y l] IH]; try done. Qed.

End RangeFacts.

Section LedgerBlocks.

Variable meta : OfxMeta.

Lemma asof_document dtserver start_date end_date blocks :
  Forall (λ b, ∃ ty p a f n m, b = block_lines ty p a f n m) blocks →
  let lines := (head_lines meta dtserver start_date end_date ++ concat blocks
                ++ tail_lines end_date)%list in
  header_field "<DTASOF>" lines = [strftime_Ymd end_date] ∧
  length lines = (51 + 8 * length blocks)%nat.
Proof.
  intros Hblocks lines. unfold lines.
  rewrite !header_field_app, !header_field_concat, !length_app.
  assert (concat (header_field "<DTASOF>" <$> blocks) = []
          ∧ length (concat blocks) = (8 * length blocks)%nat) as (-> & ->).
  { induction Hblocks as [|b bs (ty & p & a & f & n & m & ->) _ (IH1 & IH2)];
      [done |].
    csimpl. rewrite IH1. split; [done |]. rewrite IH2. lia. }
  split; [done |]. simpl. lia.
Qed.

End LedgerBlocks.

Section Ledger.

Variable to_datetime :
  option string → list cell → result (list (option datetime)).
Variable to_numeric : list cell → list num.
Variable argsort : list (option datetime) → list nat.
Variable float_repr : float → string.
Hypothesis argsort_sorts : sorts argsort.

Variable df : DataFrame.
Variable meta : OfxMeta.
Variables date_col amount_col : string.
Variables name_col memo_col : option string.
Variable invert_amount : bool.
Variable date_format : string.
Hypothesis mapping : mapping_ok df date_col amount_col name_col memo_col.

Import FrameFacts OrderFacts RangeFacts.

(** The two library calls return: the parsed columns. *)
Variable dates : list (option datetime).
Variable amounts : list num.
Hypothesis dates_parsed :
  parse_date to_datetime (series df date_col) date_format = Ok dates.
Hypothesis amounts_parsed :
  normalize_amount to_numeric (series df amount_col) invert_amount = Ok amounts.
Let keep := survivors (nrows df) dates amounts.
Let df2 := with_scratch df dates amounts.

(** The document with its blocks, the rows they come from and their dates,
    and what its header says about them. *)
Lemma render_lines_view clk :
  ∃ order blocks lines clk' times,
    order ≡ₚ keep ∧
    Forall2 (λ k b, stmttrn float_repr name_col memo_col (item_at df2 k) = Ok b)
      order blocks ∧
    render_lines to_datetime to_numeric argsort float_repr df meta date_col
      amount_col name_col memo_col invert_amount date_format clk
    = Ok (lines, clk') ∧
    document meta blocks lines ∧
    times = omap (when_at dates) order ∧
    Sorted dt_le times ∧
    field "<DTPOSTED>" lines = strftime_Ymd <$> times ∧
    header_field "<DTASOF>" lines = header_field "<DTEND>" lines ∧
    length lines = (51 + 8 * length keep)%nat ∧
    match times with
    | [] =>
        header_field "<DTSTART>" lines = [strftime_Ymd (nth_reading clk 0)] ∧
        header_field "<DTEND>" lines = [strftime_Ymd (nth_reading clk 1)]
    | t :: ts =>
        header_field "<DTSTART>" lines = [strftime_Ymd t] ∧
        header_field "<DTEND>" lines = [strftime_Ymd (List.last ts t)]
    end.
Proof.
  destruct (render_lines_ok to_datetime to_numeric argsort float_repr
              argsort_sorts df meta date_col amount_col name_col memo_col
              invert_amount date_format mapping dates amounts dates_parsed
              amounts_parsed clk)
    as (order & blocks & Hperm & Hsorted & Hrows & Heq).
  fold keep in Hperm. fold df2 in Hrows.
  assert (Forall is_block blocks) as Hshape.
  { eapply Forall2_Forall_r;
      [apply (rows_blocks float_repr df name_col memo_col dates amounts
              (λ _ b, is_block b) _ _ Hperm Hrows) | by apply Forall_true].
    intros k b Hk Hb.
    apply (stmttrn_survivor float_repr df name_col memo_col dates amounts k b Hk) in Hb
      as (t & v & memo & name & _ & _ & _ & _ & _ & ->).
    by eexists _, _, _, _, _, _. }
  assert (length blocks = length keep) as Hlen.
  { by rewrite <- (Forall2_length _ _ _ Hrows), Hperm. }
  assert (Sorted dt_le (omap (when_at dates) order)) as Hs.
  { apply Sorted_Some. rewrite <- fmap_Some_omap; [done |].
    apply Forall_forall. intros k Hk. rewrite Hperm in Hk.
    destruct (survivor_date df dates amounts k Hk) as (t & Ht & _). rewrite Ht. by eexists. }
  pose proof (posted_dates float_repr df name_col memo_col dates amounts order
                blocks Hperm Hrows) as Hposted.
  exists order, blocks.
  destruct (omap (when_at dates) order) as [|t ts] eqn:Eo.
  - eexists _, _, []. split; [done |]. split; [done |].
    split; [exact Heq |]. split; [by eexists _, _, _ |]. split; [done |].
    split; [done |].
    destruct (header_document meta (nth_reading clk 2) (nth_reading clk 0)
                (nth_reading clk 1) blocks Hshape) as (Hst & Hen & _).
    destruct (asof_document meta (nth_reading clk 2) (nth_reading clk 0)
                (nth_reading clk 1) blocks Hshape) as (Has & Hn).
    split.
    { rewrite (field_document meta blocks) by (by eexists _, _, _ || set_solver).
      by rewrite Hposted. }
    split; [by rewrite Has, Hen |]. split; [by rewrite Hn, Hlen |]. done.
  - eexists _, _, (t :: ts). split; [done |]. split; [done |].
    split; [exact Heq |]. split; [by eexists _, _, _ |]. split; [done |].
    split; [done |].
    destruct (header_document meta (nth_reading clk 0) (foldl dt_min t ts)
                (foldl dt_max t ts) blocks Hshape) as (Hst & Hen & _).
    destruct (asof_document meta (nth_reading clk 0) (foldl dt_min t ts)
                (foldl dt_max t ts) blocks Hshape) as (Has & Hn).
    split.
    { rewrite (field_document meta blocks) by (by eexists _, _, _ || set_solver).
      by rewrite Hposted. }
    split; [by rewrite Has, Hen |]. split; [by rewrite Hn, Hlen |].
    rewrite Hst, Hen. rewrite foldl_max_sorted by done.
    rewrite foldl_min_sorted; [done |].
    apply Sorted_StronglySorted in Hs; [| apply _].
    by apply StronglySorted_inv in Hs as [_ Hs].
Qed.

Lemma cell_text_trimmed row col d x :
  from_option id (Ok d) (cell_text float_repr row col) = Ok x →
  trimmed d → trimmed x.
Proof.
  unfold cell_text, row_get. destruct (mapped col) as [c|]; simpl.
  - destruct (row !! c) as [v|]; simpl; [| done].
    intros [= <-] _. apply StripFacts.strip_trimmed.
  - by intros [= <-].
Qed.


(** X11: the rendered document has the 42 lines of the header, eight lines
    for each row that parsed and the nine lines of the footer. *)
Theorem document_line_count clk :
  ∃ lines clk',
    render_lines to_datetime to_numeric argsort float_repr df meta date_col
      amount_col name_col memo_col invert_amount date_format clk
    = Ok (lines, clk') ∧
    length lines = (51 + 8 * length keep)%nat.
Proof.
  destruct (render_lines_view clk)
    as (order & blocks & lines & clk' & times & _ & _ & Heq & _ & _ & _ & _ & _
        & Hn & _).
  by exists lines, clk'.
Qed.

(** X12: the statement range is read off the blocks: [DTSTART] is the
    [DTPOSTED] of the first block and [DTEND] that of the last one, and the
    ledger balance is dated [DTEND]. *)
Theorem statement_range_first_last clk :
  ∃ lines clk',
    render_lines to_datetime to_numeric argsort float_repr df meta date_col
      amount_col name_col memo_col invert_amount date_format clk
    = Ok (lines, clk') ∧
    header_field "<DTASOF>" lines = header_field "<DTEND>" lines ∧
    ∀ p ps, field "<DTPOSTED>" lines = p :: ps →
            header_field "<DTSTART>" lines = [p] ∧
            header_field "<DTEND>" lines = [List.last ps p].
Proof.
  destruct (render_lines_view clk)
    as (order & blocks & lines & clk' & times & _ & _ & Heq & _ & _ & _ & Hposted
        & Hasof & _ & Hrange).
  exists lines, clk'. split; [done |]. split; [done |].
  intros p ps Hp. rewrite Hposted in Hp.
  destruct times as [|t ts]; [done |]. injection Hp as <- <-.
  destruct Hrange as [-> ->]. by rewrite List_last_fmap.
Qed.


(** X14: a [DEBIT] always shows a minus sign in its [TRNAMT], the
    transaction type is one of the two, and no [TRNAMT] reads [nan]. *)
Theorem debit_minus_sign clk :
  ∃ lines clk' blocks,
    render_lines to_datetime to_numeric argsort float_repr df meta date_col
      amount_col name_col memo_col invert_amount date_format clk
    = Ok (lines, clk') ∧
    document meta blocks lines ∧
    Forall (λ b, ∃ ty amt,
              field "<TRNTYPE>" b = [ty] ∧ field "<TRNAMT>" b = [amt] ∧
              (ty = "CREDIT" ∨ ty = "DEBIT") ∧ amt ≠ "nan" ∧
              (ty = "DEBIT" → ∃ rest, amt = String "-" rest))
      blocks.
Proof.
  destruct (render_lines_view clk)
    as (order & blocks & lines & clk' & times & Hperm & Hrows & Heq & Hdoc & _).
  exists lines, clk', blocks. split; [done |]. split; [done |].
  match goal with |- Forall ?P blocks => set (Q := P) end.
  eapply Forall2_Forall_r;
    [apply (rows_blocks float_repr df name_col memo_col dates amounts
              (λ _ b, Q b) _ _ Hperm Hrows) | by apply Forall_true].
  intros k b Hk Hb. unfold Q.
  apply (stmttrn_survivor float_repr df name_col memo_col dates amounts k b Hk) in Hb
    as (t & v & memo & name & _ & _ & Hna & _ & _ & ->).
  assert (Float.isnan (float_of_num v) = false) as Hnan.
  { destruct v as [z|f]; [apply FloatFacts.of_int_not_nan | exact Hna]. }
  eexists _, _. split; [reflexivity |]. split; [reflexivity |].
  split; [destruct (Float.ge0 _); auto |]. split.
  - destruct (float_of_num v) as [s|[]| |s m e] eqn:E; try done.
    + by destruct s.
    + intros Hn.
      pose proof (FormatFacts.format_2f_two_decimals (S754_finite s m e) eq_refl)
        as H2.
      by rewrite Hn in H2.
  - destruct (Float.ge0 (float_of_num v)) eqn:Hge; [done |]. intros _.
    by apply FloatFacts.format_2f_negative.
Qed.

(** X15: [MEMO] and [NAME] never start or end with a whitespace character. *)
Theorem memo_name_trimmed clk :
  ∃ lines clk',
    render_lines to_datetime to_numeric argsort float_repr df meta date_col
      amount_col name_col memo_col invert_amount date_format clk
    = Ok (lines, clk') ∧
    Forall trimmed (field "<MEMO>" lines) ∧
    Forall trimmed (field "<NAME>" lines).
Proof.
  destruct (render_lines_view clk)
    as (order & blocks & lines & clk' & times & Hperm & Hrows & Heq & Hdoc & _).
  exists lines, clk'. split; [done |].
  rewrite !(field_document meta blocks) by (done || set_solver).
  assert (Forall (λ b, Forall trimmed (field "<MEMO>" b)
                       ∧ Forall trimmed (field "<NAME>" b)) blocks) as H.
  { match goal with |- Forall ?P blocks => set (Q := P) end.
    eapply Forall2_Forall_r;
      [apply (rows_blocks float_repr df name_col memo_col dates amounts
              (λ _ b, Q b) _ _ Hperm Hrows) | by apply Forall_true].
    intros k b Hk Hb. unfold Q.
    apply (stmttrn_survivor float_repr df name_col memo_col dates amounts k b Hk) in Hb
      as (t & v & memo & name & _ & _ & _ & Hm & Hn & ->).
    assert (trimmed memo) as Hmemo by by apply (cell_text_trimmed _ _ _ _ Hm).
    assert (trimmed name) as Hname by by apply (cell_text_trimmed _ _ _ _ Hn).
    split; (apply Forall_singleton; [done || by destruct (Text.truthy name)]). }
  clear -H. split.
  - induction H as [|b bs [Hb _] _ IH]; csimpl; [done |]. by apply Forall_app.
  - induction H as [|b bs [_ Hb] _ IH]; csimpl; [done |]. by apply Forall_app.
Qed.

(** X16: with a name column mapped, the memo is no fallback: a name cell
    that is empty or blank gives [Transaction], whatever the memo. *)
Theorem blank_name_is_transaction clk :
  ∃ lines clk' order blocks,
    render_lines to_datetime to_numeric argsort float_repr df meta date_col
      amount_col name_col memo_col invert_amount date_format clk
    = Ok (lines, clk') ∧
    document meta blocks lines ∧
    order ≡ₚ keep ∧
    Forall2 (λ k b, ∀ c v,
               mapped name_col = Some c → row_at df2 k !! c = Some v →
               blank (str_cell float_repr v) = true →
               field "<NAME>" b = ["Transaction"])
      order blocks.
Proof.
  destruct (render_lines_view clk)
    as (order & blocks & lines & clk' & times & Hperm & Hrows & Heq & Hdoc & _).
  exists lines, clk', order, blocks.
  split; [done |]. split; [done |]. split; [done |].
  apply (rows_blocks float_repr df name_col memo_col dates amounts
              _ _ _ Hperm Hrows).
  intros k b Hk Hb.
  apply (stmttrn_survivor float_repr df name_col memo_col dates amounts k b Hk) in Hb
    as (t & v & memo & name & _ & _ & _ & _ & Hn & ->).
  intros c x Hc Hx Hblank. unfold cell_text, row_get in Hn. fold df2 in Hn. rewrite Hc in Hn.
  cbn [fmap option_fmap option_map from_option id] in Hn.
  rewrite Hx in Hn. cbn [mbind mret result_bind result_ret] in Hn.
  injection Hn as <-. by rewrite (StripFacts.strip_blank _ Hblank).
Qed.

End Ledger.

(** ** The sign box *)
Section Inversion.

Variable to_datetime :
  option string → list cell → result (list (option datetime)).
Variable to_numeric : list cell → list num.
Variable argsort : list (option datetime) → list nat.
Variable float_repr : float → string.
Hypothesis argsort_sorts : sorts argsort.

Variable df : DataFrame.
Variable meta : OfxMeta.
Variables date_col amount_col : string.
Variables name_col memo_col : option string.
Variable date_format : string.
Hypothesis mapping : mapping_ok df date_col amount_col name_col memo_col.

(** The date conversion returns, and the amount column is not a uint64
    column. *)
Variable dates : list (option datetime).
Hypothesis dates_parsed :
  parse_date to_datetime (series df date_col) date_format = Ok dates.
Hypothesis amounts_int64 : no_uint64 (to_numeric (series df amount_col)).

Import OrderFacts.

#[local] Instance dt_le_antisymmetric : AntiSymm (=) dt_le.
Proof. intros a b. apply dt_leb_antisym. Qed.

Lemma parsed_ok_invert times values i :
  parsed_ok times (num_neg <$> values) i = parsed_ok times values i.
Proof.
  unfold parsed_ok. rewrite list_lookup_fmap.
  destruct (times !! i) as [[t|]|]; try done;
    destruct (values !! i) as [[z|f]|]; simpl; try done.
  by rewrite FloatFacts.isnan_neg.
Qed.

Lemma survivors_invert n times values :
  survivors n times (num_neg <$> values) = survivors n times values.
Proof.
  unfold survivors. apply list_filter_iff. intros i.
  by rewrite parsed_ok_invert.
Qed.

(** X17: when the date conversion returns and the amount column holds no
    integer beyond int64, inverting the sign changes no row's fate: with the
    box ticked the conversion returns as it does without, and the document
    has the same number of lines, the same [DTPOSTED] dates in the same
    order and the same statement range. *)
Theorem invert_keeps_rows clk :
  ∃ lines clk1 lines' clk2,
    render_lines to_datetime to_numeric argsort float_repr df meta date_col
      amount_col name_col memo_col false date_format clk = Ok (lines, clk1) ∧
    render_lines to_datetime to_numeric argsort float_repr df meta date_col
      amount_col name_col memo_col true date_format clk = Ok (lines', clk2) ∧
    length lines' = length lines ∧
    field "<DTPOSTED>" lines' = field "<DTPOSTED>" lines ∧
    header_field "<DTSTART>" lines' = header_field "<DTSTART>" lines ∧
    header_field "<DTEND>" lines' = header_field "<DTEND>" lines.
Proof.
  pose proof (normalize_amount_invert to_numeric _ (series df amount_col)
                eq_refl amounts_int64) as Hinv.
  destruct (render_lines_view to_datetime to_numeric argsort float_repr
              argsort_sorts df meta date_col amount_col name_col memo_col
              false date_format mapping dates
              (to_numeric (series df amount_col)) dates_parsed eq_refl clk)
    as (order & blocks & lines & clk1 & times & Hperm & _ & Heq & _ & Ht & Hs
        & Hposted & _ & Hn & Hrange).
  destruct (render_lines_view to_datetime to_numeric argsort float_repr
              argsort_sorts df meta date_col amount_col name_col memo_col
              true date_format mapping dates
              (num_neg <$> to_numeric (series df amount_col)) dates_parsed
              Hinv clk)
    as (order' & blocks' & lines' & clk2 & times' & Hperm' & _ & Heq' & _ & Ht'
        & Hs' & Hposted' & _ & Hn' & Hrange').
  rewrite survivors_invert in Hperm', Hn'.
  assert (times' = times) as E.
  { apply (Sorted_unique dt_le); [done | done |].
    rewrite Ht, Ht'. by rewrite Hperm, Hperm'. }
  clear Ht Ht' Hs'. rewrite E in Hposted', Hrange'. clear E.
  exists lines, clk1, lines', clk2. split; [done |]. split; [done |].
  split; [by rewrite Hn, Hn' |]. split; [by rewrite Hposted, Hposted' |].
  destruct times as [|t ts].
  - destruct Hrange as [-> ->], Hrange' as [-> ->]. done.
  - destruct Hrange as [-> ->], Hrange' as [-> ->]. done.
Qed.

End Inversion.

(** ** Optional columns the table lacks *)
Section Loop.

Variable to_datetime :
  option string → list cell → result (list (option datetime)).
Variable to_numeric : list cell → list num.
Variable argsort : list (option datetime) → list nat.
Variable float_repr : float → string.
Hypothesis argsort_sorts : sorts argsort.

Import FrameFacts.

Section Rows.

Variable df : DataFrame.
Variable dates : list (option datetime).
Variable amounts : list num.

Lemma scratch_row k :
  k ∈ survivors (nrows df) dates amounts →
  ∃ t v, row_at (with_scratch df dates amounts) k !! "__date" = Some (CTime t)
         ∧ row_at (with_scratch df dates amounts) k !! "__amount"
           = Some (num_cell v).
Proof.
  intros [Hk _]%list_elem_of_filter.
  apply parsed_ok_inv in Hk as (t & v & Hd & Ha & _).
  exists t, v. rewrite !row_at_lookup, with_scratch_date, with_scratch_amount.
  simpl. unfold cell_at. by rewrite !list_lookup_fmap, Hd, Ha.
Qed.

Lemma scratch_row_present c k :
  is_Some (columns df !! c) →
  is_Some (row_at (with_scratch df dates amounts) k !! c).
Proof.
  intros Hc. rewrite row_at_lookup. apply fmap_is_Some.
  unfold with_scratch, setitem. cbn [columns].
  destruct (decide (c = "__amount")) as [-> | Ha].
  { by rewrite lookup_insert_eq. }
  rewrite lookup_insert_ne by done.
  destruct (decide (c = "__date")) as [-> | Hd].
  { by rewrite lookup_insert_eq. }
  by rewrite lookup_insert_ne.
Qed.

Lemma scratch_row_absent c k :
  columns df !! c = None → c ≠ "__date" → c ≠ "__amount" →
  row_at (with_scratch df dates amounts) k !! c = None.
Proof.
  intros Hc Hd Ha. by rewrite row_at_lookup, with_scratch_other, Hc.
Qed.

End Rows.

(** The loop stops at the first row when the memo column is mapped to a
    name the row does not have; the name column is looked up after it. *)
Lemma stmttrn_missing_memo name_col memo_col idx row c :
  mapped memo_col = Some c → row !! c = None →
  stmttrn float_repr name_col memo_col (idx, row) = Raise (KeyError c).
Proof. intros Hm Hr. unfold stmttrn, row_get. by rewrite Hm, Hr. Qed.

Lemma stmttrn_missing_name name_col memo_col idx row c :
  (∀ c', mapped memo_col = Some c' → is_Some (row !! c')) →
  mapped name_col = Some c → row !! c = None →
  stmttrn float_repr name_col memo_col (idx, row) = Raise (KeyError c).
Proof.
  intros Hm Hn Hr. unfold stmttrn, row_get. rewrite Hn, Hr.
  destruct (mapped memo_col) as [c'|]; [| done].
  by destruct (Hm c' eq_refl) as [v ->].
Qed.

Lemma mapM_result_raise {A B} (f : A → result B) x l e :
  f x = Raise e → mapM f (x :: l) = Raise e.
Proof. intros H. cbn [mapM]. by rewrite H. Qed.

(** The conversion, seen from its loop: with no row to iterate it returns a
    document; with rows, it returns one when the loop body succeeds on all
    of them, and raises what the loop body raises when it fails on all. *)
Lemma render_ofx_loop df meta date_col amount_col name_col memo_col inv fmt
    sd sa dates amounts clk :
  columns df !! date_col = Some sd →
  parse_date to_datetime sd fmt = Ok dates →
  columns (setitem df "__date" (time_cell <$> dates)) !! amount_col = Some sa →
  normalize_amount to_numeric sa inv = Ok amounts →
  let keep := survivors (nrows df) dates amounts in
  let body k := stmttrn float_repr name_col memo_col
                  (item_at (with_scratch df dates amounts) k) in
  ((∀ k, k ∈ keep → ∃ b, body k = Ok b) →
   ∃ text clk', render_ofx to_datetime to_numeric argsort float_repr df meta
                  date_col amount_col name_col memo_col inv fmt clk
                = Ok (text, clk')) ∧
  (∀ e, keep ≠ [] → (∀ k, k ∈ keep → body k = Raise e) →
        render_ofx to_datetime to_numeric argsort float_repr df meta
          date_col amount_col name_col memo_col inv fmt clk = Raise e).
Proof.
  intros Hd Hdates Ha Hamounts keep body.
  destruct (render_lines_eq to_datetime to_numeric argsort float_repr
              argsort_sorts df meta date_col amount_col name_col memo_col
              inv fmt sd sa dates amounts clk Hd Hdates Ha Hamounts)
    as (order & _ & Hperm & _ & Heq).
  fold keep in Hperm.
  split.
  - intros Hok.
    assert (Forall (λ it, ∃ b, stmttrn float_repr name_col memo_col it = Ok b)
              (item_at (with_scratch df dates amounts) <$> order)) as Hall.
    { apply Forall_fmap, Forall_forall. intros k Hk. rewrite Hperm in Hk.
      by apply Hok. }
    destruct (mapM_result_ok _ _ Hall) as [blocks Hblocks].
    rewrite Hblocks in Heq.
    destruct (omap (when_at dates) order); eexists _, _;
      apply render_ofx_lines; exact Heq.
  - intros e Hne Hraise.
    destruct order as [|k order].
    { apply Permutation_nil_l in Hperm. by rewrite <- Hperm in Hne. }
    cbn [fmap list_fmap] in Heq.
    rewrite (mapM_result_raise _ _ _ e) in Heq
      by (apply Hraise; rewrite <- Hperm; by left).
    unfold render_ofx, mbind, M_bind. by rewrite Heq.
Qed.

End Loop.

Section OptionalColumns.

Variable to_datetime :
  option string → list cell → result (list (option datetime)).
Variable to_numeric : list cell → list num.
Variable argsort : list (option datetime) → list nat.
Variable float_repr : float → string.
Hypothesis argsort_sorts : sorts argsort.

Variable df : DataFrame.
Variable meta : OfxMeta.
Variables date_col amount_col : string.
Variables name_col memo_col : option string.
Variable invert_amount : bool.
Variable date_format : string.
Hypothesis date_present : is_Some (columns df !! date_col).
Hypothesis amount_present : is_Some (columns df !! amount_col).
Hypothesis amount_not_scratch : amount_col ≠ "__date".

(** The two library calls return: the parsed columns. *)
Variable dates : list (option datetime).
Variable amounts : list num.
Hypothesis dates_parsed :
  parse_date to_datetime (series df date_col) date_format = Ok dates.
Hypothesis amounts_parsed :
  normalize_amount to_numeric (series df amount_col) invert_amount = Ok amounts.
Let keep := survivors (nrows df) dates amounts.

Lemma render_ofx_loop_series clk :
  let body k := stmttrn float_repr name_col memo_col
                  (item_at (with_scratch df dates amounts) k) in
  ((∀ k, k ∈ keep → ∃ b, body k = Ok b) →
   ∃ text clk', render_ofx to_datetime to_numeric argsort float_repr df meta
                  date_col amount_col name_col memo_col invert_amount
                  date_format clk = Ok (text, clk')) ∧
  (∀ e, keep ≠ [] → (∀ k, k ∈ keep → body k = Raise e) →
        render_ofx to_datetime to_numeric argsort float_repr df meta
          date_col amount_col name_col memo_col invert_amount date_format clk
        = Raise e).
Proof.
  destruct date_present as [sd Hd]. destruct amount_present as [sa Ha].
  assert (columns (setitem df "__date" (time_cell <$> dates))
            !! amount_col = Some sa) as Ha'.
  { unfold setitem. cbn [columns]. by rewrite lookup_insert_ne. }
  assert (parse_date to_datetime sd date_format = Ok dates) as Hdates.
  { rewrite <- dates_parsed. unfold series. by rewrite Hd. }
  assert (normalize_amount to_numeric sa invert_amount = Ok amounts)
    as Hamounts.
  { rewrite <- amounts_parsed. unfold series. by rewrite Ha. }
  exact (render_ofx_loop to_datetime to_numeric argsort float_repr
           argsort_sorts df meta date_col amount_col name_col memo_col
           invert_amount date_format sd sa dates amounts clk Hd Hdates Ha'
           Hamounts).
Qed.

(** X9: a memo column the table lacks, other than the two scratch names
    [__date] and [__amount], is noticed inside the loop only: when the two
    library calls return, the conversion raises [KeyError] as soon as one
    row parsed, and returns a document, without any block, when none did. *)
Theorem render_ofx_missing_memo_col c clk :
  mapped memo_col = Some c → columns df !! c = None →
  c ≠ "__date" → c ≠ "__amount" →
  (keep ≠ [] →
   render_ofx to_datetime to_numeric argsort float_repr df meta date_col
     amount_col name_col memo_col invert_amount date_format clk
   = Raise (KeyError c)) ∧
  (keep = [] →
   ∃ text clk',
     render_ofx to_datetime to_numeric argsort float_repr df meta date_col
       amount_col name_col memo_col invert_amount date_format clk
     = Ok (text, clk')).
Proof.
  intros Hm Hc Hd Ha. destruct (render_ofx_loop_series clk) as [Hok Hraise].
  split.
  - intros Hne. apply Hraise; [done |]. intros k _.
    apply stmttrn_missing_memo; [done |]. by apply scratch_row_absent.
  - intros He. apply Hok. intros k Hk. rewrite He in Hk. by inv Hk.
Qed.

(** X10: a name column the table lacks, other than the two scratch names
    [__date] and [__amount], is noticed inside the loop, after the memo
    column: when the two library calls return and the memo column is not
    mapped or exists, the conversion raises [KeyError] for the name column
    as soon as one row parsed, and returns a document without any block
    when none did. *)
Theorem render_ofx_missing_name_col c clk :
  (∀ c', mapped memo_col = Some c' → is_Some (columns df !! c')) →
  mapped name_col = Some c → columns df !! c = None →
  c ≠ "__date" → c ≠ "__amount" →
  (keep ≠ [] →
   render_ofx to_datetime to_numeric argsort float_repr df meta date_col
     amount_col name_col memo_col invert_amount date_format clk
   = Raise (KeyError c)) ∧
  (keep = [] →
   ∃ text clk',
     render_ofx to_datetime to_numeric argsort float_repr df meta date_col
       amount_col name_col memo_col invert_amount date_format clk
     = Ok (text, clk')).
Proof.
  intros Hmemo Hn Hc Hd Ha. destruct (render_ofx_loop_series clk) as [Hok Hraise].
  split.
  - intros Hne. apply Hraise; [done |]. intros k _.
    apply stmttrn_missing_name; [| done | by apply scratch_row_absent].
    intros c' Hc'. by apply scratch_row_present, Hmemo.
  - intros He. apply Hok. intros k Hk. rewrite He in Hk. by inv Hk.
Qed.

End OptionalColumns.

(** ** What the library calls raise *)
Section LibraryErrors.

Variable to_datetime :
  option string → list cell → result (list (option datetime)).
Variable to_numeric : list cell → list num.
Variable argsort : list (option datetime) → list nat.
Variable float_repr : float → string.

(** X20: nothing in the conversion catches what the two library calls
    raise.  With the date column in the table, what [to_datetime] raises
    ends the conversion; and when the dates were read and the amount column
    holds an integer beyond int64, the conversion with the sign inverted
    ends in [OverflowError]. *)
Theorem render_ofx_library_error df meta date_col amount_col name_col memo_col
    inv fmt sd clk :
  columns df !! date_col = Some sd →
  (∀ e, parse_date to_datetime sd fmt = Raise e →
        render_ofx to_datetime to_numeric argsort float_repr df meta date_col
          amount_col name_col memo_col inv fmt clk = Raise e) ∧
  (∀ dates sa,
     parse_date to_datetime sd fmt = Ok dates →
     columns (setitem df "__date" (time_cell <$> dates)) !! amount_col
     = Some sa →
     existsb out_of_int64 (to_numeric sa) = true →
     render_ofx to_datetime to_numeric argsort float_repr df meta date_col
       amount_col name_col memo_col true fmt clk = Raise OverflowError).
Proof.
  intros Hd. split.
  - intros e He.
    unfold render_ofx, render_lines, prepare, copy, getitem. rewrite Hd.
    cbn [mbind result_bind]. unfold mbind at 1 2, M_bind. unfold lift.
    by rewrite He.
  - intros dates sa Hdates Ha Hbig.
    unfold render_ofx, render_lines, prepare, copy, getitem. rewrite Hd.
    cbn [mbind result_bind]. unfold mbind at 1 2, M_bind. unfold lift.
    rewrite Hdates. cbn [mbind result_bind]. rewrite Ha.
    cbn [mbind result_bind]. unfold normalize_amount, times_minus_one.
    by rewrite Hbig.
Qed.

End LibraryErrors.

(** ** The page *)
Section PageFacts.

Variable to_datetime :
  option string → list cell → result (list (option datetime)).
Variable to_numeric : list cell → list num.
Variable argsort : list (option datetime) → list nat.
Variable float_repr : float → string.
Variable read_csv : UploadedFile → result DataFrame.
Variable read_excel : UploadedFile → result DataFrame.

(** X1: the reader is chosen by the last four characters of the file name,
    whatever their case: [.csv] goes to [read_csv], anything else to
    [read_excel]. *)
Theorem parse_dataframe_by_extension root ext bytes :
  String.length ext = 4%nat →
  parse_dataframe read_csv read_excel (mkUploadedFile (root +:+ ext) bytes)
  = (if String.eqb (Text.lower ext) ".csv" then read_csv else read_excel)
      (mkUploadedFile (root +:+ ext) bytes).
Proof.
  intros Hl. unfold parse_dataframe. cbn [upload_name].
  rewrite NameFacts.lower_app, NameFacts.endswith_app
    by by rewrite NameFacts.length_lower.
  by destruct (String.eqb _ _).
Qed.

Lemma main_inv file w clk d clk' :
  main to_datetime to_numeric argsort float_repr read_csv read_excel
    (Some file) w clk = Ok (Some d, clk') →
  ∃ df text,
    parse_dataframe read_csv read_excel file = Ok df ∧
    w_generate w = true ∧
    render_ofx to_datetime to_numeric argsort float_repr df (w_meta w)
      (w_date_col w) (w_amount_col w) (optional_column (w_name_col w))
      (optional_column (w_memo_col w)) (w_invert_amount w) (w_date_format w)
      clk = Ok (text, clk') ∧
    d = mkDownload text (Text.rsplit1_head "." (upload_name file) +:+ ".ofx")
          "application/x-ofx".
Proof.
  unfold main. rewrite lift_bind.
  destruct (parse_dataframe _ _ file) as [df|e]; [| done].
  destruct (w_generate w); [| by intros [=]].
  unfold mbind, M_bind.
  destruct (render_ofx _ _ _ _ _ _ _ _ _ _ _ _ clk) as [[text clk1]|e] eqn:E; [| by intros [=]].
  intros [= <- <-]. by exists df, text.
Qed.

(** X18: the download is named after the uploaded file: its last extension
    is replaced by [.ofx], and a name without a dot gets [.ofx] appended. *)
Theorem main_download_name file w clk d clk' :
  main to_datetime to_numeric argsort float_repr read_csv read_excel
    (Some file) w clk = Ok (Some d, clk') →
  download_mime d = "application/x-ofx" ∧
  (∀ root ext, upload_name file = root +:+ "." +:+ ext → dotless ext = true →
               download_file_name d = root +:+ ".ofx") ∧
  (dotless (upload_name file) = true →
   download_file_name d = upload_name file +:+ ".ofx").
Proof.
  intros (df & text & _ & _ & _ & ->)%main_inv. cbn [download_mime download_file_name].
  split; [done |]. split.
  - intros root ext -> Hext. by rewrite NameFacts.rsplit1_head_ext.
  - intros H. by rewrite NameFacts.rsplit1_head_dotless.
Qed.

Hypothesis argsort_sorts : sorts argsort.

Lemma elem_of_column_names df c :
  c ∈ column_names df ↔ is_Some (columns df !! c).
Proof.
  unfold column_names. rewrite list_elem_of_fmap. split.
  - intros ([c' s] & -> & H%elem_of_map_to_list). by exists s.
  - intros [s H]. exists (c, s). split; [done |]. by apply elem_of_map_to_list.
Qed.

Lemma optional_column_offered df choice c :
  choice ∈ optional_options df →
  mapped (optional_column choice) = Some c → is_Some (columns df !! c).
Proof.
  unfold optional_options, optional_column. intros Hin.
  destruct (String.eqb_spec choice "(none)") as [-> | Hne]; [done |].
  apply elem_of_cons in Hin as [-> | Hin]; [done |].
  apply elem_of_column_names in Hin. simpl.
  destruct (Text.truthy choice); [| done]. by intros [= <-].
Qed.

(** X19: with a file that reads as a table and the button pressed, every
    choice the four column boxes offer leads to a download as soon as the
    two library calls return on the chosen columns: the page never fails on
    a column lookup. *)
Theorem main_offers_download file w df dates amounts clk :
  parse_dataframe read_csv read_excel file = Ok df →
  w_generate w = true →
  w_date_col w ∈ required_options df →
  w_amount_col w ∈ required_options df →
  w_name_col w ∈ optional_options df →
  w_memo_col w ∈ optional_options df →
  parse_date to_datetime (series df (w_date_col w)) (w_date_format w)
  = Ok dates →
  normalize_amount to_numeric
    (series (setitem df "__date" (time_cell <$> dates)) (w_amount_col w))
    (w_invert_amount w) = Ok amounts →
  ∃ text clk',
    render_ofx to_datetime to_numeric argsort float_repr df (w_meta w)
      (w_date_col w) (w_amount_col w) (optional_column (w_name_col w))
      (optional_column (w_memo_col w)) (w_invert_amount w) (w_date_format w)
      clk = Ok (text, clk') ∧
    main to_datetime to_numeric argsort float_repr read_csv read_excel
      (Some file) w clk
    = Ok (Some (mkDownload text
                  (Text.rsplit1_head "." (upload_name file) +:+ ".ofx")
                  "application/x-ofx"), clk').
Proof.
  intros Hparse Hgen [sd Hd]%elem_of_column_names Ha%elem_of_column_names
    Hname Hmemo Hdates Hamounts.
  assert (∃ sa, columns (setitem df "__date" (time_cell <$> dates))
                  !! w_amount_col w = Some sa) as [sa Ha'].
  { unfold setitem. cbn [columns].
    destruct (decide (w_amount_col w = "__date")) as [-> | Hne].
    - rewrite lookup_insert_eq. by eexists.
    - rewrite lookup_insert_ne by done. exact Ha. }
  unfold series in Hdates, Hamounts. rewrite Hd in Hdates.
  rewrite Ha' in Hamounts. cbn [default from_option id] in Hdates, Hamounts.
  destruct (render_ofx_loop to_datetime to_numeric argsort float_repr
              argsort_sorts df (w_meta w) (w_date_col w) (w_amount_col w)
              (optional_column (w_name_col w)) (optional_column (w_memo_col w))
              (w_invert_amount w) (w_date_format w) sd sa dates amounts clk
              Hd Hdates Ha' Hamounts)
    as [Hok _].
  destruct Hok as (text & clk' & Heq).
  { intros k Hk.
    destruct (scratch_row df _ _ k Hk) as (t & v & Hrd & Hra).
    apply (stmttrn_ok _ _ _ _ _ t v Hrd Hra).
    - intros c Hc. apply scratch_row_present.
      by apply (optional_column_offered df (w_memo_col w)).
    - intros c Hc. apply scratch_row_present.
      by apply (optional_column_offered df (w_name_col w)). }
  exists text, clk'. split; [done |].
  unfold main. rewrite lift_bind, Hparse, Hgen.
  unfold mbind, M_bind. by rewrite Heq.
Qed.

End PageFacts.

(** ** The further properties on concrete inputs *)

(** X21 on three rows, the middle one with an amount that does not parse. *)
Lemma stmttrn_blocks_sorted_witness :
  sorts Ref.argsort_stable ∧
  mapping_ok df_three "date" "amt" None None ∧
  ∃ lines clk' times,
    render_lines0 df_three meta0 "date" "amt" None None false ""
      (clock_from noon) = Ok (lines, clk') ∧
    field "<DTPOSTED>" lines = strftime_Ymd <$> times ∧
    Sorted dt_le times ∧
    field "<DTPOSTED>" lines = ["20240103"; "20240105"].
Proof.
  assert (mapping_ok df_three "date" "amt" None None) as Hmap
    by mapping_ok_tac.
  split; [apply RefFacts.argsort_stable_sorts |]. split; [exact Hmap |].
  destruct (stmttrn_blocks_sorted Ref.to_datetime Ref.to_numeric
              Ref.argsort_stable Ref.float_repr RefFacts.argsort_stable_sorts
              df_three meta0 "date" "amt" None None false "" Hmap _ _ eq_refl
              eq_refl (clock_from noon))
    as (lines & clk' & times & Heq & Hposted & _ & Hs & _).
  exists lines, clk', times. split; [exact Heq |]. split; [exact Hposted |].
  split; [exact Hs | by_run Heq].
Defined.


(** X20 on the worked scenario with a format [to_datetime] rejects, and on a
    uint64 amount column with the sign inverted. *)
Lemma render_ofx_library_error_witness :
  columns df_two !! "date" = Some (series df_two "date") ∧
  render_ofx0 df_two meta0 "date" "amt" None None false "%Q" (clock_from noon)
  = Raise ValueError ∧
  render_ofx0 df_uint64 meta0 "date" "amt" None None true "" (clock_from noon)
  = Raise OverflowError.
Proof.
  assert (columns df_two !! "date" = Some (series df_two "date")) as Hd
    by (vm_compute; reflexivity).
  assert (columns df_uint64 !! "date" = Some (series df_uint64 "date")) as Hd'
    by (vm_compute; reflexivity).
  split; [exact Hd |]. split.
  - exact (proj1 (render_ofx_library_error Ref.to_datetime Ref.to_numeric
                    Ref.argsort_stable Ref.float_repr df_two meta0 "date" "amt"
                    None None false "%Q" _ (clock_from noon) Hd)
             ValueError eq_refl).
  - exact (proj2 (render_ofx_library_error Ref.to_datetime Ref.to_numeric
                    Ref.argsort_stable Ref.float_repr df_uint64 meta0 "date"
                    "amt" None None false "" _ (clock_from noon) Hd')
             _ (series df_uint64 "amt") eq_refl ltac:(vm_compute; reflexivity)
             eq_refl).
Defined.

(** X1 on a file name with an upper-case extension. *)
Lemma parse_dataframe_by_extension_witness :
  String.length ".CSV" = 4%nat ∧
  parse_dataframe (λ _, Ok df_two) (λ _, Raise ValueError)
    (mkUploadedFile "Jan.CSV" "") = Ok df_two.
Proof.
  split; [reflexivity |].
  exact (parse_dataframe_by_extension (λ _, Ok df_two) (λ _, Raise ValueError)
           "Jan" ".CSV" "" eq_refl).
Defined.

(** X2 on the least 64-bit integer, which the inversion leaves negative. *)
Lemma normalize_amount_invert_int_witness :
  no_uint64 (Ref.to_numeric [CInt 5; CInt (- 2 ^ 63)]) ∧
  Ref.to_numeric [CInt 5; CInt (- 2 ^ 63)] !! 1%nat = Some (NInt (- 2 ^ 63)) ∧
  ∃ values,
    normalize_amount Ref.to_numeric [CInt 5; CInt (- 2 ^ 63)] true = Ok values ∧
    values !! 1%nat = Some (NInt (- 2 ^ 63)).
Proof.
  assert (no_uint64 (Ref.to_numeric [CInt 5; CInt (- 2 ^ 63)])) as Hcol
    by reflexivity.
  assert (Ref.to_numeric [CInt 5; CInt (- 2 ^ 63)] !! 1%nat
          = Some (NInt (- 2 ^ 63))) as H by reflexivity.
  split; [exact Hcol |]. split; [exact H |].
  exact (normalize_amount_invert_int Ref.to_numeric _ 1%nat _ Hcol H).
Defined.


(** X5 on two calls that differ in the time of day and in the spacing of
    the memo, and return the same identifier. *)
Lemma generate_fitid_injective_witness :
  generate_fitid 7 jan5 f12_5 "a b"
  = generate_fitid 7 (mkdt 2024 1 5 12 0 0 0 0) f12_5 " ab" ∧
  strftime_Ymd jan5 = strftime_Ymd (mkdt 2024 1 5 12 0 0 0 0).
Proof.
  assert (generate_fitid 7 jan5 f12_5 "a b"
          = generate_fitid 7 (mkdt 2024 1 5 12 0 0 0 0) f12_5 " ab") as H
    by reflexivity.
  split; [exact H |].
  exact (proj1 (proj2 (generate_fitid_injective _ _ _ _ _ _ _ _ H))).
Defined.

(** X7 on the two rows of the worked scenario, with a date column the table
    does not have. *)
Lemma render_ofx_missing_date_col_witness :
  columns df_two !! "when" = None ∧
  render_ofx0 df_two meta0 "when" "amt" None None false "" (clock_from noon)
  = Raise (KeyError "when").
Proof.
  assert (columns df_two !! "when" = None) as H by reflexivity.
  split; [exact H |].
  exact (render_ofx_missing_date_col Ref.to_datetime Ref.to_numeric
           Ref.argsort_stable Ref.float_repr df_two meta0 "when" "amt" None None
           false "" (clock_from noon) H).
Defined.

(** X8 on the same table, with an amount column it does not have: the
    lookup fails when the dates were read, and the date conversion fails
    before it on a format it rejects. *)
Lemma render_ofx_missing_amount_col_witness :
  columns df_two !! "date" = Some (series df_two "date") ∧
  columns df_two !! "amount" = None ∧ "amount" ≠ "__date" ∧
  render_ofx0 df_two meta0 "date" "amount" None None false "" (clock_from noon)
  = Raise (KeyError "amount") ∧
  render_ofx0 df_two meta0 "date" "amount" None None false "%Q"
    (clock_from noon) = Raise ValueError.
Proof.
  assert (columns df_two !! "date" = Some (series df_two "date")) as Hd
    by (vm_compute; reflexivity).
  assert (columns df_two !! "amount" = None) as Ha by reflexivity.
  assert ("amount" ≠ "__date") as Hne by discriminate.
  split; [exact Hd |]. split; [exact Ha |]. split; [exact Hne |]. split.
  - exact (render_ofx_missing_amount_col Ref.to_datetime Ref.to_numeric
             Ref.argsort_stable Ref.float_repr df_two meta0 "date" "amount" None
             None false "" _ (clock_from noon) Hd Ha Hne).
  - exact (render_ofx_missing_amount_col Ref.to_datetime Ref.to_numeric
             Ref.argsort_stable Ref.float_repr df_two meta0 "date" "amount" None
             None false "%Q" _ (clock_from noon) Hd Ha Hne).
Defined.

(** X9 on the worked scenario with a memo column it lacks. *)
Lemma render_ofx_missing_memo_col_witness :
  sorts Ref.argsort_stable ∧
  is_Some (columns df_two !! "date") ∧ is_Some (columns df_two !! "amt") ∧
  "amt" ≠ "__date" ∧ mapped (Some "memo") = Some "memo" ∧
  columns df_two !! "memo" = None ∧ "memo" ≠ "__date" ∧ "memo" ≠ "__amount" ∧
  render_ofx0 df_two meta0 "date" "amt" None (Some "memo") false ""
    (clock_from noon) = Raise (KeyError "memo").
Proof.
  assert (is_Some (columns df_two !! "date")) as Hd
    by (eexists; vm_compute; reflexivity).
  assert (is_Some (columns df_two !! "amt")) as Ha
    by (eexists; vm_compute; reflexivity).
  assert ("amt" ≠ "__date") as Hne by discriminate.
  assert (mapped (Some "memo") = Some "memo") as Hm by reflexivity.
  assert (columns df_two !! "memo" = None) as Hc by reflexivity.
  assert ("memo" ≠ "__date") as H1 by discriminate.
  assert ("memo" ≠ "__amount") as H2 by discriminate.
  repeat (split; [assumption || apply RefFacts.argsort_stable_sorts |]).
  apply (render_ofx_missing_memo_col Ref.to_datetime Ref.to_numeric
           Ref.argsort_stable Ref.float_repr RefFacts.argsort_stable_sorts
           df_two meta0 "date" "amt" None (Some "memo") false "" Hd Ha Hne
           _ _ eq_refl eq_refl "memo" (clock_from noon) Hm Hc H1 H2).
  vm_compute. discriminate.
Defined.

(** X10 on the worked scenario with a name column it lacks. *)
Lemma render_ofx_missing_name_col_witness :
  sorts Ref.argsort_stable ∧
  is_Some (columns df_two !! "date") ∧ is_Some (columns df_two !! "amt") ∧
  "amt" ≠ "__date" ∧
  (∀ c', mapped None = Some c' → is_Some (columns df_two !! c')) ∧
  mapped (Some "payee") = Some "payee" ∧
  columns df_two !! "payee" = None ∧ "payee" ≠ "__date" ∧
  "payee" ≠ "__amount" ∧
  render_ofx0 df_two meta0 "date" "amt" (Some "payee") None false ""
    (clock_from noon) = Raise (KeyError "payee").
Proof.
  assert (is_Some (columns df_two !! "date")) as Hd
    by (eexists; vm_compute; reflexivity).
  assert (is_Some (columns df_two !! "amt")) as Ha
    by (eexists; vm_compute; reflexivity).
  assert ("amt" ≠ "__date") as Hne by discriminate.
  assert (∀ c', mapped None = Some c' → is_Some (columns df_two !! c')) as Hmemo
    by (intros c' Hc'; discriminate Hc').
  assert (mapped (Some "payee") = Some "payee") as Hm by reflexivity.
  assert (columns df_two !! "payee" = None) as Hc by reflexivity.
  assert ("payee" ≠ "__date") as H1 by discriminate.
  assert ("payee" ≠ "__amount") as H2 by discriminate.
  repeat (split; [assumption || apply RefFacts.argsort_stable_sorts |]).
  apply (render_ofx_missing_name_col Ref.to_datetime Ref.to_numeric
           Ref.argsort_stable Ref.float_repr RefFacts.argsort_stable_sorts
           df_two meta0 "date" "amt" (Some "payee") None false "" Hd Ha Hne
           _ _ eq_refl eq_refl "payee" (clock_from noon) Hmemo Hm Hc H1 H2).
  vm_compute. discriminate.
Defined.

(** X11 on a table with one row that parses and one that does not. *)
Lemma document_line_count_witness :
  sorts Ref.argsort_stable ∧
  mapping_ok df_with_bad "date" "amt" None None ∧
  ∃ lines clk',
    render_lines0 df_with_bad meta0 "date" "amt" None None false ""
      (clock_from noon) = Ok (lines, clk') ∧
    length lines = 59%nat.
Proof.
  assert (mapping_ok df_with_bad "date" "amt" None None) as Hmap
    by mapping_ok_tac.
  split; [apply RefFacts.argsort_stable_sorts |]. split; [exact Hmap |].
  destruct (document_line_count Ref.to_datetime Ref.to_numeric
              Ref.argsort_stable Ref.float_repr RefFacts.argsort_stable_sorts
              df_with_bad meta0 "date" "amt" None None false "" Hmap _ _ eq_refl eq_refl
              (clock_from noon)) as (lines & clk' & Heq & Hn).
  exists lines, clk'. split; [exact Heq |]. rewrite Hn. reflexivity.
Defined.

(** X12 on the two rows of the worked scenario. *)
Lemma statement_range_first_last_witness :
  sorts Ref.argsort_stable ∧
  mapping_ok df_two "date" "amt" None None ∧
  ∃ lines clk',
    render_lines0 df_two meta0 "date" "amt" None None false "" (clock_from noon)
    = Ok (lines, clk') ∧
    field "<DTPOSTED>" lines = ["20240103"; "20240105"] ∧
    header_field "<DTSTART>" lines = ["20240103"] ∧
    header_field "<DTEND>" lines = ["20240105"] ∧
    header_field "<DTASOF>" lines = ["20240105"].
Proof.
  assert (mapping_ok df_two "date" "amt" None None) as Hmap by mapping_ok_tac.
  split; [apply RefFacts.argsort_stable_sorts |]. split; [exact Hmap |].
  destruct (statement_range_first_last Ref.to_datetime Ref.to_numeric
              Ref.argsort_stable Ref.float_repr RefFacts.argsort_stable_sorts
              df_two meta0 "date" "amt" None None false "" Hmap _ _ eq_refl eq_refl
              (clock_from noon)) as (lines & clk' & Heq & Hasof & Hrange).
  exists lines, clk'. split; [exact Heq |].
  assert (field "<DTPOSTED>" lines = ["20240103"; "20240105"]) as Hp
    by by_run Heq.
  destruct (Hrange _ _ Hp) as [Hs He].
  split; [exact Hp |]. split; [exact Hs |]. split; [exact He |].
  rewrite Hasof. exact He.
Defined.


(** X14 on the two rows of the worked scenario, one of them a debit. *)
Lemma debit_minus_sign_witness :
  sorts Ref.argsort_stable ∧
  mapping_ok df_two "date" "amt" None None ∧
  ∃ lines clk' blocks,
    render_lines0 df_two meta0 "date" "amt" None None false "" (clock_from noon)
    = Ok (lines, clk') ∧
    document meta0 blocks lines ∧
    Forall (λ b, ∃ ty amt,
              field "<TRNTYPE>" b = [ty] ∧ field "<TRNAMT>" b = [amt] ∧
              (ty = "DEBIT" → ∃ rest, amt = String "-" rest))
      blocks ∧
    field "<TRNTYPE>" lines = ["DEBIT"; "CREDIT"] ∧
    field "<TRNAMT>" lines = ["-50.50"; "100.00"].
Proof.
  assert (mapping_ok df_two "date" "amt" None None) as Hmap by mapping_ok_tac.
  split; [apply RefFacts.argsort_stable_sorts |]. split; [exact Hmap |].
  destruct (debit_minus_sign Ref.to_datetime Ref.to_numeric
              Ref.argsort_stable Ref.float_repr RefFacts.argsort_stable_sorts
              df_two meta0 "date" "amt" None None false "" Hmap _ _ eq_refl eq_refl
              (clock_from noon)) as (lines & clk' & blocks & Heq & Hdoc & Hall).
  exists lines, clk', blocks. split; [exact Heq |]. split; [exact Hdoc |].
  split.
  - eapply Forall_impl; [exact Hall |].
    intros b (ty & amt & Hty & Hamt & _ & _ & Hminus).
    exists ty, amt. split; [exact Hty |]. split; [exact Hamt | exact Hminus].
  - split; by_run Heq.
Defined.

(** X15 on a table whose memo cell has a space on either side. *)
Lemma memo_name_trimmed_witness :
  sorts Ref.argsort_stable ∧
  mapping_ok df_missing_text "date" "amt" (Some "payee") (Some "memo") ∧
  ∃ lines clk',
    render_lines0 df_missing_text meta0 "date" "amt" (Some "payee")
      (Some "memo") false "" (clock_from noon) = Ok (lines, clk') ∧
    field "<MEMO>" lines = ["nan"; "rent"] ∧
    Forall trimmed (field "<MEMO>" lines) ∧
    Forall trimmed (field "<NAME>" lines).
Proof.
  assert (mapping_ok df_missing_text "date" "amt" (Some "payee") (Some "memo"))
    as Hmap by mapping_ok_tac.
  split; [apply RefFacts.argsort_stable_sorts |]. split; [exact Hmap |].
  destruct (memo_name_trimmed Ref.to_datetime Ref.to_numeric
              Ref.argsort_stable Ref.float_repr RefFacts.argsort_stable_sorts
              df_missing_text meta0 "date" "amt" (Some "payee") (Some "memo")
              false "" Hmap _ _ eq_refl eq_refl (clock_from noon))
    as (lines & clk' & Heq & Hmemo & Hname).
  exists lines, clk'. split; [exact Heq |]. split; [by_run Heq |].
  split; [exact Hmemo | exact Hname].
Defined.

(** X16 on a row with a memo and a payee cell of two spaces. *)
Lemma blank_name_is_transaction_witness :
  sorts Ref.argsort_stable ∧
  mapping_ok df_blank_payee "date" "amt" (Some "payee") (Some "memo") ∧
  ∃ lines clk',
    render_lines0 df_blank_payee meta0 "date" "amt" (Some "payee")
      (Some "memo") false "" (clock_from noon) = Ok (lines, clk') ∧
    field "<MEMO>" lines = ["rent"] ∧
    field "<NAME>" lines = ["Transaction"].
Proof.
  assert (mapping_ok df_blank_payee "date" "amt" (Some "payee") (Some "memo"))
    as Hmap by mapping_ok_tac.
  split; [apply RefFacts.argsort_stable_sorts |]. split; [exact Hmap |].
  destruct (blank_name_is_transaction Ref.to_datetime Ref.to_numeric
              Ref.argsort_stable Ref.float_repr RefFacts.argsort_stable_sorts
              df_blank_payee meta0 "date" "amt" (Some "payee") (Some "memo")
              false "" Hmap _ _ eq_refl eq_refl (clock_from noon))
    as (lines & clk' & order & blocks & Heq & _).
  exists lines, clk'. split; [exact Heq |]. split; by_run Heq.
Defined.

(** X17 on the two rows of the worked scenario. *)
Lemma invert_keeps_rows_witness :
  sorts Ref.argsort_stable ∧
  mapping_ok df_two "date" "amt" None None ∧
  ∃ lines clk1 lines' clk2,
    render_lines0 df_two meta0 "date" "amt" None None false "" (clock_from noon)
    = Ok (lines, clk1) ∧
    render_lines0 df_two meta0 "date" "amt" None None true "" (clock_from noon)
    = Ok (lines', clk2) ∧
    field "<DTPOSTED>" lines' = field "<DTPOSTED>" lines ∧
    field "<TRNAMT>" lines = ["-50.50"; "100.00"] ∧
    field "<TRNAMT>" lines' = ["50.50"; "-100.00"].
Proof.
  assert (mapping_ok df_two "date" "amt" None None) as Hmap by mapping_ok_tac.
  split; [apply RefFacts.argsort_stable_sorts |]. split; [exact Hmap |].
  destruct (invert_keeps_rows Ref.to_datetime Ref.to_numeric
              Ref.argsort_stable Ref.float_repr RefFacts.argsort_stable_sorts
              df_two meta0 "date" "amt" None None "" Hmap _ eq_refl eq_refl
              (clock_from noon))
    as (lines & clk1 & lines' & clk2 & Heq & Heq' & _ & Hposted & _).
  exists lines, clk1, lines', clk2.
  split; [exact Heq |]. split; [exact Heq' |]. split; [exact Hposted |].
  split; [by_run Heq | by_run Heq'].
Defined.

(** X18 on a file name with two dots. *)
Lemma main_download_name_witness :
  ∃ d clk',
    page0 (Some (mkUploadedFile "Jan.2024.csv" "")) widgets0 (clock_from noon)
    = Ok (Some d, clk') ∧
    download_file_name d = "Jan.2024.ofx" ∧
    download_mime d = "application/x-ofx".
Proof.
  destruct (page0 (Some (mkUploadedFile "Jan.2024.csv" "")) widgets0
              (clock_from noon)) as [[[d|] clk']|e] eqn:E;
    try (vm_compute in E; discriminate E).
  exists d, clk'. split; [reflexivity |].
  destruct (main_download_name Ref.to_datetime Ref.to_numeric
              Ref.argsort_stable Ref.float_repr (λ _, Ok df_two)
              (λ _, Raise ValueError) _ widgets0 (clock_from noon) d clk' E)
    as (Hmime & Hext & _).
  split; [| exact Hmime].
  exact (Hext "Jan.2024" "csv" eq_refl eq_refl).
Defined.

(** X19 on the worked scenario, uploaded as a CSV file. *)
Lemma main_offers_download_witness :
  sorts Ref.argsort_stable ∧
  parse_dataframe (λ _, Ok df_two) (λ _, Raise ValueError)
    (mkUploadedFile "Jan.2024.csv" "") = Ok df_two ∧
  w_generate widgets0 = true ∧
  w_date_col widgets0 ∈ required_options df_two ∧
  w_amount_col widgets0 ∈ required_options df_two ∧
  w_name_col widgets0 ∈ optional_options df_two ∧
  w_memo_col widgets0 ∈ optional_options df_two ∧
  ∃ d clk',
    page0 (Some (mkUploadedFile "Jan.2024.csv" "")) widgets0 (clock_from noon)
    = Ok (Some d, clk') ∧
    download_file_name d = "Jan.2024.ofx".
Proof.
  assert (parse_dataframe (λ _, Ok df_two) (λ _, Raise ValueError)
            (mkUploadedFile "Jan.2024.csv" "") = Ok df_two) as Hp by reflexivity.
  assert (w_generate widgets0 = true) as Hg by reflexivity.
  assert (w_date_col widgets0 ∈ required_options df_two) as Hd
    by (apply (list_elem_of_lookup_2 _ 1%nat); reflexivity).
  assert (w_amount_col widgets0 ∈ required_options df_two) as Ha
    by (apply (list_elem_of_lookup_2 _ 0%nat); reflexivity).
  assert (w_name_col widgets0 ∈ optional_options df_two) as Hn
    by (apply (list_elem_of_lookup_2 _ 0%nat); reflexivity).
  assert (w_memo_col widgets0 ∈ optional_options df_two) as Hm
    by (apply (list_elem_of_lookup_2 _ 0%nat); reflexivity).
  split; [apply RefFacts.argsort_stable_sorts |].
  repeat (split; [assumption |]).
  destruct (main_offers_download Ref.to_datetime Ref.to_numeric
              Ref.argsort_stable Ref.float_repr (λ _, Ok df_two)
              (λ _, Raise ValueError) RefFacts.argsort_stable_sorts
              (mkUploadedFile "Jan.2024.csv" "") widgets0 df_two _ _
              (clock_from noon) Hp Hg Hd Ha Hn Hm eq_refl eq_refl)
    as (text & clk' & _ & Hmain).
  eexists _, clk'. split; [exact Hmain |]. reflexivity.
Defined.
